(** * ServiceMate invoice subsystem: a shallow embedding of [app.py]

    The development follows the invoice generation subsystem of the
    ServiceMate CRM: exact decimal money, the pricing rule of
    [create_invoice], the month-scoped numbering of [next_invoice_number],
    the layout performed by [generate_invoice_pdf], the wire format of
    [serialize_invoice_record] and the payment upsert of [record_payment].

    Python values are modelled by the data they carry: a [Decimal] is a
    coefficient and a power of ten, a JSON request body is a tree of
    [json] values with Python's truthiness, a row of the relational
    store is a record whose nullable columns are options, and an
    exception is the [Raised] outcome of a handler. *)

From Stdlib Require Import ZArith String Ascii List Lia Bool.
From Stdlib Require Import DecimalString DecimalPos DecimalFacts.
From Stdlib Require Import Floats.SpecFloat.
From stdpp Require Import gmap strings list.

Local Open Scope string_scope.
Local Open Scope list_scope.
Local Open Scope Z_scope.

(** * The model *)

(** ** Money: [decimal.Decimal] *)

(** A finite [Decimal]: the number [coefficient * 10 ^ exponent].  The
    literal [Decimal("3000.00")] is [mkDecimal 300000 (-2)].  Arithmetic
    is the exact arithmetic [Decimal] performs while coefficients stay
    within the context precision of 28 digits; the result of [+] and [-]
    carries the smaller of the two exponents, as in Python.  A result
    of more than 28 digits, which Python rounds, and the special values
    ([Infinity], [NaN]) are outside the model: the statements on amounts
    carry the bounds that keep results within the precision. *)
Record Decimal : Type := mkDecimal { coefficient : Z; exponent : Z }.

Definition rescale (d : Decimal) (e : Z) : Z :=
  coefficient d * 10 ^ (exponent d - e).

Definition common_exponent (a b : Decimal) : Z :=
  Z.min (exponent a) (exponent b).

Definition dec_add (a b : Decimal) : Decimal :=
  let e := common_exponent a b in mkDecimal (rescale a e + rescale b e) e.

Definition dec_sub (a b : Decimal) : Decimal :=
  let e := common_exponent a b in mkDecimal (rescale a e - rescale b e) e.

Definition dec_compare (a b : Decimal) : comparison :=
  let e := common_exponent a b in rescale a e ?= rescale b e.

(** [a < b], [a > b] and [a == b] on [Decimal]. *)
Definition dec_ltb (a b : Decimal) : bool :=
  match dec_compare a b with Lt => true | _ => false end.

Definition dec_gtb (a b : Decimal) : bool := dec_ltb b a.

Definition dec_eqb (a b : Decimal) : bool :=
  match dec_compare a b with Eq => true | _ => false end.

Definition dec_leb (a b : Decimal) : bool := negb (dec_ltb b a).

(** [Decimal("0")] *)
Definition dec_zero : Decimal := mkDecimal 0 0.


#[global] Instance Decimal_eq_dec : EqDecision Decimal.
Proof. solve_decision. Defined.

(** ** The pricing rule of [create_invoice] *)

Record Pricing : Type := mkPricing {
  pr_plan_price : Decimal;
  pr_setup_fee_amount : Decimal;
  pr_setup_discount : Decimal;
  pr_setup_fee_net : Decimal;
  pr_subtotal : Decimal;
  pr_tax : Decimal;
  pr_total : Decimal
}.

(** Lines 1307-1319 of [create_invoice]: [setup_discount] is the
    requested discount after [as_decimal], [setup_fee_amount] is
    [DEFAULT_SETUP_FEE] and [plan_price] is [as_decimal(plan["price"])]. *)
Definition invoice_pricing (plan_price setup_fee_amount setup_discount : Decimal)
  : Pricing :=
  let setup_discount :=
    if dec_ltb setup_discount dec_zero then dec_zero else setup_discount in
  let setup_discount :=
    if dec_gtb setup_discount setup_fee_amount then setup_fee_amount
    else setup_discount in
  let setup_fee_net := dec_sub setup_fee_amount setup_discount in
  let subtotal := dec_add plan_price setup_fee_net in
  let tax := dec_zero in
  let total := subtotal in
  mkPricing plan_price setup_fee_amount setup_discount setup_fee_net
            subtotal tax total.


(** ** Text formatting *)

(** [str(n)] for an integer. *)
Definition str_of_Z (n : Z) : string := NilZero.string_of_int (Z.to_int n).

Fixpoint zeros (k : nat) : string :=
  match k with O => "" | S k' => String "0" (zeros k') end.

(** [f"{n:0{width}d}"] for [n >= 0]: digits padded with zeros on the left
    up to [width] characters, never truncated. *)
Definition format_0d (width : nat) (n : Z) : string :=
  let digits := str_of_Z n in
  zeros (width - String.length digits) +:+ digits.

(** Thousands separators: [group3 "1234567" = "1,234,567"]. *)
Fixpoint group3_rev (digits : list ascii) (k : nat) : list ascii :=
  match digits with
  | [] => []
  | c :: rest =>
      match k, rest with
      | 2%nat, _ :: _ => c :: ","%char :: group3_rev rest 0
      | _, _ => c :: group3_rev rest (S k)
      end
  end.

Definition group3 (digits : string) : string :=
  string_of_list_ascii
    (rev (group3_rev (rev (list_ascii_of_string digits)) 0)).

(** Rounding of [n / 10^k] to the nearest integer, ties to even, for
    [n >= 0] (the rounding of [Decimal.__format__]). *)
Definition round_half_even (n : Z) (k : Z) : Z :=
  if k <=? 0 then n * 10 ^ (- k)
  else
    let q := n / 10 ^ k in
    let r := n mod 10 ^ k in
    match 2 * r ?= 10 ^ k with
    | Lt => q
    | Gt => q + 1
    | Eq => if Z.even q then q else q + 1
    end.

(** [f"{d:,.2f}"] for a [Decimal]. *)
Definition format_money (d : Decimal) : string :=
  let cents := round_half_even (Z.abs (coefficient d)) (- (exponent d + 2)) in
  (if coefficient d <? 0 then "-" else "")
  +:+ group3 (str_of_Z (cents / 100)) +:+ "." +:+ format_0d 2 (cents mod 100).

(** ASCII case folding, for comparisons under a case-insensitive
    collation. *)
Definition upper_ascii (c : ascii) : ascii :=
  let n := N_of_ascii c in
  if ((97 <=? n) && (n <=? 122))%N then ascii_of_N (n - 32) else c.

Fixpoint upper (s : string) : string :=
  match s with
  | EmptyString => EmptyString
  | String c rest => String (upper_ascii c) (upper rest)
  end.

(** [str.strip()] over ASCII white space, and [str.split("|")].  On a
    text of ASCII characters this is what Python removes; the white
    space of Unicode beyond ASCII (U+00A0 and the like) is not
    modelled. *)
Definition is_space (c : ascii) : bool :=
  let n := N_of_ascii c in
  ((n =? 32) || ((9 <=? n) && (n <=? 13)) || ((28 <=? n) && (n <=? 31)))%N.

Fixpoint lstrip (s : string) : string :=
  match s with
  | String c rest => if is_space c then lstrip rest else s
  | EmptyString => EmptyString
  end.

Definition string_rev (s : string) : string :=
  string_of_list_ascii (rev (list_ascii_of_string s)).

Definition strip (s : string) : string :=
  string_rev (lstrip (string_rev (lstrip s))).

Fixpoint split_on (sep : ascii) (s : string) (current : string) : list string :=
  match s with
  | EmptyString => [string_rev current]
  | String c rest =>
      if Ascii.eqb c sep then string_rev current :: split_on sep rest ""
      else split_on sep rest (String c current)
  end.

Definition split_pipe (s : string) : list string := split_on "|"%char s "".

(** ** Python values *)

(** What a handler produces: a returned value or a raised exception (which
    the framework turns into a 500 response). *)
Inductive outcome (A : Type) : Type :=
  | Returned (a : A)
  | Raised (exn : string).
Arguments Returned {A} a.
Arguments Raised {A} exn.

Definition obind {A B} (m : outcome A) (k : A -> outcome B) : outcome B :=
  match m with Returned a => k a | Raised e => Raised e end.

Notation "'try' x <- m 'in' k" := (obind m (fun x => k))
  (at level 10, x name, m at level 100, k at level 200).

Definition or_raise {A} (exn : string) (o : option A) : outcome A :=
  match o with Some a => Returned a | None => Raised exn end.

(** A parsed JSON document, as [request.get_json()] returns it. *)
#[local] Set Warnings "-register-all".
Inductive json : Type :=
  | JNull
  | JBool (b : bool)
  | JNum (d : Decimal)
  | JStr (s : string)
  | JArr (items : list json)
  | JObj (members : list (string * json)).

(** Python truthiness: [None], [False], zero, the empty string and empty
    containers are falsy. *)
Definition truthy (j : json) : bool :=
  match j with
  | JNull => false
  | JBool b => b
  | JNum d => negb (coefficient d =? 0)
  | JStr s => negb (String.eqb s "")
  | JArr items => match items with [] => false | _ => true end
  | JObj members => match members with [] => false | _ => true end
  end.

(** A [dict] built from JSON members: a later duplicate key wins. *)
Definition dict_of_members (members : list (string * json)) : gmap string json :=
  foldl (fun m kv => <[kv.1 := kv.2]> m) ∅ members.

(** [payload = request.get_json() or {}]; a body that is neither falsy nor
    an object has no [.get]. *)
Definition request_payload (body : json) : outcome (gmap string json) :=
  if negb (truthy body) then Returned ∅
  else match body with
       | JObj members => Returned (dict_of_members members)
       | _ => Raised "AttributeError"
       end.

(** [payload.get(key)] *)
Definition dict_get (payload : gmap string json) (key : string) : json :=
  default JNull (payload !! key).

(** A civil date and time; [tz_aware] tells a [datetime] carrying the
    zone [IST] from a naive one.  Rows read from the store are naive, the
    aware values are those this program builds with [IST]. *)
Record datetime : Type := mkDatetime {
  year : Z; month : Z; day : Z; hour : Z; minute : Z; second : Z;
  tz_aware : bool
}.

Definition month_abbr (m : Z) : string :=
  nth (Z.to_nat (m - 1))
      ["Jan"; "Feb"; "Mar"; "Apr"; "May"; "Jun";
       "Jul"; "Aug"; "Sep"; "Oct"; "Nov"; "Dec"] "".

(** [strftime("INV%Y%m")], [strftime("%Y%m%dT%H%M%S")] and
    [strftime("%d %b %Y")]. *)
Definition strftime_INV_Y_m (t : datetime) : string :=
  "INV" +:+ format_0d 4 (year t) +:+ format_0d 2 (month t).

Definition strftime_compact (t : datetime) : string :=
  format_0d 4 (year t) +:+ format_0d 2 (month t) +:+ format_0d 2 (day t)
  +:+ "T" +:+ format_0d 2 (hour t) +:+ format_0d 2 (minute t)
  +:+ format_0d 2 (second t).

Definition strftime_d_b_Y (t : datetime) : string :=
  format_0d 2 (day t) +:+ " " +:+ month_abbr (month t) +:+ " "
  +:+ format_0d 4 (year t).

(** The values found in a row dictionary. *)
Inductive pyvalue : Type :=
  | PNone
  | PInt (n : Z)
  | PStr (s : string)
  | PDecimal (d : Decimal)
  | PFloat (f : spec_float)
  | PDatetime (t : datetime).

(** An opened image, identified by where it was read from. *)
Inductive ImageReader : Type := Image (source : string).

(** [value or fallback] on optional strings. *)
Definition str_or (value : option string) (fallback : option string)
  : option string :=
  match value with
  | Some s => if String.eqb s "" then fallback else value
  | None => fallback
  end.

(** [f"{value}"] for an optional string and an optional integer. *)
Definition fmt_opt_str (value : option string) : string :=
  match value with Some s => s | None => "None" end.

Definition fmt_opt_int (value : option Z) : string :=
  match value with Some n => str_of_Z n | None => "None" end.

(** ** Collaborators

    What the program reads from its surroundings and never defines: the
    process configuration (environment variables read at start-up), the
    Python and reportlab library calls whose results it only passes on,
    the asset sources, and the conversions the relational store applies
    to a bound parameter.  A conversion returns [None] when the statement
    fails. *)
Class Platform : Type := {
  (** configuration *)
  DEFAULT_SETUP_FEE : Decimal;
  NEIGHSHOP_LOGO_URL : string;
  NEIGHSHOP_LOGO_PATH : string;
  DEFAULT_BANK_NAME : string;
  DEFAULT_BANK_ACCOUNT : string;
  DEFAULT_ACCOUNT_NUMBER : string;
  DEFAULT_UPI_LABEL : string;
  INVOICE_PAYMENT_LINES : option string;
  (** library calls *)
  Decimal_of_str : string -> option Decimal;
  textwrap_wrap : string -> nat -> list string;
  table_wrap_height : list (string * string) -> Z;
  strptime_ist : string -> option datetime;
  Decimal_str : Decimal -> string;
  float_repr : spec_float -> string;
  IST_utcoffset : string;
  (** assets: [NEIGHSHOP_LOGO_PATH.exists()], opening that file, and
      [requests.get] followed by [ImageReader]; [None] is a failure *)
  logo_path_exists : bool;
  open_logo_file : option ImageReader;
  fetch_image : string -> option ImageReader;
  (** the store's assignment of a bound parameter to an INT, a
      DECIMAL(10,2), a DATE and a text column ([Some None] is NULL) *)
  column_int : json -> option Z;
  column_decimal : json -> option Decimal;
  column_date : json -> option (option string);
  column_text : json -> option (option string)
}.

(** ** The relational store and the file system *)

Record Lead : Type := mkLead {
  l_name : option string;
  l_email : option string;
  l_phone : option string;
  l_address : option string;
  l_brand_name : option string
}.

Record Plan : Type := mkPlan { p_name : string; p_price : Decimal }.

(** A row of [invoices]. *)
Record Invoice : Type := mkInvoice {
  i_id : Z;
  i_lead_id : Z;
  i_plan_id : Z;
  i_invoice_number : string;
  i_subtotal : Decimal;
  i_tax : Decimal;
  i_total : Decimal;
  i_setup_fee_amount : Decimal;
  i_setup_fee_discount : Decimal;
  i_setup_fee_net : Decimal;
  i_generated_at : datetime;
  i_notes : option string;
  i_pdf_url : option string
}.

(** A row of [lead_payments]; [(pay_lead_id, pay_billing_month)] is the
    unique key [lead_month_unique]. *)
Record Payment : Type := mkPayment {
  pay_id : Z;
  pay_lead_id : Z;
  pay_invoice_id : option Z;
  pay_billing_month : string;
  pay_amount : Decimal;
  pay_paid_on : option string;
  pay_payment_method : option string;
  pay_note : option string
}.

(** A drawing instruction sent to the canvas.  Lengths are exact
    rationals written in units of 1/127 point, so that one millimetre,
    72/25.4 points, is the integer [mm]. *)
Inductive CanvasOp : Type :=
  | SetFillColor (color : string)
  | SetStrokeColor (color : string)
  | SetFont (name : string) (size : Z)
  | DrawString (x y : Z) (text : string)
  | DrawImage (image : ImageReader) (x y width height : Z)
  | DrawLine (x1 y1 x2 y2 : Z)
  | DrawTable (rows : list (string * string)) (x y : Z)
  | ShowPage.

Record World : Type := mkWorld {
  leads : gmap Z Lead;
  plans : gmap Z Plan;
  invoices : list Invoice;
  lead_payments : list Payment;
  next_invoice_id : Z;
  next_payment_id : Z;
  (** the files of [INVOICE_PDF_DIR], by name *)
  files : gmap string (list CanvasOp);
  LOGO_CACHE : gmap string (option ImageReader)
}.

Definition set_invoices (w : World) (rows : list Invoice) (next : Z) : World :=
  mkWorld (leads w) (plans w) rows (lead_payments w) next
          (next_payment_id w) (files w) (LOGO_CACHE w).

Definition set_lead_payments (w : World) (rows : list Payment) (next : Z) : World :=
  mkWorld (leads w) (plans w) (invoices w) rows (next_invoice_id w) next
          (files w) (LOGO_CACHE w).

Definition set_files (w : World) (fs : gmap string (list CanvasOp)) : World :=
  mkWorld (leads w) (plans w) (invoices w) (lead_payments w)
          (next_invoice_id w) (next_payment_id w) fs (LOGO_CACHE w).

Definition set_LOGO_CACHE (w : World) (c : gmap string (option ImageReader)) : World :=
  mkWorld (leads w) (plans w) (invoices w) (lead_payments w)
          (next_invoice_id w) (next_payment_id w) (files w) c.

(** The readings of the clock a request makes: [datetime.utcnow()],
    [datetime.now(IST)] and the store's [CURRENT_TIMESTAMP]. *)
Record Clock : Type := mkClock {
  utcnow : datetime;
  now_ist : datetime;
  current_timestamp : datetime
}.

(** ** Invoice numbering *)

(** [invoice_number LIKE prefix%] for a prefix without wild cards, under
    the case-insensitive collation of the connection. *)
Definition like_prefix (prefix text : string) : bool :=
  String.prefix (upper prefix) (upper text).

(** [SELECT COUNT( * ) FROM invoices WHERE invoice_number LIKE prefix%] *)
Definition count_invoice_numbers (prefix : string) (rows : list Invoice) : Z :=
  Z.of_nat (length (filter (fun r => like_prefix prefix (i_invoice_number r) = true) rows)).

Definition next_invoice_number (clock : Clock) (w : World) : string :=
  let today := utcnow clock in
  let prefix := strftime_INV_Y_m today in
  let seq := count_invoice_numbers prefix (invoices w) + 1 in
  prefix +:+ format_0d 4 seq.

(** ** The joined invoice row

    The dictionary [fetch_invoice_details] returns: the columns of the
    invoice with those of its lead and plan.  An entry read with [.get]
    is an option, [None] standing for a NULL column or a missing key. *)
Record InvoiceDetails : Type := mkInvoiceDetails {
  d_id : Z;
  d_lead_id : option Z;
  d_plan_id : option Z;
  d_invoice_number : string;
  d_subtotal : option Decimal;
  d_tax : option Decimal;
  d_total : option Decimal;
  d_setup_fee_amount : option Decimal;
  d_setup_fee_discount : option Decimal;
  d_setup_fee_net : option Decimal;
  d_generated_at : option datetime;
  d_notes : option string;
  d_pdf_url : option string;
  d_lead_name : option string;
  d_lead_email : option string;
  d_lead_phone : option string;
  d_lead_address : option string;
  d_brand_name : option string;
  d_plan_name : option string;
  d_plan_price : option Decimal
}.

Definition set_generated_at (inv : InvoiceDetails) (t : option datetime) : InvoiceDetails :=
  mkInvoiceDetails (d_id inv) (d_lead_id inv) (d_plan_id inv) (d_invoice_number inv)
    (d_subtotal inv) (d_tax inv) (d_total inv) (d_setup_fee_amount inv)
    (d_setup_fee_discount inv) (d_setup_fee_net inv) t (d_notes inv)
    (d_pdf_url inv) (d_lead_name inv) (d_lead_email inv) (d_lead_phone inv)
    (d_lead_address inv) (d_brand_name inv) (d_plan_name inv) (d_plan_price inv).

Definition set_pdf_url (inv : InvoiceDetails) (u : option string) : InvoiceDetails :=
  mkInvoiceDetails (d_id inv) (d_lead_id inv) (d_plan_id inv) (d_invoice_number inv)
    (d_subtotal inv) (d_tax inv) (d_total inv) (d_setup_fee_amount inv)
    (d_setup_fee_discount inv) (d_setup_fee_net inv) (d_generated_at inv)
    (d_notes inv) u (d_lead_name inv) (d_lead_email inv) (d_lead_phone inv)
    (d_lead_address inv) (d_brand_name inv) (d_plan_name inv) (d_plan_price inv).

Definition set_plan_price (inv : InvoiceDetails) (p : option Decimal) : InvoiceDetails :=
  mkInvoiceDetails (d_id inv) (d_lead_id inv) (d_plan_id inv) (d_invoice_number inv)
    (d_subtotal inv) (d_tax inv) (d_total inv) (d_setup_fee_amount inv)
    (d_setup_fee_discount inv) (d_setup_fee_net inv) (d_generated_at inv)
    (d_notes inv) (d_pdf_url inv) (d_lead_name inv) (d_lead_email inv)
    (d_lead_phone inv) (d_lead_address inv) (d_brand_name inv) (d_plan_name inv) p.

(** [as_decimal] on a DECIMAL column: [None] becomes [Decimal("0")]. *)
Definition as_decimal (value : option Decimal) : Decimal :=
  match value with Some d => d | None => dec_zero end.

(** [to_ist_datetime] on a [datetime] column: a naive value is given the
    zone [IST], an aware one is already in it. *)
Definition to_ist_datetime (value : option datetime) : option datetime :=
  match value with
  | None => None
  | Some t =>
      Some (mkDatetime (year t) (month t) (day t) (hour t) (minute t)
                       (second t) true)
  end.

Definition format_invoice_date (clock : Clock) (value : option datetime) : string :=
  let dt_value :=
    match to_ist_datetime value with Some t => t | None => now_ist clock end in
  strftime_d_b_Y dt_value.

Section Renderer.
Context `{Platform}.

Definition wrap_text (text : option string) (width : nat) : list string :=
  match text with
  | None => ["NA"]
  | Some s =>
      if String.eqb s "" then ["NA"]
      else match textwrap_wrap s width with
           | [] => ["NA"]
           | lines => lines
           end
  end.

(** [get_logo_image], with the cache passed in and out. *)
Definition get_logo_image (url : option string)
    (cache : gmap string (option ImageReader))
  : option ImageReader * gmap string (option ImageReader) :=
  if (match url with Some u => String.eqb u "local_neighshop" | None => false end)
     && logo_path_exists
  then
    let cache_key := NEIGHSHOP_LOGO_PATH in
    match mjoin (cache !! cache_key) with
    | Some cached => (Some cached, cache)
    | None =>
        let cached := open_logo_file in
        (cached, <[cache_key := cached]> cache)
    end
  else
    match url with
    | None => (None, cache)
    | Some u =>
        if String.eqb u "" then (None, cache)
        else match mjoin (cache !! u) with
             | Some cached => (Some cached, cache)
             | None =>
                 let cached := fetch_image u in
                 (cached, <[u := cached]> cache)
             end
    end.

(** Lengths: one point and one millimetre, the A4 page and the margin. *)
Definition pt : Z := 127.
Definition mm : Z := 360.
Definition A4_width : Z := 210 * mm.
Definition A4_height : Z := 297 * mm.
Definition margin : Z := 20 * mm.
Definition row_height : Z := 16 * pt.

Definition BUSINESS_ADDRESS : string :=
  "Shri Ram Nagar, 8-B, opp. Dhanwantri Hospital & Research Centre, near New Sanganer Road, Mansarovar, Jaipur, Rajasthan 302020".

Definition QR_URL : string :=
  "https://github.com/AKM-dv/servicemate/blob/main/WhatsApp%20Image%202025-11-07%20at%2001.24.34.jpeg?raw=true".

(** [for line in lines: drawString(x, y, line); y -= step] *)
Fixpoint draw_lines (x y step : Z) (lines : list string) : list CanvasOp * Z :=
  match lines with
  | [] => ([], y)
  | line :: rest =>
      let '(ops, y') := draw_lines x (y - step) step rest in
      (DrawString x y line :: ops, y')
  end.

(** The loop of [draw_field] over [enumerate(wrap_text(value))]. *)
Fixpoint draw_field_lines (start_x current_y : Z) (idx : nat)
    (lines : list string) : list CanvasOp * Z :=
  match lines with
  | [] => ([], current_y)
  | line :: rest =>
      let current_y :=
        match idx with O => current_y | S _ => current_y - row_height end in
      let '(ops, y') := draw_field_lines start_x current_y (S idx) rest in
      (DrawString (start_x + 60 * pt) current_y line :: ops, y')
  end.

Definition draw_field (label : string) (value : option string)
    (start_x start_y : Z) : list CanvasOp * Z :=
  let '(ops, current_y) :=
    draw_field_lines start_x start_y 0 (wrap_text value 70) in
  ([SetFont "Helvetica-Bold" 10; DrawString start_x start_y (label +:+ ":");
    SetFont "Helvetica" 10] ++ ops,
   current_y - row_height).

Fixpoint draw_left_fields (fields : list (string * option string))
    (left_column_x left_y : Z) : list CanvasOp * Z :=
  match fields with
  | [] => ([], left_y)
  | (label, value) :: rest =>
      let '(ops, left_y) :=
        draw_field label (str_or value (Some "NA")) left_column_x left_y in
      let '(ops', left_y) := draw_left_fields rest left_column_x left_y in
      (ops ++ ops', left_y)
  end.

Fixpoint draw_right_fields (fields : list (string * option string))
    (right_column_x right_y : Z) : list CanvasOp * Z :=
  match fields with
  | [] => ([], right_y)
  | (label, value) :: rest =>
      let '(ops', y') :=
        draw_right_fields rest right_column_x (right_y - row_height) in
      ([SetFont "Helvetica-Bold" 10;
        DrawString right_column_x right_y (label +:+ ":");
        SetFont "Helvetica" 10;
        DrawString (right_column_x + 80 * pt) right_y
                   (default "NA" (str_or value (Some "NA")))] ++ ops', y')
  end.

Definition left_fields (invoice : InvoiceDetails) : list (string * option string) :=
  [("Client", str_or (d_lead_name invoice) (d_lead_phone invoice));
   ("Brand", d_brand_name invoice);
   ("Email", d_lead_email invoice);
   ("Phone", d_lead_phone invoice);
   ("Address", d_lead_address invoice)].

Definition right_fields (clock : Clock) (generated_dt : datetime)
    (invoice : InvoiceDetails) : list (string * option string) :=
  [("Invoice #", Some (d_invoice_number invoice));
   ("Invoice Date", Some (format_invoice_date clock (Some generated_dt)));
   ("Plan", d_plan_name invoice)].

(** The rows of the cost table. *)
Definition cost_rows (invoice : InvoiceDetails) : list (string * string) :=
  let plan_price := as_decimal (d_plan_price invoice) in
  let setup_fee_amount := as_decimal (d_setup_fee_amount invoice) in
  let setup_discount := as_decimal (d_setup_fee_discount invoice) in
  let subtotal := as_decimal (d_subtotal invoice) in
  let total_due := as_decimal (d_total invoice) in
  [("Description", "Amount (INR)");
   ("Plan - " +:+ fmt_opt_str (d_plan_name invoice), format_money plan_price);
   ("One-time Setup Fee", format_money setup_fee_amount)]
  ++ (if dec_gtb setup_discount dec_zero
      then [("One-time Discount", "-" +:+ format_money setup_discount)]
      else [])
  ++ [("Subtotal", format_money subtotal);
      ("Grand Total", format_money total_due)].

Definition payment_lines : list string :=
  let default_payment_lines :=
    ["Bank Name: " +:+ DEFAULT_BANK_ACCOUNT;
     "Account Holder: " +:+ DEFAULT_BANK_NAME;
     "Account Number: " +:+ DEFAULT_ACCOUNT_NUMBER;
     "UPI: " +:+ DEFAULT_UPI_LABEL] in
  match INVOICE_PAYMENT_LINES with
  | None => default_payment_lines
  | Some payment_lines_raw =>
      if String.eqb payment_lines_raw "" then default_payment_lines
      else filter (fun line => negb (String.eqb line "") = true)
                  (map strip (split_pipe payment_lines_raw))
  end.

(** Everything [generate_invoice_pdf] draws on the canvas, in order, given
    the two images [get_logo_image] returned. *)
Definition invoice_page (clock : Clock) (neigh_logo qr_image : option ImageReader)
    (generated_dt : datetime) (invoice : InvoiceDetails) : list CanvasOp :=
  let header_top := A4_height - margin in
  let '(logo_ops, text_x, current_y) :=
    match neigh_logo with
    | Some image =>
        let logo_size := 32 * mm in
        ([DrawImage image margin (header_top - logo_size + 35 * pt)
                    logo_size logo_size],
         margin + logo_size + 10 * pt, header_top - 8 * pt)
    | None => ([], margin, header_top - 12 * pt)
    end in
  let title_ops :=
    [SetFillColor "#0F172A"; SetFont "Helvetica-Bold" 18;
     DrawString text_x current_y "Neighshop Global"] in
  let current_y := current_y - 18 * pt in
  let address_lines := wrap_text (Some BUSINESS_ADDRESS) 80 ++ ["+91 8307802643"] in
  let '(address_ops, current_y) := draw_lines text_x current_y (11 * pt) address_lines in
  let y_position := current_y - 6 * pt in
  let rule_ops :=
    [SetStrokeColor "#CBD5F5";
     DrawLine margin y_position (A4_width - margin) y_position] in
  let y_position := y_position - 16 * pt in
  let left_column_x := margin in
  let right_column_x := A4_width / 2 + 16 * mm in
  let '(left_ops, left_y) :=
    draw_left_fields (left_fields invoice) left_column_x y_position in
  let '(right_ops, right_y) :=
    draw_right_fields (right_fields clock generated_dt invoice)
                      right_column_x y_position in
  let y_position := Z.min left_y right_y - 20 * pt in
  let rows := cost_rows invoice in
  let table_height := table_wrap_height rows in
  let table_ops := [DrawTable rows margin (y_position - table_height)] in
  let y_position := y_position - table_height - 36 * pt in
  let heading_ops :=
    [SetFont "Helvetica-Bold" 12;
     DrawString margin y_position "Payment Details";
     SetFont "Helvetica" 10] in
  let y_position := y_position - 16 * pt in
  let '(payment_ops, y_position) :=
    draw_lines margin y_position (14 * pt) payment_lines in
  let '(qr_ops, y_position) :=
    match qr_image with
    | Some image =>
        let qr_size := 100 * pt in
        let qr_x := margin in
        let qr_y := y_position - qr_size - 8 * pt in
        ([DrawImage image qr_x qr_y qr_size qr_size;
          SetFont "Helvetica" 9;
          DrawString qr_x (qr_y - 6 * pt) "Scan UPI: 8307802643@axl"],
         qr_y - 20 * pt)
    | None => ([], y_position)
    end in
  let y_position := y_position - 8 * pt in
  let closing_ops :=
    [SetFont "Helvetica" 10;
     DrawString margin y_position "Thank you for choosing Neighshop Global.";
     ShowPage] in
  logo_ops ++ title_ops ++ [SetFont "Helvetica" 9] ++ address_ops
  ++ rule_ops ++ [SetFillColor "black"] ++ left_ops ++ right_ops
  ++ table_ops ++ heading_ops ++ payment_ops ++ qr_ops ++ closing_ops.

End Renderer.
(** ** Handlers: state and exceptions

    A handler runs against the [World]; each statement it executes is
    committed at once, so what was written before an exception stays
    written. *)
Definition handler (A : Type) : Type := World -> World * outcome A.

Definition ret {A} (a : A) : handler A := fun w => (w, Returned a).
Definition raise {A} (exn : string) : handler A := fun w => (w, Raised exn).
Definition hbind {A B} (m : handler A) (k : A -> handler B) : handler B :=
  fun w => match m w with
           | (w', Returned a) => k a w'
           | (w', Raised e) => (w', Raised e)
           end.
Definition lift {A} (o : outcome A) : handler A := fun w => (w, o).
Definition query {A} (f : World -> A) : handler A := fun w => (w, Returned (f w)).
Definition modify (f : World -> World) : handler unit := fun w => (f w, Returned tt).

Notation "'do' x <- m ; k" := (hbind m (fun x => k))
  (at level 10, x name, m at level 100, k at level 200,
   format "'[v' 'do'  x  <-  m ; '/' k ']'").
Notation "'do' ' pat <- m ; k" := (hbind m (fun x => let 'pat := x in k))
  (at level 10, pat pattern, m at level 100, k at level 200,
   format "'[v' 'do'  ' pat  <-  m ; '/' k ']'").

(** The body and the status of a response. *)
Inductive Body : Type :=
  | ErrorBody (error : string)
  | PaymentBody (payment : option Payment)
  | InvoiceBody (record : gmap string pyvalue).

Definition Response : Type := Body * Z.

(** ** Serialization *)

(** [float(d)]: the binary64 number nearest to the decimal, ties to
    even. *)
Definition float_of_Decimal (d : Decimal) : spec_float :=
  match coefficient d with
  | Z0 => S754_zero false
  | Zpos c | Zneg c =>
      let negative := coefficient d <? 0 in
      if 0 <=? exponent d
      then binary_normalize 53 1024
             (coefficient d * 10 ^ exponent d) 0 negative
      else SFdiv 53 1024
             (S754_finite negative c 0)
             (S754_finite false (Z.to_pos (10 ^ (- exponent d))) 0)
  end.

(** Whether a binary64 number is exactly the decimal [d]. *)
Definition float_is_Decimal (f : spec_float) (d : Decimal) : bool :=
  match f with
  | S754_zero _ => coefficient d =? 0
  | S754_finite s m e =>
      let fm := if s then Z.neg m else Z.pos m in
      let k := Z.min e 0 in
      let x := Z.min (exponent d) 0 in
      (* fm * 2^e = c * 10^x, cleared of negative powers *)
      fm * 2 ^ (e - k) * 10 ^ (- x) =? coefficient d * 10 ^ (exponent d - x) * 2 ^ (- k)
  | _ => false
  end.

Definition py_truthy (v : pyvalue) : bool :=
  match v with
  | PNone => false
  | PInt n => negb (n =? 0)
  | PStr s => negb (String.eqb s "")
  | PDecimal d => negb (coefficient d =? 0)
  | PFloat f => match f with S754_zero _ => false | _ => true end
  | PDatetime _ => true
  end.

(** [datetime.isoformat()] of an aware value, and [str(datetime)]. *)
Definition isoformat (sep : string) (offset : string) (t : datetime) : string :=
  format_0d 4 (year t) +:+ "-" +:+ format_0d 2 (month t) +:+ "-"
  +:+ format_0d 2 (day t) +:+ sep +:+ format_0d 2 (hour t) +:+ ":"
  +:+ format_0d 2 (minute t) +:+ ":" +:+ format_0d 2 (second t)
  +:+ (if tz_aware t then offset else "").

Fixpoint rstrip_slash_rev (s : string) : string :=
  match s with
  | String c rest => if Ascii.eqb c "/"%char then rstrip_slash_rev rest else s
  | EmptyString => EmptyString
  end.

(** [s.rstrip("/")] *)
Definition rstrip_slash (s : string) : string :=
  string_rev (rstrip_slash_rev (string_rev s)).

Section Serialization.
Context `{Platform}.

Definition py_str (v : pyvalue) : string :=
  match v with
  | PNone => "None"
  | PInt n => str_of_Z n
  | PStr s => s
  | PDecimal d => Decimal_str d
  | PFloat f => float_repr f
  | PDatetime t => isoformat " " IST_utcoffset t
  end.

(** [as_decimal] on any value of a row dictionary. *)
Definition as_decimal_value (value : pyvalue) : outcome Decimal :=
  match value with
  | PDecimal d => Returned d
  | PNone => Returned dec_zero
  | _ => or_raise "decimal.InvalidOperation" (Decimal_of_str (py_str value))
  end.

Definition parse_decimal (value : pyvalue) : outcome spec_float :=
  try d <- as_decimal_value value in Returned (float_of_Decimal d).

(** [to_ist_datetime] on any value of a row dictionary. *)
Definition to_ist_datetime_value (value : pyvalue) : option datetime :=
  match value with
  | PNone => None
  | PDatetime t => to_ist_datetime (Some t)
  | PStr s => if String.eqb s "" then None else strptime_ist s
  | _ => strptime_ist (py_str value)
  end.

(** [absolute_invoice_url]; [host_url] is [request.host_url] when there
    is a request context. *)
Definition absolute_invoice_url (host_url : option string) (path : pyvalue)
  : outcome pyvalue :=
  if negb (py_truthy path) then Returned PNone
  else match path with
       | PStr p =>
           if String.prefix "http://" p || String.prefix "https://" p
           then Returned (PStr p)
           else match host_url with
                | Some url => Returned (PStr (rstrip_slash url +:+ p))
                | None => Returned (PStr p)
                end
       | _ => Raised "AttributeError"
       end.

Definition numeric_fields : list string :=
  ["subtotal"; "tax"; "total"; "setup_fee_amount"; "setup_fee_discount";
   "setup_fee_net"; "plan_price"].

(** [for field in numeric_fields: if field in record: ...] *)
Fixpoint convert_numeric_fields (fields : list string)
    (record : gmap string pyvalue) : outcome (gmap string pyvalue) :=
  match fields with
  | [] => Returned record
  | field :: rest =>
      match record !! field with
      | Some value =>
          try x <- parse_decimal value in
          convert_numeric_fields rest (<[field := PFloat x]> record)
      | None => convert_numeric_fields rest record
      end
  end.

Definition iso_or_none (value : option datetime) : pyvalue :=
  match value with
  | Some t => PStr (isoformat "T" IST_utcoffset t)
  | None => PNone
  end.

Definition record_get (record : gmap string pyvalue) (key : string) : pyvalue :=
  default PNone (record !! key).

Definition serialize_invoice_record (host_url : option string)
    (invoice : gmap string pyvalue) : outcome (gmap string pyvalue) :=
  let record := invoice in
  try record <- convert_numeric_fields numeric_fields record in
  let generated_dt := to_ist_datetime_value (record_get record "generated_at") in
  let record := <["generated_at" := iso_or_none generated_dt]> record in
  let created_dt := to_ist_datetime_value (record_get record "created_at") in
  let record := <["created_at" := iso_or_none created_dt]> record in
  let updated_dt := to_ist_datetime_value (record_get record "updated_at") in
  let record := <["updated_at" := iso_or_none updated_dt]> record in
  try url <- absolute_invoice_url host_url (record_get record "pdf_url") in
  Returned (<["pdf_url" := url]> record).

End Serialization.
Section Handlers.
Context `{Platform}.

(** ** Rendering *)

Definition generate_invoice_pdf (clock : Clock) (invoice : InvoiceDetails)
  : handler (string * InvoiceDetails) :=
  fun w =>
  let generated_dt :=
    match to_ist_datetime (d_generated_at invoice) with
    | Some t => t
    | None => now_ist clock
    end in
  let timestamp_str := strftime_compact generated_dt in
  let pdf_filename :=
    "INV_" +:+ timestamp_str +:+ "_" +:+ fmt_opt_int (d_lead_id invoice)
    +:+ ".pdf" in
  let '(neigh_logo, cache) :=
    get_logo_image
      (Some (if logo_path_exists then "local_neighshop" else NEIGHSHOP_LOGO_URL))
      (LOGO_CACHE w) in
  let '(qr_image, cache) := get_logo_image (Some QR_URL) cache in
  let page := invoice_page clock neigh_logo qr_image generated_dt invoice in
  let w := set_LOGO_CACHE w cache in
  let w := set_files w (<[pdf_filename := page]> (files w)) in
  (w, Returned ("/files/invoices/" +:+ pdf_filename,
                set_generated_at invoice (Some generated_dt))).

(** ** Statements of [create_invoice] *)

(** Equality of two texts in a unique index, under the collation. *)
Definition same_text (a b : string) : bool := String.eqb (upper a) (upper b).

Definition details_of (inv : Invoice) (lead : Lead) (plan : Plan) : InvoiceDetails :=
  mkInvoiceDetails (i_id inv) (Some (i_lead_id inv)) (Some (i_plan_id inv))
    (i_invoice_number inv) (Some (i_subtotal inv)) (Some (i_tax inv))
    (Some (i_total inv)) (Some (i_setup_fee_amount inv))
    (Some (i_setup_fee_discount inv)) (Some (i_setup_fee_net inv))
    (Some (i_generated_at inv)) (i_notes inv) (i_pdf_url inv)
    (l_name lead) (l_email lead) (l_phone lead) (l_address lead)
    (l_brand_name lead) (Some (p_name plan)) (Some (p_price plan)).

Fixpoint first_joined (w : World) (invoice_number : string) (rows : list Invoice)
  : option InvoiceDetails :=
  match rows with
  | [] => None
  | inv :: rest =>
      if same_text (i_invoice_number inv) invoice_number then
        match leads w !! i_lead_id inv, plans w !! i_plan_id inv with
        | Some lead, Some plan => Some (details_of inv lead plan)
        | _, _ => first_joined w invoice_number rest
        end
      else first_joined w invoice_number rest
  end.

Definition fetch_invoice_details (invoice_number : string)
  : handler (option InvoiceDetails) :=
  query (fun w => first_joined w invoice_number (invoices w)).

Definition select_plan (plan_id : json) : handler (option Plan) :=
  do k <- lift (or_raise "mysql.connector.Error" (column_int plan_id));
  query (fun w => plans w !! k).

Definition select_lead (lead_id : json) : handler (option Lead) :=
  do k <- lift (or_raise "mysql.connector.Error" (column_int lead_id));
  query (fun w => leads w !! k).

(** The INSERT of [create_invoice]: the parameters are converted, the
    foreign keys and the unique invoice number are checked, and the row
    is appended with the next identifier and the current timestamp. *)
Definition insert_invoice (clock : Clock) (lead_id plan_id : json)
    (invoice_number : string) (subtotal tax total : Decimal) (notes : json)
    (setup_fee_amount setup_discount setup_fee_net : Decimal) : handler unit :=
  let err := "mysql.connector.Error" in
  do lead <- lift (or_raise err (column_int lead_id));
  do plan <- lift (or_raise err (column_int plan_id));
  do subtotal <- lift (or_raise err (column_decimal (JNum subtotal)));
  do tax <- lift (or_raise err (column_decimal (JNum tax)));
  do total <- lift (or_raise err (column_decimal (JNum total)));
  do notes <- lift (or_raise err (column_text notes));
  do fee <- lift (or_raise err (column_decimal (JNum setup_fee_amount)));
  do discount <- lift (or_raise err (column_decimal (JNum setup_discount)));
  do net <- lift (or_raise err (column_decimal (JNum setup_fee_net)));
  fun w =>
    if bool_decide (is_Some (leads w !! lead))
       && bool_decide (is_Some (plans w !! plan))
       && negb (existsb (fun r => same_text (i_invoice_number r) invoice_number)
                        (invoices w))
    then
      let row :=
        mkInvoice (next_invoice_id w) lead plan invoice_number subtotal tax
                  total fee discount net (current_timestamp clock) notes None in
      (set_invoices w (invoices w ++ [row]) (next_invoice_id w + 1), Returned tt)
    else (set_invoices w (invoices w) (next_invoice_id w + 1),
          Raised "mysql.connector.IntegrityError").

Definition with_pdf_url (u : option string) (r : Invoice) : Invoice :=
  mkInvoice (i_id r) (i_lead_id r) (i_plan_id r) (i_invoice_number r)
    (i_subtotal r) (i_tax r) (i_total r) (i_setup_fee_amount r)
    (i_setup_fee_discount r) (i_setup_fee_net r) (i_generated_at r)
    (i_notes r) u.

(** [UPDATE invoices SET pdf_url = %s WHERE invoice_number = %s] *)
Definition update_pdf_url (pdf_url invoice_number : string) : handler unit :=
  modify (fun w =>
    set_invoices w
      (map (fun r => if same_text (i_invoice_number r) invoice_number
                     then with_pdf_url (Some pdf_url) r else r)
           (invoices w))
      (next_invoice_id w)).

Definition opt_value {A} (f : A -> pyvalue) (o : option A) : pyvalue :=
  match o with Some a => f a | None => PNone end.

(** The row dictionary as [serialize_invoice_record] receives it. *)
Definition details_dict (d : InvoiceDetails) : gmap string pyvalue :=
  list_to_map
    [("id", PInt (d_id d));
     ("lead_id", opt_value PInt (d_lead_id d));
     ("plan_id", opt_value PInt (d_plan_id d));
     ("invoice_number", PStr (d_invoice_number d));
     ("subtotal", opt_value PDecimal (d_subtotal d));
     ("tax", opt_value PDecimal (d_tax d));
     ("total", opt_value PDecimal (d_total d));
     ("setup_fee_amount", opt_value PDecimal (d_setup_fee_amount d));
     ("setup_fee_discount", opt_value PDecimal (d_setup_fee_discount d));
     ("setup_fee_net", opt_value PDecimal (d_setup_fee_net d));
     ("generated_at", opt_value PDatetime (d_generated_at d));
     ("notes", opt_value PStr (d_notes d));
     ("pdf_url", opt_value PStr (d_pdf_url d));
     ("lead_name", opt_value PStr (d_lead_name d));
     ("lead_email", opt_value PStr (d_lead_email d));
     ("lead_phone", opt_value PStr (d_lead_phone d));
     ("lead_address", opt_value PStr (d_lead_address d));
     ("brand_name", opt_value PStr (d_brand_name d));
     ("plan_name", opt_value PStr (d_plan_name d));
     ("plan_price", opt_value PDecimal (d_plan_price d))].

(** [as_decimal] on a value of the request payload: a JSON number is
    read through its decimal text. *)
Definition as_decimal_json (value : json) : outcome Decimal :=
  match value with
  | JNull => Returned dec_zero
  | JNum d => Returned d
  | JStr s => or_raise "decimal.InvalidOperation" (Decimal_of_str s)
  | _ => Raised "decimal.InvalidOperation"
  end.

(** ** [POST /invoices] *)
Definition create_invoice (clock : Clock) (host_url : option string)
    (body : json) : handler Response :=
  do payload <- lift (request_payload body);
  let lead_id := dict_get payload "lead_id" in
  let plan_id := dict_get payload "plan_id" in
  if negb (truthy lead_id) || negb (truthy plan_id)
  then ret (ErrorBody "lead_id and plan_id required", 400)
  else
  do plan <- select_plan plan_id;
  do lead <- select_lead lead_id;
  match plan, lead with
  | Some plan, Some lead =>
      let setup_discount_input := dict_get payload "setup_discount" in
      do setup_discount <-
        lift (as_decimal_json
                (match setup_discount_input with
                 | JNull => JNum dec_zero
                 | _ => setup_discount_input
                 end));
      let pricing :=
        invoice_pricing (p_price plan) DEFAULT_SETUP_FEE setup_discount in
      do invoice_number <- query (next_invoice_number clock);
      do _ <- insert_invoice clock lead_id plan_id invoice_number
                (pr_subtotal pricing) (pr_tax pricing) (pr_total pricing)
                (dict_get payload "notes")
                (pr_setup_fee_amount pricing) (pr_setup_discount pricing)
                (pr_setup_fee_net pricing);
      do invoice_details <- fetch_invoice_details invoice_number;
      match invoice_details with
      | None => ret (ErrorBody "Failed to create invoice", 500)
      | Some invoice_details =>
          let invoice_details :=
            set_plan_price invoice_details (Some (pr_plan_price pricing)) in
          do '(pdf_url, invoice_details) <-
            generate_invoice_pdf clock invoice_details;
          do _ <- update_pdf_url pdf_url invoice_number;
          let invoice_details := set_pdf_url invoice_details (Some pdf_url) in
          do response_payload <-
            lift (serialize_invoice_record host_url (details_dict invoice_details));
          ret (InvoiceBody response_payload, 201)
      end
  | _, _ => ret (ErrorBody "Invalid lead or plan", 400)
  end.

(** ** [POST /leads/<lead_id>/payments] *)

Definition same_key (lead_id : Z) (billing_month : string) (p : Payment) : bool :=
  (pay_lead_id p =? lead_id) && String.eqb (pay_billing_month p) billing_month.

Definition overwrite_payment (amount : Decimal)
    (paid_on payment_method note : option string) (p : Payment) : Payment :=
  mkPayment (pay_id p) (pay_lead_id p) (pay_invoice_id p) (pay_billing_month p)
            amount paid_on payment_method note.

(** [INSERT ... ON DUPLICATE KEY UPDATE] on the rows of [lead_payments]:
    a row holding the key is overwritten where it stands, otherwise the
    new row is appended. *)
Fixpoint upsert_payment (new : Payment) (rows : list Payment) : list Payment :=
  match rows with
  | [] => [new]
  | p :: rest =>
      if same_key (pay_lead_id new) (pay_billing_month new) p
      then overwrite_payment (pay_amount new) (pay_paid_on new)
             (pay_payment_method new) (pay_note new) p :: rest
      else p :: upsert_payment new rest
  end.

Definition insert_lead_payment (lead_id : Z)
    (billing_month amount paid_on payment_method note : json) : handler unit :=
  let err := "mysql.connector.Error" in
  do billing_month <- lift (or_raise err (mjoin (column_date billing_month)));
  do amount <- lift (or_raise err (column_decimal amount));
  do paid_on <- lift (or_raise err (column_date paid_on));
  do payment_method <- lift (or_raise err (column_text payment_method));
  do note <- lift (or_raise err (column_text note));
  fun w =>
    if bool_decide (is_Some (leads w !! lead_id)) then
      let new :=
        mkPayment (next_payment_id w) lead_id None billing_month amount
                  paid_on payment_method note in
      (set_lead_payments w (upsert_payment new (lead_payments w))
                         (next_payment_id w + 1), Returned tt)
    else (w, Raised "mysql.connector.IntegrityError").

(** [SELECT * FROM lead_payments WHERE lead_id = %s AND billing_month = %s] *)
Definition select_payment (lead_id : Z) (billing_month : json)
  : handler (option Payment) :=
  do month <- lift (or_raise "mysql.connector.Error" (column_date billing_month));
  query (fun w =>
    match month with
    | Some m => List.find (same_key lead_id m) (lead_payments w)
    | None => None
    end).

Definition record_payment (lead_id : Z) (body : json) : handler Response :=
  do payload <- lift (request_payload body);
  let billing_month := dict_get payload "billing_month" in
  let amount := dict_get payload "amount" in
  if negb (truthy billing_month) || negb (truthy amount)
  then ret (ErrorBody "Billing month and amount required", 400)
  else
  do _ <- insert_lead_payment lead_id billing_month amount
            (dict_get payload "paid_on") (dict_get payload "payment_method")
            (dict_get payload "note");
  do payment <- select_payment lead_id billing_month;
  ret (PaymentBody payment, 200).

End Handlers.

(** The ledger after a sequence of recording requests, responses
    dropped. *)
Fixpoint record_payments `{Platform} (requests : list (Z * json)) (w : World) : World :=
  match requests with
  | [] => w
  | (lead_id, body) :: rest =>
      record_payments rest (fst (record_payment lead_id body w))
  end.

(** The unique key of [lead_payments]. *)
Definition payment_key (p : Payment) : Z * string :=
  (pay_lead_id p, pay_billing_month p).

(** ** A reference platform

    The defaults of the source for the configuration, and plain models
    of the collaborators: decimal literals without exponent, greedy
    wrapping at blanks, and the store's conversions in strict mode. *)

Definition digit_of (c : ascii) : option Z :=
  let n := N_of_ascii c in
  if ((48 <=? n) && (n <=? 57))%N then Some (Z.of_N (n - 48)) else None.

(** Digits read so far as [acc], [frac] digits of them after the point;
    [seen] tells whether any digit was read. *)
Fixpoint scan_decimal (s : string) (acc : Z) (frac : option Z) (seen : bool)
  : option Decimal :=
  match s with
  | EmptyString =>
      if seen then Some (mkDecimal acc (- default 0 frac)) else None
  | String c rest =>
      match digit_of c with
      | Some v => scan_decimal rest (10 * acc + v) (Z.succ <$> frac) true
      | None =>
          if Ascii.eqb c "."%char then
            match frac with
            | None => scan_decimal rest acc (Some 0) seen
            | Some _ => None
            end
          else None
      end
  end.

Definition negate (d : Decimal) : Decimal :=
  mkDecimal (- coefficient d) (exponent d).

Definition decimal_literal (s : string) : option Decimal :=
  match s with
  | String "-" rest => negate <$> scan_decimal rest 0 None false
  | String "+" rest => scan_decimal rest 0 None false
  | _ => scan_decimal s 0 None false
  end.

(** Rounding to two places, halves away from zero, and the range of a
    DECIMAL(10,2) column. *)
Definition round_half_away (n : Z) (k : Z) : Z :=
  if k <=? 0 then n * 10 ^ (- k)
  else Z.sgn n * ((2 * Z.abs n + 10 ^ k) / (2 * 10 ^ k)).

Definition decimal_10_2 (d : Decimal) : option Decimal :=
  let cents := round_half_away (coefficient d) (- (exponent d + 2)) in
  if Z.abs cents <? 10 ^ 10 then Some (mkDecimal cents (-2)) else None.

Definition integral (d : Decimal) : Z :=
  round_half_away (coefficient d) (- exponent d).

Definition is_date_text (s : string) : bool :=
  match list_ascii_of_string s with
  | [y1; y2; y3; y4; dash1; m1; m2; dash2; a; b] =>
      forallb (fun c => bool_decide (is_Some (digit_of c)))
              [y1; y2; y3; y4; m1; m2; a; b]
      && Ascii.eqb dash1 "-"%char && Ascii.eqb dash2 "-"%char
  | _ => false
  end.

(** Greedy filling of lines with the words of a text, as [textwrap.wrap]
    does for words that fit the width (a longer word is not broken
    here). *)
Fixpoint words_of (s : string) (current : string) : list string :=
  match s with
  | EmptyString =>
      if String.eqb current "" then [] else [string_rev current]
  | String c rest =>
      if is_space c
      then (if String.eqb current "" then [] else [string_rev current])
           ++ words_of rest ""
      else words_of rest (String c current)
  end.

Fixpoint fill_lines (width : nat) (line : string) (ws : list string) : list string :=
  match ws with
  | [] => if String.eqb line "" then [] else [line]
  | word :: rest =>
      if String.eqb line "" then fill_lines width word rest
      else if (String.length line + 1 + String.length word <=? width)%nat
           then fill_lines width (line +:+ " " +:+ word) rest
           else line :: fill_lines width word rest
  end.

Definition greedy_wrap (s : string) (width : nat) : list string :=
  fill_lines width "" (words_of s "").

(** The plain decimal text of a number, [str(Decimal)] away from the
    scientific forms. *)
Definition plain_decimal (d : Decimal) : string :=
  if 0 <=? exponent d then str_of_Z (coefficient d * 10 ^ exponent d)
  else
    let k := - exponent d in
    let m := Z.abs (coefficient d) in
    (if coefficient d <? 0 then "-" else "")
    +:+ str_of_Z (m / 10 ^ k) +:+ "." +:+ format_0d (Z.to_nat k) (m mod 10 ^ k).

Definition reference_platform (local_logo : bool)
    (local_image : option ImageReader)
    (remote : string -> option ImageReader) : Platform := {|
  DEFAULT_SETUP_FEE := mkDecimal 3000 0;
  NEIGHSHOP_LOGO_URL :=
    "https://github.com/AKM-dv/servicemate/blob/main/logo-details%202.png?raw=true";
  NEIGHSHOP_LOGO_PATH := "/srv/servicemate/logo.png";
  DEFAULT_BANK_NAME := "Suman Kumari";
  DEFAULT_BANK_ACCOUNT := "STATE BANK OF INDIA";
  DEFAULT_ACCOUNT_NUMBER := "42213259870";
  DEFAULT_UPI_LABEL := "8307802643@axl";
  INVOICE_PAYMENT_LINES := None;
  Decimal_of_str := decimal_literal;
  textwrap_wrap := greedy_wrap;
  table_wrap_height := fun rows => 18 * pt * Z.of_nat (length rows);
  strptime_ist := fun _ => None;
  Decimal_str := plain_decimal;
  float_repr := fun _ => "float";
  IST_utcoffset := "+05:30";
  logo_path_exists := local_logo;
  open_logo_file := local_image;
  fetch_image := remote;
  column_int := fun j =>
    match j with
    | JNum d => Some (integral d)
    | JBool b => Some (if b then 1 else 0)
    | JStr s => integral <$> decimal_literal s
    | _ => None
    end;
  column_decimal := fun j =>
    match j with
    | JNum d => decimal_10_2 d
    | JBool b => Some (mkDecimal (if b then 100 else 0) (-2))
    | JStr s => decimal_literal s ≫= decimal_10_2
    | _ => None
    end;
  column_date := fun j =>
    match j with
    | JNull => Some None
    | JStr s => if is_date_text s then Some (Some s) else None
    | _ => None
    end;
  column_text := fun j =>
    match j with
    | JNull => Some None
    | JStr s => Some (Some s)
    | JNum d => Some (Some (plain_decimal d))
    | _ => None
    end
|}.

(** No asset can be loaded: there is no local file and every fetch
    fails. *)
Definition offline : Platform := reference_platform false None (fun _ => None).

Definition empty_world : World := mkWorld ∅ ∅ [] [] 1 1 ∅ ∅.

(** ** Reading an invoice number back *)

(** The number a string of decimal digits denotes, leading zeros
    allowed. *)
Definition numeral_value (s : string) : option Z :=
  Z.of_uint <$> NilEmpty.uint_of_string s.

(** The form the specification gives to an invoice number: the month
    prefix followed by exactly four digits that denote [seq]. *)
Definition four_digit_number (prefix : string) (seq : Z) (number : string) : Prop :=
  exists digits : string,
    number = prefix +:+ digits
    /\ String.length digits = 4%nat
    /\ numeral_value digits = Some seq.

(** The dates the clock can show; [strftime] writes the year of such a
    date with four digits. *)
Definition valid_date (t : datetime) : Prop :=
  1000 <= year t <= 9999 /\ 1 <= month t <= 12.

(** ** Sample data *)

Definition sample_clock : Clock :=
  mkClock (mkDatetime 2025 11 6 19 54 34 false)
          (mkDatetime 2025 11 7 1 24 34 true)
          (mkDatetime 2025 11 7 1 24 34 false).

Definition november_invoice (k : Z) : Invoice :=
  mkInvoice k 7 1 ("INV202511" +:+ format_0d 4 k)
            (mkDecimal 499900 (-2)) (mkDecimal 0 (-2)) (mkDecimal 499900 (-2))
            (mkDecimal 300000 (-2)) (mkDecimal 0 (-2)) (mkDecimal 300000 (-2))
            (mkDatetime 2025 11 1 9 0 0 false) None None.

(** A store that already holds [n] invoices numbered in November 2025. *)
Definition november_world (n : Z) : World :=
  set_invoices empty_world
    (map (fun k => november_invoice (Z.of_nat k)) (seq 1 (Z.to_nat n)))
    (n + 1).

Definition sample_lead : Lead :=
  mkLead (Some "Asha Verma") None (Some "9876543210") None None.

(** A store with client 7, the Basic plan and nothing else. *)
Definition sample_world : World :=
  mkWorld {[ 7 := sample_lead ]}
          {[ 1 := mkPlan "Basic" (mkDecimal 199900 (-2)) ]}
          [] [] 1 1 ∅ ∅.

(** The body of a recording for November 2025. *)
Definition payment_request (amount : json) : json :=
  JObj [("billing_month", JStr "2025-11-01"); ("amount", amount)].

(** The file name [generate_invoice_pdf] builds from a timestamp and a
    client. *)
Definition pdf_filename_of (t : datetime) (lead_id : option Z) : string :=
  "INV_" +:+ strftime_compact t +:+ "_" +:+ fmt_opt_int lead_id +:+ ".pdf".

(** A persisted invoice as [fetch_invoice_details] returns it. *)
Definition sample_invoice : InvoiceDetails :=
  details_of (november_invoice 7) sample_lead
             (mkPlan "Basic" (mkDecimal 199900 (-2))).

(** A later reading of the clock. *)
Definition later_clock : Clock :=
  mkClock (mkDatetime 2025 12 24 8 0 0 false)
          (mkDatetime 2025 12 24 13 30 0 true)
          (mkDatetime 2025 12 24 13 30 0 false).

(** The two renderings of [sample_invoice], weeks apart, with no asset
    reachable. *)
Definition first_render : World * outcome (string * InvoiceDetails) :=
  generate_invoice_pdf (H:=offline) sample_clock sample_invoice sample_world.

Definition second_render : World * outcome (string * InvoiceDetails) :=
  generate_invoice_pdf (H:=offline) later_clock sample_invoice (fst first_render).

(** The location a rendering returned. *)
Definition returned_url (run : World * outcome (string * InvoiceDetails))
  : option string :=
  match snd run with Returned (url, _) => Some url | Raised _ => None end.

(** The ledger after the first of two recordings, and the second
    recording. *)
Definition after_500 : World :=
  record_payments (H:=offline)
    [(7, payment_request (JNum (mkDecimal 500 0)))] sample_world.

Definition recording_750 : World * outcome Response :=
  record_payment (H:=offline) 7 (payment_request (JNum (mkDecimal 750 0)))
                 after_500.

(** ** Reading a page *)

(** The text a drawing instruction puts on the page. *)
Definition op_texts (op : CanvasOp) : list string :=
  match op with
  | DrawString _ _ text => [text]
  | DrawTable rows _ _ => flat_map (fun row => [fst row; snd row]) rows
  | _ => []
  end.

Definition page_texts (page : list CanvasOp) : list string :=
  flat_map op_texts page.



(** A field value is absent when it is [None] or the empty string. *)
Definition absent (value : option string) : Prop :=
  value = None \/ value = Some "".

Section Columns.
Context `{Platform}.

(** The lines [draw_field] draws for a value of the left column. *)
Definition field_lines (value : option string) : list string :=
  wrap_text (str_or value (Some "NA")) 70.

(** The texts of the left column: for each field its label and the lines
    of its value. *)
Definition left_column_texts (fields : list (string * option string)) : list string :=
  flat_map (fun field => (fst field +:+ ":") :: field_lines (snd field)) fields.

Definition right_column_texts (fields : list (string * option string)) : list string :=
  flat_map (fun field =>
              [fst field +:+ ":"; default "NA" (str_or (snd field) (Some "NA"))])
           fields.

End Columns.

(** A client known by phone only. *)
Definition phone_only_invoice : InvoiceDetails :=
  details_of (november_invoice 7)
             (mkLead None None (Some "9876543210") None None)
             (mkPlan "Basic" (mkDecimal 199900 (-2))).

(** An invoice request for client 7 on the Basic plan with a discount of
    0.10, and the fields of the response. *)
Definition discount_request : json :=
  JObj [("lead_id", JNum (mkDecimal 7 0)); ("plan_id", JNum (mkDecimal 1 0));
        ("setup_discount", JNum (mkDecimal 1 (-1)))].

Definition discount_invoice : World * outcome Response :=
  create_invoice (H:=offline) sample_clock (Some "http://localhost:5700/")
                 discount_request sample_world.

Definition response_field (run : World * outcome Response) (field : string)
  : option pyvalue :=
  match snd run with
  | Returned (InvoiceBody record, _) => record !! field
  | _ => None
  end.

(** A row holding one amount, and what serialization makes of it. *)
Definition wire_sample : gmap string pyvalue :=
  {[ "total" := PDecimal (mkDecimal 499890 (-2)) ]}.

Definition wire_sample_record : gmap string pyvalue :=
  match serialize_invoice_record (H:=offline) None wire_sample with
  | Returned record => record
  | Raised _ => ∅
  end.

(** ** Further sample data *)

(** An invoice request for a client and a plan, nothing else given. *)
Definition invoice_request (lead_id plan_id : Z) : json :=
  JObj [("lead_id", JNum (mkDecimal lead_id 0));
        ("plan_id", JNum (mkDecimal plan_id 0))].

(** The store of [sample_world] after the first invoice of November 2025
    was removed by hand: the second one is left alone. *)
Definition gap_world : World :=
  set_invoices sample_world [november_invoice 2] 3.

(** The request of [discount_request] sent a second time within the
    same second. *)
Definition second_discount_invoice : World * outcome Response :=
  create_invoice (H:=offline) sample_clock (Some "http://localhost:5700/")
                 discount_request (fst discount_invoice).

(** A client whose name is a text of blanks. *)
Definition blank_name_invoice : InvoiceDetails :=
  details_of (november_invoice 7)
             (mkLead (Some "  ") None (Some "9876543210") None None)
             (mkPlan "Basic" (mkDecimal 199900 (-2))).

(** ** Reading a serialized record *)

(** The keys [serialize_invoice_record] sets on every record. *)
Definition stamp_keys : list string :=
  ["generated_at"; "created_at"; "updated_at"; "pdf_url"].

(** [k] slashes. *)
Fixpoint slashes (k : nat) : string :=
  match k with O => "" | S k' => String "/" (slashes k') end.

(** [s.endswith("/")] *)
Definition ends_with_slash (s : string) : bool :=
  match string_rev s with
  | String c _ => Ascii.eqb c "/"%char
  | EmptyString => false
  end.

(** ** Asset sources *)

(** A source of assets where every fetch succeeds; [offline] is the
    same configuration with the network gone. *)
Definition online : Platform :=
  reference_platform false None (fun u => Some (Image u)).

(** ** Reading a text *)

(** Every character of a text satisfies a test. *)
Fixpoint all_chars (test : ascii -> bool) (s : string) : bool :=
  match s with
  | EmptyString => true
  | String c rest => test c && all_chars test rest
  end.

(** The first and the last character of a text, if any. *)
Definition first_char (s : string) : option ascii :=
  match s with String c _ => Some c | EmptyString => None end.

Definition last_char (s : string) : option ascii := first_char (string_rev s).

(** A text that neither begins nor ends with white space. *)
Definition trimmed (s : string) : Prop :=
  (forall c, first_char s = Some c -> is_space c = false)
  /\ (forall c, last_char s = Some c -> is_space c = false).

(** A text of ASCII characters only; on such a text [strip] removes
    what [str.strip()] removes. *)
Definition ascii_text (s : string) : Prop :=
  all_chars (fun c => (N_of_ascii c <? 128)%N) s = true.

(** The platform of [offline] with the environment variable
    [INVOICE_PAYMENT_LINES] set. *)
Definition with_payment_lines (raw : string) : Platform := {|
  DEFAULT_SETUP_FEE := @DEFAULT_SETUP_FEE offline;
  NEIGHSHOP_LOGO_URL := @NEIGHSHOP_LOGO_URL offline;
  NEIGHSHOP_LOGO_PATH := @NEIGHSHOP_LOGO_PATH offline;
  DEFAULT_BANK_NAME := @DEFAULT_BANK_NAME offline;
  DEFAULT_BANK_ACCOUNT := @DEFAULT_BANK_ACCOUNT offline;
  DEFAULT_ACCOUNT_NUMBER := @DEFAULT_ACCOUNT_NUMBER offline;
  DEFAULT_UPI_LABEL := @DEFAULT_UPI_LABEL offline;
  INVOICE_PAYMENT_LINES := Some raw;
  Decimal_of_str := @Decimal_of_str offline;
  textwrap_wrap := @textwrap_wrap offline;
  table_wrap_height := @table_wrap_height offline;
  strptime_ist := @strptime_ist offline;
  Decimal_str := @Decimal_str offline;
  float_repr := @float_repr offline;
  IST_utcoffset := @IST_utcoffset offline;
  logo_path_exists := @logo_path_exists offline;
  open_logo_file := @open_logo_file offline;
  fetch_image := @fetch_image offline;
  column_int := @column_int offline;
  column_decimal := @column_decimal offline;
  column_date := @column_date offline;
  column_text := @column_text offline
|}.

(** ** Reading the layout *)

(** Where the page puts its tables. *)
Definition op_table_at (op : CanvasOp) : list (Z * Z) :=
  match op with DrawTable _ x y => [(x, y)] | _ => [] end.

Definition page_tables (page : list CanvasOp) : list (Z * Z) :=
  flat_map op_table_at page.

(** ** Comparing amounts *)

(** An amount in hundredths; the reading is exact for an amount written
    with at most two decimals. *)
Definition cents (d : Decimal) : Z := rescale d (-2).

(** An amount written with at most two decimals and below 10^25. *)
Definition in_cents (d : Decimal) : Prop :=
  -2 <= exponent d /\ Z.abs (cents d) < 10 ^ 27.

(** A result that [Decimal] keeps as computed: the context rounds a
    result to 28 significant digits, and a coefficient of at most 28
    digits is left alone. *)
Definition within_precision (d : Decimal) : Prop :=
  Z.abs (coefficient d) < 10 ^ 28.





(** A scale fine enough for three decimals and for zero. *)
Definition fine_scale (a b c : Decimal) : Z :=
  Z.min (Z.min (exponent a) (exponent b)) (Z.min (exponent c) 0).

(** ** The plan catalogue: [seed_plans], [list_plans], [update_plans]

    These three work on the table [plans] alone.  A row carries, besides
    the name and the price the invoices read, the features, the flag
    [is_active] and the rank [sort_order].  The rows stand in primary
    key order; [plans_in_use] holds the plans a row of [invoices] or of
    [leads] refers to, which the foreign keys protect from deletion. *)

(** The comparisons of texts the store makes under the collation of the
    connection ([utf8mb4_unicode_ci]): [a = b], and [text LIKE pattern]
    with its wild cards. *)
Class Collation : Type := {
  text_equal : string -> string -> bool;
  text_like : string -> string -> bool
}.

Record PlanRow : Type := mkPlanRow {
  pl_id : Z;
  pl_name : string;
  pl_price : Decimal;
  pl_features : json;
  pl_is_active : Z;
  pl_sort_order : Z
}.

Record Catalogue : Type := mkCatalogue {
  plan_rows : list PlanRow;
  next_plan_id : Z;
  plans_in_use : gset Z
}.

Definition set_plan_rows (c : Catalogue) (rows : list PlanRow) : Catalogue :=
  mkCatalogue rows (next_plan_id c) (plans_in_use c).

(** A run of statements against the catalogue, each committed at
    once. *)
Definition statement (A : Type) : Type := Catalogue -> Catalogue * outcome A.

Definition sbind {A B} (m : statement A) (k : A -> statement B) : statement B :=
  fun c => match m c with
           | (c', Returned a) => k a c'
           | (c', Raised e) => (c', Raised e)
           end.

Notation "'exec' x <- m ; k" := (sbind m (fun x => k))
  (at level 10, x name, m at level 100, k at level 200,
   format "'[v' 'exec'  x  <-  m ; '/' k ']'").

Definition sret {A} (a : A) : statement A := fun c => (c, Returned a).
Definition slift {A} (o : outcome A) : statement A := fun c => (c, o).
Definition squery {A} (f : Catalogue -> A) : statement A :=
  fun c => (c, Returned (f c)).
Definition smodify (f : list PlanRow -> list PlanRow) : statement unit :=
  fun c => (set_plan_rows c (f (plan_rows c)), Returned tt).

(** [str.lower()], on the letters of ASCII; no other character becomes
    one of them. *)
Definition lower_ascii (c : ascii) : ascii :=
  let n := N_of_ascii c in
  if ((65 <=? n) && (n <=? 90))%N then ascii_of_N (n + 32) else c.

Fixpoint lower (s : string) : string :=
  match s with
  | EmptyString => EmptyString
  | String c rest => String (lower_ascii c) (lower rest)
  end.

Definition basic_features : json :=
  JArr [JStr "Website"; JStr "Android App"; JStr "iOS App";
        JStr "Elementary SEO"; JStr "Lead Management"].

(** [Decimal("1999.00")] *)
Definition basic_price : Decimal := mkDecimal 199900 (-2).

(** [UPDATE plans SET name=.., price=.., features=.., is_active=1,
    sort_order=1 WHERE id=..]; [seed_plans] leaves the name alone. *)
Definition update_plan (id : Z) (name : option string) (price : Decimal)
    (features : json) (rows : list PlanRow) : list PlanRow :=
  map (fun r => if pl_id r =? id
                then mkPlanRow (pl_id r) (default (pl_name r) name) price
                               features 1 1
                else r)
      rows.

(** [UPDATE plans SET is_active = 0 WHERE id <> ..] *)
Definition deactivate_others (id : Z) (rows : list PlanRow) : list PlanRow :=
  map (fun r => if pl_id r =? id then r
                else mkPlanRow (pl_id r) (pl_name r) (pl_price r)
                               (pl_features r) 0 (pl_sort_order r))
      rows.

(** [DELETE FROM plans]: refused as a whole while a row is referred
    to. *)
Definition delete_plans : statement unit :=
  fun c =>
    if existsb (fun r => bool_decide (pl_id r ∈ plans_in_use c)) (plan_rows c)
    then (c, Raised "mysql.connector.IntegrityError")
    else (set_plan_rows c [], Returned tt).

(** [INSERT INTO plans (name, price, features, is_active, sort_order)
    VALUES (.., .., .., 1, 1)] *)
Definition insert_plan (name : string) (price : Decimal) (features : json)
  : statement unit :=
  fun c =>
    (mkCatalogue
       (plan_rows c ++ [mkPlanRow (next_plan_id c) name price features 1 1])
       (next_plan_id c + 1) (plans_in_use c),
     Returned tt).

Definition seed_plans : statement unit :=
  exec plans <- squery plan_rows;
  let basic_plan :=
    List.find (fun plan => String.eqb (lower (pl_name plan)) "basic") plans in
  match basic_plan with
  | Some basic_plan =>
      exec _ <- smodify (update_plan (pl_id basic_plan) None basic_price
                                     basic_features);
      smodify (deactivate_others (pl_id basic_plan))
  | None =>
      exec _ <- delete_plans;
      insert_plan "Basic" basic_price basic_features
  end.

(** [ORDER BY sort_order ASC], rows of equal rank in primary key
    order. *)
Fixpoint insert_by_order (r : PlanRow) (sorted : list PlanRow) : list PlanRow :=
  match sorted with
  | [] => [r]
  | x :: rest =>
      if pl_sort_order r <=? pl_sort_order x then r :: sorted
      else x :: insert_by_order r rest
  end.

Definition order_by_sort_order (rows : list PlanRow) : list PlanRow :=
  foldr insert_by_order [] rows.

(** [SELECT .. FROM plans WHERE is_active = 1 ORDER BY sort_order ASC] *)
Definition select_active_plans (c : Catalogue) : list PlanRow :=
  order_by_sort_order (filter (fun r => pl_is_active r = 1) (plan_rows c)).

(** A row of the response of [list_plans]. *)
Record PlanRecord : Type := mkPlanRecord {
  rec_id : Z;
  rec_name : string;
  rec_price : spec_float;
  rec_features : json;
  rec_is_active : Z;
  rec_sort_order : Z
}.

Inductive PlansBody : Type :=
  | PlansList (rows : list PlanRecord)
  | PlansMessage (message : string).

(** [row["price"] = parse_decimal(row["price"])] and
    [row["features"] = json_loads(row.get("features")) or []] *)
Definition plan_record (r : PlanRow) : PlanRecord :=
  mkPlanRecord (pl_id r) (pl_name r) (float_of_Decimal (pl_price r))
               (if truthy (pl_features r) then pl_features r else JArr [])
               (pl_is_active r) (pl_sort_order r).

(** [GET /plans] *)
Definition list_plans : statement (PlansBody * Z) :=
  exec rows <- squery select_active_plans;
  exec rows <-
    match rows with
    | [] => exec _ <- seed_plans; squery select_active_plans
    | _ => sret rows
    end;
  sret (PlansList (map plan_record rows), 200).

(** [plans[0] if plans else {}], as the dictionary the handler goes on to
    read: an object has no item 0, a number or [true] has no items, and
    the item taken from a list or a text must itself have a [get]. *)
Definition plan_payload (plans : json) : outcome (gmap string json) :=
  if negb (truthy plans) then Returned ∅
  else match plans with
       | JArr (JObj members :: _) => Returned (dict_of_members members)
       | JArr _ => Raised "AttributeError"
       | JStr _ => Raised "AttributeError"
       | JObj _ => Raised "KeyError"
       | _ => Raised "TypeError"
       end.

(** [value or fallback] on JSON values. *)
Definition json_or (value fallback : json) : json :=
  if truthy value then value else fallback.

Section PlanHandlers.
Context `{Platform} `{Collation}.

(** [SELECT id FROM plans WHERE name = 'Basic' LIMIT 1] *)
Definition select_basic_id (c : Catalogue) : option Z :=
  pl_id <$> List.find (fun r => text_equal (pl_name r) "Basic") (plan_rows c).

(** The first UPDATE of [update_plans]: the name goes to a VARCHAR NOT
    NULL column and the price to a DECIMAL(10,2) one. *)
Definition update_basic_plan (id : Z) (name : json) (price : Decimal)
    (features : json) : statement unit :=
  let err := "mysql.connector.Error" in
  exec name <- slift (or_raise err (mjoin (column_text name)));
  exec price <- slift (or_raise err (column_decimal (JNum price)));
  smodify (update_plan id (Some name) price features).

(** [PUT /plans] *)
Definition update_plans (body : json) : statement (PlansBody * Z) :=
  exec payload <- slift (request_payload body);
  let plans := default (JArr []) (payload !! "plans") in
  exec plan_payload <- slift (plan_payload plans);
  let name := json_or (dict_get plan_payload "name") (JStr "Basic") in
  exec price <-
    slift (as_decimal_json (json_or (dict_get plan_payload "price")
                                    (JNum basic_price)));
  let features := json_or (dict_get plan_payload "features") basic_features in
  exec basic <- squery select_basic_id;
  exec basic <-
    match basic with
    | None => exec _ <- seed_plans; squery select_basic_id
    | Some _ => sret basic
    end;
  match basic with
  | None => slift (Raised "TypeError")
  | Some id =>
      exec _ <- update_basic_plan id name price features;
      exec _ <- smodify (deactivate_others id);
      sret (PlansMessage "Plan updated", 200)
  end.

End PlanHandlers.

(** The store keeps the primary key: the identifiers differ and lie
    under the next one to be given. *)
Definition catalogue_ok (c : Catalogue) : Prop :=
  NoDup (pl_id <$> plan_rows c)
  /\ Forall (fun r => pl_id r < next_plan_id c) (plan_rows c).

(** The active plans of a catalogue. *)
Definition active_plans (c : Catalogue) : list PlanRow :=
  filter (fun r => pl_is_active r = 1) (plan_rows c).

(** [text LIKE pattern] on characters compared by [same]: [%] stands
    for any run of characters, [_] for one, and a backslash takes the
    next character of the pattern as it is. *)
Fixpoint like_chars (same : ascii -> ascii -> bool) (pattern : list ascii)
  : list ascii -> bool :=
  match pattern with
  | [] => fun text => match text with [] => true | _ => false end
  | p :: rest =>
      if Ascii.eqb p "%"%char then
        fix any_run (text : list ascii) : bool :=
          like_chars same rest text
          || match text with [] => false | _ :: text' => any_run text' end
      else if Ascii.eqb p "_"%char then
        fun text =>
          match text with [] => false | _ :: text' => like_chars same rest text' end
      else if Ascii.eqb p "\"%char then
        match rest with
        | q :: rest' =>
            fun text =>
              match text with
              | c :: text' => same q c && like_chars same rest' text'
              | [] => false
              end
        | [] =>
            fun text =>
              match text with
              | [c] => same p c
              | _ => false
              end
        end
      else
        fun text =>
          match text with
          | c :: text' => same p c && like_chars same rest text'
          | [] => false
          end
  end.

(** The collation on the texts used below: letters compared without
    case. *)
Definition letters_ci : Collation := {|
  text_equal := same_text;
  text_like := fun text pattern =>
    like_chars (fun a b => Ascii.eqb (upper_ascii a) (upper_ascii b))
               (list_ascii_of_string pattern) (list_ascii_of_string text)
|}.

(** A catalogue holding the seeded plan, which an invoice refers to. *)
Definition seeded_catalogue : Catalogue :=
  mkCatalogue [mkPlanRow 1 "Basic" basic_price basic_features 1 1] 2 {[ 1 ]}.

(** A request renaming the plan. *)
Definition rename_request (name : string) : json :=
  JObj [("plans", JArr [JObj [("name", JStr name)]])].

Definition after_rename : Catalogue :=
  fst (update_plans (H:=offline) (H0:=letters_ci) (rename_request "Pro")
                    seeded_catalogue).

(** Rows in the order of their rank. *)
Fixpoint ranked (rows : list PlanRow) : Prop :=
  match rows with
  | [] => True
  | r :: rest =>
      Forall (fun x => pl_sort_order r <= pl_sort_order x) rest /\ ranked rest
  end.

(** A request that sets a price and nothing else. *)
Definition price_request (price : json) : json :=
  JObj [("plans", JArr [JObj [("price", price)]])].

(** A catalogue left by hand with two plans, the one called BASIC
    inactive. *)
Definition mixed_catalogue : Catalogue :=
  mkCatalogue
    [mkPlanRow 1 "BASIC" (mkDecimal 500 (-2)) (JArr []) 0 3;
     mkPlanRow 2 "Pro" (mkDecimal 499900 (-2)) (JArr [JStr "Website"]) 1 1]
    3 {[ 2 ]}.

Definition empty_catalogue : Catalogue := mkCatalogue [] 1 ∅.

(** ** Reading invoices back: [list_invoices] and [serve_invoice_pdf] *)

(** The comparisons of a day with the text of a query parameter:
    [DATE(generated_at) >= text] and [DATE(generated_at) <= text] as the
    store evaluates them.  [date_accepted] tells whether the store takes
    the text as a date in such a comparison; a text it refuses (an
    incorrect DATE value) fails the statement. *)
Class Calendar : Type := {
  date_accepted : string -> bool;
  date_on_or_after : datetime -> string -> bool;
  date_on_or_before : datetime -> string -> bool
}.

(** The query string of [GET /invoices]. *)
Record InvoiceQuery : Type := mkInvoiceQuery {
  q_search : option string;
  q_generated_from : option string;
  q_generated_to : option string
}.

(** The order of two moments. *)
Definition datetime_key (t : datetime) : list Z :=
  [year t; month t; day t; hour t; minute t; second t].

Fixpoint key_leb (a b : list Z) : bool :=
  match a, b with
  | x :: a', y :: b' => (x <? y) || ((x =? y) && key_leb a' b')
  | _, _ => true
  end.

Definition datetime_leb (a b : datetime) : bool :=
  key_leb (datetime_key a) (datetime_key b).

(** A row of the join of [invoices] with [leads] and [plans]. *)
Definition Joined : Type := Invoice * Lead * Plan.

Definition join_invoice (w : World) (inv : Invoice) : option Joined :=
  match leads w !! i_lead_id inv, plans w !! i_plan_id inv with
  | Some lead, Some plan => Some (inv, lead, plan)
  | _, _ => None
  end.

Definition joined_invoices (w : World) : list Joined :=
  omap (join_invoice w) (invoices w).

(** [ORDER BY i.generated_at DESC], rows of the same second in primary
    key order. *)
Fixpoint insert_newest_first (row : Joined) (sorted : list Joined) : list Joined :=
  match sorted with
  | [] => [row]
  | x :: rest =>
      if datetime_leb (i_generated_at x.1.1) (i_generated_at row.1.1)
      then row :: sorted
      else x :: insert_newest_first row rest
  end.

Definition newest_first (rows : list Joined) : list Joined :=
  foldr insert_newest_first [] rows.

(** The dictionary of a listed row: the fifteen columns of the
    SELECT. *)
Definition listed_dict (row : Joined) : gmap string pyvalue :=
  let '(inv, lead, plan) := row in
  list_to_map
    [("id", PInt (i_id inv));
     ("invoice_number", PStr (i_invoice_number inv));
     ("total", PDecimal (i_total inv));
     ("generated_at", PDatetime (i_generated_at inv));
     ("pdf_url", opt_value PStr (i_pdf_url inv));
     ("setup_fee_amount", PDecimal (i_setup_fee_amount inv));
     ("setup_fee_discount", PDecimal (i_setup_fee_discount inv));
     ("setup_fee_net", PDecimal (i_setup_fee_net inv));
     ("subtotal", PDecimal (i_subtotal inv));
     ("tax", PDecimal (i_tax inv));
     ("lead_name", opt_value PStr (l_name lead));
     ("lead_email", opt_value PStr (l_email lead));
     ("lead_phone", opt_value PStr (l_phone lead));
     ("plan_name", PStr (p_name plan));
     ("plan_price", PDecimal (p_price plan))].

(** [request.args.get("download", "0") == "1"] *)
Definition download_flag (download : option string) : bool :=
  match download with Some v => String.eqb v "1" | None => false end.

(** What [send_from_directory] answers. *)
Inductive FileResponse : Type :=
  | FileSent (content : list CanvasOp) (as_attachment : bool)
  | FileNotFound.

(** [GET /files/invoices/<path:filename>] *)
Definition serve_invoice_pdf (filename : string) (download : option string)
  : handler FileResponse :=
  query (fun w =>
    match files w !! filename with
    | Some content => FileSent content (download_flag download)
    | None => FileNotFound
    end).

(** The text left of [s] once [prefix] is taken from its front. *)
Fixpoint drop_prefix (prefix s : string) : option string :=
  match prefix, s with
  | EmptyString, _ => Some s
  | String a prefix', String b s' =>
      if Ascii.eqb a b then drop_prefix prefix' s' else None
  | String _ _, EmptyString => None
  end.

(** The rule [/files/invoices/<path:filename>]: the file a path asks
    for. *)
Definition invoice_file_route (path : string) : option string :=
  match drop_prefix "/files/invoices/" path with
  | Some (String c rest) => Some (String c rest)
  | _ => None
  end.

Section Listing.
Context `{Platform} `{Collation} `{Calendar}.

(** [sanitize_string] *)
Definition sanitize_string (value : pyvalue) : option string :=
  match value with
  | PNone => None
  | _ =>
      let result := strip (py_str value) in
      if String.eqb result "" then None else Some result
  end.

(** [column LIKE pattern] on a nullable column. *)
Definition column_like (column : option string) (pattern : string) : bool :=
  match column with
  | Some text => text_like text pattern
  | None => false
  end.

(** The WHERE clause [list_invoices] builds. *)
Definition matches_query (search_param : option string)
    (generated_from generated_to : option string) (row : Joined) : bool :=
  let '(inv, lead, plan) := row in
  (match search_param with
   | Some search =>
       let like_pattern := "%" +:+ search +:+ "%" in
       text_like (i_invoice_number inv) like_pattern
       || column_like (l_name lead) like_pattern
       || column_like (l_email lead) like_pattern
       || column_like (l_phone lead) like_pattern
   | None => true
   end)
  && (match generated_from with
      | Some day =>
          if String.eqb day "" then true
          else date_on_or_after (i_generated_at inv) day
      | None => true
      end)
  && (match generated_to with
      | Some day =>
          if String.eqb day "" then true
          else date_on_or_before (i_generated_at inv) day
      | None => true
      end).

(** A date parameter the SELECT can be run with: one that is not given,
    and so not part of the WHERE clause, or one the store accepts. *)
Definition date_parameter_ok (value : option string) : bool :=
  match value with
  | Some day => String.eqb day "" || date_accepted day
  | None => true
  end.

(** [[serialize_invoice_record(entry) for entry in invoices]] *)
Fixpoint serialize_invoice_records (host_url : option string)
    (entries : list (gmap string pyvalue))
  : outcome (list (gmap string pyvalue)) :=
  match entries with
  | [] => Returned []
  | entry :: rest =>
      try record <- serialize_invoice_record host_url entry in
      try records <- serialize_invoice_records host_url rest in
      Returned (record :: records)
  end.

(** [GET /invoices] *)
Definition list_invoices (host_url : option string) (q : InvoiceQuery)
  : handler (list (gmap string pyvalue)) :=
  let search_param := sanitize_string (opt_value PStr (q_search q)) in
  if date_parameter_ok (q_generated_from q) && date_parameter_ok (q_generated_to q)
  then
    do invoices <- query (fun w =>
      newest_first
        (filter (fun row =>
                   matches_query search_param (q_generated_from q)
                                 (q_generated_to q) row = true)
                (joined_invoices w)));
    lift (serialize_invoice_records host_url (map listed_dict invoices))
  else raise "mysql.connector.Error".

End Listing.

(** The days of a calendar compared as texts of the form YYYY-MM-DD. *)
Definition day_text (t : datetime) : string :=
  format_0d 4 (year t) +:+ "-" +:+ format_0d 2 (month t) +:+ "-"
  +:+ format_0d 2 (day t).

Definition plain_calendar : Calendar := {|
  date_accepted := is_date_text;
  date_on_or_after := fun t day =>
    is_date_text day && bool_decide (String.leb day (day_text t) = true);
  date_on_or_before := fun t day =>
    is_date_text day && bool_decide (String.leb (day_text t) day = true)
|}.

(** A query without parameters. *)
Definition no_query : InvoiceQuery := mkInvoiceQuery None None None.

(** The records listed after the request of [discount_request]. *)
Definition listing_after_creation : World * outcome (list (gmap string pyvalue)) :=
  list_invoices (H:=offline) (H0:=letters_ci) (H1:=plain_calendar)
    (Some "http://localhost:5700/") no_query (fst discount_invoice).

(** A search for a name, with blanks around it, among the invoices
    generated since the first of November; and a query whose date the
    store refuses. *)
Definition asha_query : InvoiceQuery :=
  mkInvoiceQuery (Some " asha ") (Some "2025-11-01") None.

Definition refused_query : InvoiceQuery :=
  mkInvoiceQuery None (Some "yesterday") None.

(** Rows in the order a listing gives them: each is at least as new as
    those after it. *)
Fixpoint newest_first_order (rows : list Joined) : Prop :=
  match rows with
  | [] => True
  | row :: rest =>
      Forall (fun x => datetime_leb (i_generated_at x.1.1)
                                    (i_generated_at row.1.1) = true) rest
      /\ newest_first_order rest
  end.

(** A query parameter that is absent or empty. *)
Definition not_given (value : option string) : Prop :=
  value = None \/ value = Some "".

(** * Properties *)

(** ** Order on [Decimal] *)

Lemma pow10_pos (k : Z) : 0 <= k -> 0 < 10 ^ k.
Proof. intros Hk. apply Z.pow_pos_nonneg; lia. Qed.

Lemma dec_ltb_spec (a b : Decimal) :
  dec_ltb a b = true <->
  rescale a (common_exponent a b) < rescale b (common_exponent a b).
Proof.
  unfold dec_ltb, dec_compare.
  destruct (Z.compare_spec (rescale a (common_exponent a b))
                           (rescale b (common_exponent a b))); split;
    intros; try lia; try discriminate; reflexivity.
Qed.

Lemma common_exponent_comm (a b : Decimal) :
  common_exponent a b = common_exponent b a.
Proof. unfold common_exponent. apply Z.min_comm. Qed.

(** The sign of a [Decimal] is the sign of its coefficient. *)
Lemma dec_ltb_zero_r (a : Decimal) :
  dec_ltb a dec_zero = true <-> coefficient a < 0.
Proof.
  rewrite dec_ltb_spec. unfold rescale, common_exponent, dec_zero. simpl.
  assert (0 < 10 ^ (exponent a - Z.min (exponent a) 0)) by (apply pow10_pos; lia).
  nia.
Qed.

Lemma dec_ltb_zero_l (a : Decimal) :
  dec_ltb dec_zero a = true <-> 0 < coefficient a.
Proof.
  rewrite dec_ltb_spec. unfold rescale, common_exponent, dec_zero. simpl.
  assert (0 < 10 ^ (exponent a - Z.min 0 (exponent a))) by (apply pow10_pos; lia).
  nia.
Qed.

Lemma dec_sub_nonneg (a b : Decimal) :
  dec_ltb a b = false -> dec_ltb (dec_sub a b) dec_zero = false.
Proof.
  intros Hab. apply not_true_is_false. rewrite dec_ltb_zero_r.
  apply not_true_iff_false in Hab. rewrite dec_ltb_spec in Hab.
  unfold dec_sub. simpl. lia.
Qed.

Lemma dec_sub_self (a : Decimal) : coefficient (dec_sub a a) = 0.
Proof. unfold dec_sub. simpl. lia. Qed.

(** ** Pricing properties *)


(** ** The payment ledger *)

Section Ledger.
Context `{Platform}.

Lemma same_key_spec (lead_id : Z) (billing_month : string) (p : Payment) :
  same_key lead_id billing_month p = true <-> payment_key p = (lead_id, billing_month).
Proof.
  unfold same_key, payment_key. rewrite andb_true_iff, Z.eqb_eq, String.eqb_eq.
  split; [intros [-> ->]; reflexivity | intros [= -> ->]; auto].
Qed.

Lemma payment_key_overwrite amount paid_on method note (p : Payment) :
  payment_key (overwrite_payment amount paid_on method note p) = payment_key p.
Proof. reflexivity. Qed.

Lemma upsert_payment_keys (new : Payment) (rows : list Payment) :
  payment_key <$> upsert_payment new rows =
  if decide (payment_key new ∈ payment_key <$> rows)
  then payment_key <$> rows
  else (payment_key <$> rows) ++ [payment_key new].
Proof.
  induction rows as [|p rows IH]; [reflexivity|].
  cbn [upsert_payment].
  destruct (same_key (pay_lead_id new) (pay_billing_month new) p) eqn:Hk;
    rewrite !fmap_cons.
  - apply same_key_spec in Hk. rewrite payment_key_overwrite.
    rewrite decide_True; [reflexivity|].
    change (pay_lead_id new, pay_billing_month new) with (payment_key new) in Hk.
    rewrite Hk. left.
  - assert (payment_key p <> payment_key new) as Hne.
    { intros Heq. apply not_true_iff_false in Hk. apply Hk.
      apply same_key_spec. exact Heq. }
    rewrite IH.
    destruct (decide (payment_key new ∈ payment_key <$> rows)) as [Hin|Hin].
    + rewrite decide_True; [reflexivity | by right].
    + rewrite decide_False; [reflexivity|].
      intros Hin'. apply elem_of_cons in Hin' as [Heq|Hin']; congruence.
Qed.

Lemma upsert_payment_NoDup (new : Payment) (rows : list Payment) :
  NoDup (payment_key <$> rows) ->
  NoDup (payment_key <$> upsert_payment new rows).
Proof.
  intros Hnd. rewrite upsert_payment_keys.
  destruct (decide _) as [Hin|Hin]; [exact Hnd|].
  apply NoDup_app. split; [exact Hnd|]. split.
  - intros k Hk Hk'. apply list_elem_of_singleton in Hk'. congruence.
  - apply NoDup_singleton.
Qed.

Lemma upsert_payment_spec (new : Payment) (rows : list Payment) :
  upsert_payment new rows =
  match list_find (fun p => payment_key p = payment_key new) rows with
  | Some (i, old) =>
      <[i := overwrite_payment (pay_amount new) (pay_paid_on new)
               (pay_payment_method new) (pay_note new) old]> rows
  | None => rows ++ [new]
  end.
Proof.
  induction rows as [|p rows IH]; [reflexivity|].
  cbn [upsert_payment list_find].
  destruct (same_key (pay_lead_id new) (pay_billing_month new) p) eqn:Hk.
  - apply same_key_spec in Hk. rewrite decide_True by exact Hk. reflexivity.
  - rewrite decide_False.
    2:{ intros Heq. apply not_true_iff_false in Hk. apply Hk.
        apply same_key_spec. exact Heq. }
    rewrite IH.
    destruct (list_find _ rows) as [[i old]|]; reflexivity.
Qed.

Lemma find_upsert_payment (new : Payment) (rows : list Payment) :
  List.find (same_key (pay_lead_id new) (pay_billing_month new))
            (upsert_payment new rows) =
  Some match list_find (fun p => payment_key p = payment_key new) rows with
       | Some (_, old) =>
           overwrite_payment (pay_amount new) (pay_paid_on new)
             (pay_payment_method new) (pay_note new) old
       | None => new
       end.
Proof.
  induction rows as [|p rows IH]; cbn [upsert_payment list_find List.find].
  - replace (same_key _ _ new) with true; [reflexivity|].
    symmetry. apply same_key_spec. reflexivity.
  - destruct (same_key (pay_lead_id new) (pay_billing_month new) p) eqn:Hk.
    + cbn [List.find].
      replace (same_key _ _ (overwrite_payment _ _ _ _ p)) with true by (symmetry; exact Hk).
      apply same_key_spec in Hk. rewrite decide_True by exact Hk. reflexivity.
    + cbn [List.find]. rewrite Hk, IH.
      rewrite decide_False.
      2:{ intros Heq. apply not_true_iff_false in Hk. apply Hk.
          apply same_key_spec. exact Heq. }
      destruct (list_find _ rows) as [[i old]|]; reflexivity.
Qed.

Lemma filter_absent_key (k : Z * string) (rows : list Payment) :
  k ∉ payment_key <$> rows ->
  filter (fun p => payment_key p = k) rows = [].
Proof.
  induction rows as [|p rows IH]; intros Hk; [reflexivity|].
  rewrite fmap_cons in Hk. apply not_elem_of_cons in Hk as [Hne Hk].
  rewrite filter_cons, decide_False by congruence. auto.
Qed.

Lemma filter_upsert_payment (new : Payment) (rows : list Payment) :
  NoDup (payment_key <$> rows) ->
  filter (fun p => payment_key p = payment_key new) (upsert_payment new rows) =
  [match list_find (fun p => payment_key p = payment_key new) rows with
   | Some (_, old) =>
       overwrite_payment (pay_amount new) (pay_paid_on new)
         (pay_payment_method new) (pay_note new) old
   | None => new
   end].
Proof.
  induction rows as [|p rows IH]; intros Hnd; cbn [upsert_payment list_find].
  - rewrite filter_cons, decide_True by reflexivity. reflexivity.
  - rewrite fmap_cons in Hnd. apply NoDup_cons in Hnd as [Hp Hnd].
    destruct (same_key (pay_lead_id new) (pay_billing_month new) p) eqn:Hk.
    + apply same_key_spec in Hk. rewrite decide_True by exact Hk.
      rewrite filter_cons, decide_True by exact Hk. f_equal.
      apply filter_absent_key.
      change (pay_lead_id new, pay_billing_month new) with (payment_key new) in Hk.
      rewrite <- Hk. exact Hp.
    + assert (payment_key p <> payment_key new) as Hne.
      { intros Heq. apply not_true_iff_false in Hk. apply Hk.
        apply same_key_spec. exact Heq. }
      rewrite filter_cons, decide_False by exact Hne.
      rewrite decide_False by exact Hne. rewrite IH by exact Hnd.
      destruct (list_find _ rows) as [[i old]|]; reflexivity.
Qed.

(** What an accepted recording did. *)
Lemma record_payment_accepted (lead_id : Z) (body : json) (w w' : World)
    (payment : option Payment) :
  record_payment lead_id body w = (w', Returned (PaymentBody payment, 200)) ->
  exists payload month amount paid_on method note,
    request_payload body = Returned payload
    /\ truthy (dict_get payload "billing_month") = true
    /\ truthy (dict_get payload "amount") = true
    /\ column_date (dict_get payload "billing_month") = Some (Some month)
    /\ column_decimal (dict_get payload "amount") = Some amount
    /\ column_date (dict_get payload "paid_on") = Some paid_on
    /\ column_text (dict_get payload "payment_method") = Some method
    /\ column_text (dict_get payload "note") = Some note
    /\ is_Some (leads w !! lead_id)
    /\ w' = set_lead_payments w
              (upsert_payment
                 (mkPayment (next_payment_id w) lead_id None month amount
                            paid_on method note)
                 (lead_payments w))
              (next_payment_id w + 1)
    /\ payment = List.find (same_key lead_id month) (lead_payments w').
Proof.
  unfold record_payment, hbind, lift, ret.
  destruct (request_payload body) as [payload|e]; [|discriminate].
  destruct (truthy (dict_get payload "billing_month")) eqn:Hm;
    [|simpl; discriminate].
  destruct (truthy (dict_get payload "amount")) eqn:Ha; [|simpl; discriminate].
  cbn [negb orb].
  unfold insert_lead_payment, select_payment, hbind, lift, query, or_raise.
  destruct (column_date (dict_get payload "billing_month")) as [[month|]|] eqn:Hcm;
    cbn [mjoin option_join]; try discriminate.
  destruct (column_decimal (dict_get payload "amount")) as [amount|] eqn:Hca;
    try discriminate.
  destruct (column_date (dict_get payload "paid_on")) as [paid_on|] eqn:Hcp;
    try discriminate.
  destruct (column_text (dict_get payload "payment_method")) as [method|] eqn:Hct;
    try discriminate.
  destruct (column_text (dict_get payload "note")) as [note|] eqn:Hcn;
    try discriminate.
  destruct (bool_decide (is_Some (leads w !! lead_id))) eqn:Hfk; try discriminate.
  intros [= <- <-].
  exists payload, month, amount, paid_on, method, note.
  apply bool_decide_eq_true in Hfk.
  repeat split; auto.
Qed.

(** A request either leaves the ledger as it was or performs one
    upsert. *)
Lemma record_payment_ledger (lead_id : Z) (body : json) (w : World) :
  lead_payments (fst (record_payment lead_id body w)) = lead_payments w
  \/ exists new,
       lead_payments (fst (record_payment lead_id body w)) =
       upsert_payment new (lead_payments w).
Proof.
  unfold record_payment, hbind, lift, ret.
  destruct (request_payload body) as [payload|e]; [|left; reflexivity].
  destruct (negb (truthy (dict_get payload "billing_month"))
            || negb (truthy (dict_get payload "amount"))); [left; reflexivity|].
  unfold insert_lead_payment, select_payment, hbind, lift, query, or_raise.
  repeat match goal with
  | |- context [match ?o with Some _ => _ | None => _ end] =>
      destruct o; cbn [fst]; try (left; reflexivity)
  | |- context [if ?b then _ else _] =>
      destruct b; cbn [fst]; try (left; reflexivity)
  end;
  right; eexists; reflexivity.
Qed.

Lemma record_payment_NoDup (lead_id : Z) (body : json) (w : World) :
  NoDup (payment_key <$> lead_payments w) ->
  NoDup (payment_key <$> lead_payments (fst (record_payment lead_id body w))).
Proof.
  intros Hnd.
  destruct (record_payment_ledger lead_id body w) as [-> | [new ->]];
    [exact Hnd | apply upsert_payment_NoDup; exact Hnd].
Qed.

Lemma record_payments_NoDup (requests : list (Z * json)) (w : World) :
  NoDup (payment_key <$> lead_payments w) ->
  NoDup (payment_key <$> lead_payments (record_payments requests w)).
Proof.
  revert w. induction requests as [|[lead_id body] rest IH]; intros w Hnd.
  - exact Hnd.
  - cbn [record_payments]. apply IH, record_payment_NoDup, Hnd.
Qed.

(** The validation of [record_payment]: a falsy billing month or amount
    ends the request with the 400 response, the world untouched. *)
Lemma record_payment_validation (lead_id : Z) (body : json)
    (payload : gmap string json) (w : World) :
  request_payload body = Returned payload ->
  truthy (dict_get payload "billing_month") = false
  \/ truthy (dict_get payload "amount") = false ->
  record_payment lead_id body w =
  (w, Returned (ErrorBody "Billing month and amount required", 400)).
Proof.
  intros Hp Hfalsy. unfold record_payment, hbind, lift, ret. rewrite Hp.
  destruct Hfalsy as [-> | ->]; [reflexivity|].
  rewrite orb_true_r. reflexivity.
Qed.

(** C2. Recording is an upsert keyed by (client, billing month).  From a
    ledger with at most one row per pair, after any sequence of
    recordings an accepted recording leaves at most one row per pair and
    exactly one row for its own pair, holding the amount, paid-date,
    method and note of this request (not a sum); a row that already held
    the pair is overwritten where it stands, keeping its identifier,
    and only a missing pair adds a row. *)
Theorem record_payment_upsert (requests : list (Z * json)) (w0 : World)
    (lead_id : Z) (body : json) (w' : World) (payment : option Payment) :
  NoDup (payment_key <$> lead_payments w0) ->
  record_payment lead_id body (record_payments requests w0)
    = (w', Returned (PaymentBody payment, 200)) ->
  let w := record_payments requests w0 in
  NoDup (payment_key <$> lead_payments w')
  /\ exists payload month amount paid_on method note row,
       request_payload body = Returned payload
       /\ column_date (dict_get payload "billing_month") = Some (Some month)
       /\ column_decimal (dict_get payload "amount") = Some amount
       /\ column_date (dict_get payload "paid_on") = Some paid_on
       /\ column_text (dict_get payload "payment_method") = Some method
       /\ column_text (dict_get payload "note") = Some note
       /\ payment = Some row
       /\ payment_key row = (lead_id, month)
       /\ pay_amount row = amount
       /\ pay_paid_on row = paid_on
       /\ pay_payment_method row = method
       /\ pay_note row = note
       /\ filter (fun p => payment_key p = (lead_id, month)) (lead_payments w')
          = [row]
       /\ match list_find (fun p => payment_key p = (lead_id, month))
                          (lead_payments w) with
          | Some (i, old) =>
              lead_payments w' = <[i := row]> (lead_payments w)
              /\ pay_id row = pay_id old
              /\ pay_invoice_id row = pay_invoice_id old
          | None => lead_payments w' = lead_payments w ++ [row]
          end.
Proof.
  intros Hnd0 Hrun w.
  assert (NoDup (payment_key <$> lead_payments w)) as Hnd
    by (apply record_payments_NoDup; exact Hnd0).
  fold w in Hrun.
  apply record_payment_accepted in Hrun
    as (payload & month & amount & paid_on & method & note & Hp & _ & _
        & Hm & Ha & Hpo & Hpm & Hn & _ & -> & ->).
  set (new := mkPayment (next_payment_id w) lead_id None month amount
                        paid_on method note).
  cbn [lead_payments set_lead_payments].
  split; [apply upsert_payment_NoDup; exact Hnd|].
  pose proof (find_upsert_payment new (lead_payments w)) as Hfind.
  pose proof (filter_upsert_payment new (lead_payments w) Hnd) as Hfilter.
  pose proof (upsert_payment_spec new (lead_payments w)) as Hspec.
  change (payment_key new) with (lead_id, month) in *.
  change (pay_lead_id new) with lead_id in *.
  change (pay_billing_month new) with month in *.
  exists payload, month, amount, paid_on, method, note.
  destruct (list_find (fun p => payment_key p = (lead_id, month))
                      (lead_payments w)) as [[i old]|] eqn:Hlf.
  - apply list_find_Some in Hlf as (_ & Hold & _).
    exists (overwrite_payment amount paid_on method note old).
    repeat split; try assumption; try reflexivity.
  - exists new. repeat split; try assumption; reflexivity.
Qed.

(** C7. A recording whose billing month or amount is missing ends with
    the validation error before anything is written: the response is the
    400 error and the world, ledger included, is the one the request
    found; no default stands in for the missing field. *)
Theorem record_payment_missing_field (lead_id : Z) (body : json)
    (payload : gmap string json) (w : World) :
  request_payload body = Returned payload ->
  dict_get payload "billing_month" = JNull \/ dict_get payload "amount" = JNull ->
  record_payment lead_id body w
    = (w, Returned (ErrorBody "Billing month and amount required", 400)).
Proof.
  intros Hp Hmissing. apply (record_payment_validation _ _ payload); [exact Hp|].
  destruct Hmissing as [-> | ->]; [left | right]; reflexivity.
Qed.

(** C10 (as amended). A recording whose amount is the number zero is
    refused with the same validation error as a missing field, and
    nothing is written. *)
Theorem record_payment_zero_amount (lead_id : Z) (body : json)
    (payload : gmap string json) (d : Decimal) (w : World) :
  request_payload body = Returned payload ->
  dict_get payload "amount" = JNum d ->
  coefficient d = 0 ->
  record_payment lead_id body w
    = (w, Returned (ErrorBody "Billing month and amount required", 400)).
Proof.
  intros Hp Ha Hd. apply (record_payment_validation _ _ payload); [exact Hp|].
  right. rewrite Ha. cbn [truthy]. rewrite Hd. reflexivity.
Qed.

End Ledger.

Lemma record_payment_upsert_witness :
  NoDup (payment_key <$> lead_payments sample_world)
  /\ snd recording_750 = Returned
       (PaymentBody
          (Some (mkPayment 1 7 None "2025-11-01" (mkDecimal 75000 (-2))
                           None None None)), 200)
  /\ NoDup (payment_key <$> lead_payments (fst recording_750)).
Proof.
  assert (NoDup (payment_key <$> lead_payments sample_world)) as Hnd
    by apply NoDup_nil_2.
  split; [exact Hnd|].
  split; [vm_compute; reflexivity|].
  refine (proj1 (record_payment_upsert (H:=offline)
            [(7, payment_request (JNum (mkDecimal 500 0)))] sample_world 7
            (payment_request (JNum (mkDecimal 750 0))) _
            (Some (mkPayment 1 7 None "2025-11-01" (mkDecimal 75000 (-2))
                             None None None))
            Hnd _)).
  vm_compute. reflexivity.
Defined.

(** Recording 500 and then 750 for client 7 and November 2025 leaves one
    row, with amount 750. *)
Example record_500_then_750 :
  lead_payments
    (record_payments (H:=offline)
       [(7, payment_request (JNum (mkDecimal 500 0)));
        (7, payment_request (JNum (mkDecimal 750 0)))] sample_world)
  = [mkPayment 1 7 None "2025-11-01" (mkDecimal 75000 (-2)) None None None].
Proof. vm_compute. reflexivity. Qed.

Lemma record_payment_missing_field_witness :
  record_payment (H:=offline) 7 (JObj [("amount", JNum (mkDecimal 500 0))])
                 sample_world
  = (sample_world, Returned (ErrorBody "Billing month and amount required", 400)).
Proof.
  apply (record_payment_missing_field (H:=offline) 7 _
           (dict_of_members [("amount", JNum (mkDecimal 500 0))])).
  - reflexivity.
  - left. vm_compute. reflexivity.
Defined.

Lemma record_payment_zero_amount_witness :
  record_payment (H:=offline) 7 (payment_request (JNum (mkDecimal 0 0)))
                 sample_world
  = (sample_world, Returned (ErrorBody "Billing month and amount required", 400)).
Proof.
  apply (record_payment_zero_amount (H:=offline) 7 _
           (dict_of_members [("billing_month", JStr "2025-11-01");
                             ("amount", JNum (mkDecimal 0 0))])
           (mkDecimal 0 0)).
  - reflexivity.
  - vm_compute. reflexivity.
  - reflexivity.
Defined.

(** C10, the claim as worded, fails for a zero written as text: the
    string is truthy, passes the check, and the DECIMAL column stores
    0.00. *)
Lemma zero_amount_recorded :
  record_payment (H:=offline) 7 (payment_request (JStr "0")) sample_world
  = (set_lead_payments sample_world
       [mkPayment 1 7 None "2025-11-01" (mkDecimal 0 (-2)) None None None] 2,
     Returned
       (PaymentBody
          (Some (mkPayment 1 7 None "2025-11-01" (mkDecimal 0 (-2))
                           None None None)), 200)).
Proof. vm_compute. reflexivity. Qed.

(** ** Invoice numbering *)

Section Numbering.

Lemma numeral_value_str_of_Z (n : Z) : 0 <= n -> numeral_value (str_of_Z n) = Some n.
Proof.
  intros Hn. unfold numeral_value, str_of_Z.
  destruct n as [|p|p]; [reflexivity| |lia].
  cbn [Z.to_int NilZero.string_of_int].
  unfold NilZero.string_of_uint.
  pose proof (DecimalPos.Unsigned.to_uint_nonnil p) as Hnil.
  destruct (Pos.to_uint p) eqn:Hd; try congruence;
    rewrite <- Hd, NilEmpty.usu; cbn [fmap option_fmap option_map];
    unfold Z.of_uint; rewrite DecimalPos.Unsigned.of_to; reflexivity.
Qed.

Lemma append_cons (c : ascii) (a b : string) :
  String c a +:+ b = String c (a +:+ b).
Proof. reflexivity. Qed.

Lemma numeral_value_zeros (k : nat) (s : string) :
  numeral_value (zeros k +:+ s) = numeral_value s.
Proof.
  induction k as [|k IH]; [reflexivity|].
  cbn [zeros]. rewrite append_cons. unfold numeral_value in *.
  cbn [NilEmpty.uint_of_string].
  rewrite <- IH.
  destruct (NilEmpty.uint_of_string (zeros k +:+ s)) as [d|]; reflexivity.
Qed.

Lemma numeral_value_format_0d (width : nat) (n : Z) :
  0 <= n -> numeral_value (format_0d width n) = Some n.
Proof.
  intros Hn. unfold format_0d.
  rewrite numeral_value_zeros. apply numeral_value_str_of_Z, Hn.
Qed.

Lemma length_append (a b : string) :
  String.length (a +:+ b) = (String.length a + String.length b)%nat.
Proof.
  induction a as [|c a IH]; [reflexivity|].
  rewrite append_cons. cbn [String.length]. rewrite IH. reflexivity.
Qed.

Lemma of_lu_bound (d : Decimal.uint) :
  (Unsigned.of_lu d < 10 ^ N.of_nat (Decimal.nb_digits d))%N.
Proof.
  induction d; cbn [Unsigned.of_lu Decimal.nb_digits];
    rewrite ?Nat2N.inj_succ, ?N.pow_succ_r'; lia.
Qed.

Lemma string_of_uint_length (d : Decimal.uint) :
  String.length (NilEmpty.string_of_uint d) = Decimal.nb_digits d.
Proof. induction d; cbn; congruence. Qed.

Lemma str_of_Z_bound (n : Z) :
  0 <= n -> n < 10 ^ Z.of_nat (String.length (str_of_Z n)).
Proof.
  intros Hn. destruct n as [|p|p]; [reflexivity| |lia].
  unfold str_of_Z. cbn [Z.to_int NilZero.string_of_int].
  unfold NilZero.string_of_uint.
  pose proof (Unsigned.to_uint_nonnil p) as Hnil.
  assert (String.length (NilEmpty.string_of_uint (Pos.to_uint p))
          = Decimal.nb_digits (Pos.to_uint p)) as Hlen
    by apply string_of_uint_length.
  assert (Z.pos p < 10 ^ Z.of_nat (Decimal.nb_digits (Pos.to_uint p))) as Hb.
  { pose proof (of_lu_bound (Decimal.rev (Pos.to_uint p))) as Hlu.
    rewrite <- Unsigned.of_uint_alt, Unsigned.of_to, nb_digits_rev in Hlu.
    apply N2Z.inj_lt in Hlu. rewrite N2Z.inj_pow, nat_N_Z in Hlu.
    exact Hlu. }
  destruct (Pos.to_uint p); try congruence; rewrite Hlen; exact Hb.
Qed.

(** A numeral without leading zero is at least the power of ten of its
    length. *)
Lemma of_uint_acc_lower (l : Decimal.uint) (acc : positive) :
  (Z.pos acc * 10 ^ Z.of_nat (Decimal.nb_digits l) <= Z.pos (Pos.of_uint_acc l acc))%Z.
Proof.
  revert acc. induction l; intros acc; cbn [Pos.of_uint_acc Decimal.nb_digits];
    [rewrite Z.pow_0_r; lia | ..];
    rewrite Nat2Z.inj_succ, Z.pow_succ_r by lia;
    match goal with |- context [Pos.of_uint_acc _ ?a] => specialize (IHl a) end;
    nia.
Qed.

Lemma to_uint_unorm (p : positive) : Decimal.unorm (Pos.to_uint p) = Pos.to_uint p.
Proof.
  pose proof (Unsigned.to_of (Pos.to_uint p)) as Hto.
  rewrite Unsigned.of_to in Hto. symmetry. exact Hto.
Qed.

Lemma str_of_Z_lower (n : Z) :
  0 < n -> 10 ^ (Z.of_nat (String.length (str_of_Z n)) - 1) <= n.
Proof.
  intros Hn. destruct n as [|p|p]; try lia.
  unfold str_of_Z. cbn [Z.to_int NilZero.string_of_int].
  unfold NilZero.string_of_uint.
  pose proof (Unsigned.to_uint_nonnil p) as Hnil.
  pose proof (Unsigned.of_to p) as Hof.
  pose proof (to_uint_unorm p) as Hnorm.
  pose proof (string_of_uint_length (Pos.to_uint p)) as Hlen.
  destruct (Pos.to_uint p) as [|l|l|l|l|l|l|l|l|l|l] eqn:Hd; try congruence;
    rewrite Hlen; cbn [Decimal.nb_digits];
    rewrite Nat2Z.inj_succ; replace (Z.succ (Z.of_nat (Decimal.nb_digits l)) - 1)
      with (Z.of_nat (Decimal.nb_digits l)) by lia.
  1:{ (* a leading zero is excluded by normal form *)
      exfalso. unfold Decimal.unorm in Hnorm. cbn [Decimal.nzhead] in Hnorm.
      pose proof (nb_digits_nzhead l) as Hle.
      destruct (Decimal.nzhead l) eqn:Hnz.
      - injection Hnorm as <-. apply (Unsigned.to_uint_nonzero p). exact Hd.
      - rewrite Hnorm in Hle. cbn [Decimal.nb_digits] in Hle. lia.
      - rewrite Hnorm in Hle. cbn [Decimal.nb_digits] in Hle. lia.
      - rewrite Hnorm in Hle. cbn [Decimal.nb_digits] in Hle. lia.
      - rewrite Hnorm in Hle. cbn [Decimal.nb_digits] in Hle. lia.
      - rewrite Hnorm in Hle. cbn [Decimal.nb_digits] in Hle. lia.
      - rewrite Hnorm in Hle. cbn [Decimal.nb_digits] in Hle. lia.
      - rewrite Hnorm in Hle. cbn [Decimal.nb_digits] in Hle. lia.
      - rewrite Hnorm in Hle. cbn [Decimal.nb_digits] in Hle. lia.
      - rewrite Hnorm in Hle. cbn [Decimal.nb_digits] in Hle. lia.
      - rewrite Hnorm in Hle. cbn [Decimal.nb_digits] in Hle. lia. }
  all: cbn [Pos.of_uint] in Hof; injection Hof as Hof;
    match type of Hof with Pos.of_uint_acc ?l0 ?a = _ =>
      pose proof (of_uint_acc_lower l0 a) as Hlow end;
    rewrite Hof in Hlow; lia.
Qed.

Lemma str_of_Z_length_le (n : Z) (k : nat) :
  0 <= n < 10 ^ Z.of_nat k -> (0 < k)%nat ->
  (String.length (str_of_Z n) <= k)%nat.
Proof.
  intros Hn Hk. destruct (Z.eq_dec n 0) as [-> | Hne].
  - cbn. lia.
  - pose proof (str_of_Z_lower n ltac:(lia)) as Hlow.
    destruct (Nat.le_gt_cases (String.length (str_of_Z n)) k) as [Hle|Hgt];
      [exact Hle|].
    assert (10 ^ Z.of_nat k <= 10 ^ (Z.of_nat (String.length (str_of_Z n)) - 1))
      by (apply Z.pow_le_mono_r; lia).
    lia.
Qed.

Lemma zeros_length (k : nat) : String.length (zeros k) = k.
Proof. induction k; cbn; congruence. Qed.

Lemma format_0d_length (width : nat) (n : Z) :
  0 <= n < 10 ^ Z.of_nat width -> (0 < width)%nat ->
  String.length (format_0d width n) = width.
Proof.
  intros Hn Hw. unfold format_0d.
  pose proof (str_of_Z_length_le n width Hn Hw).
  rewrite length_append, zeros_length. lia.
Qed.

Lemma format_0d_4_length (n : Z) :
  0 <= n <= 9999 -> String.length (format_0d 4 n) = 4%nat.
Proof. intros Hn. apply format_0d_length; [cbn; lia | lia]. Qed.

Lemma format_0d_2_length (n : Z) :
  0 <= n <= 99 -> String.length (format_0d 2 n) = 2%nat.
Proof. intros Hn. apply format_0d_length; [cbn; lia | lia]. Qed.

Lemma strftime_INV_Y_m_length (t : datetime) :
  valid_date t -> String.length (strftime_INV_Y_m t) = 9%nat.
Proof.
  intros [Hy Hm]. unfold strftime_INV_Y_m.
  rewrite !length_append, format_0d_4_length, format_0d_2_length by lia.
  reflexivity.
Qed.

Lemma count_invoice_numbers_nonneg (prefix : string) (rows : list Invoice) :
  0 <= count_invoice_numbers prefix rows.
Proof. unfold count_invoice_numbers. lia. Qed.

Lemma format_0d_4_large (n : Z) :
  9999 < n ->
  format_0d 4 n = str_of_Z n /\ (4 < String.length (format_0d 4 n))%nat.
Proof.
  intros Hn.
  assert (4 < String.length (str_of_Z n))%nat as Hlen.
  { pose proof (str_of_Z_bound n ltac:(lia)) as Hb.
    destruct (Nat.lt_ge_cases 4 (String.length (str_of_Z n))) as [Hlt|Hge];
      [exact Hlt|].
    assert (10 ^ Z.of_nat (String.length (str_of_Z n)) <= 10 ^ 4)
      by (apply Z.pow_le_mono_r; lia).
    lia. }
  unfold format_0d.
  replace (4 - String.length (str_of_Z n))%nat with 0%nat by lia.
  split; [reflexivity | exact Hlen].
Qed.

(** C3 (as amended). The allocated number is the prefix [INV], the
    four-digit UTC year and the two-digit UTC month, followed by N+1
    written in decimal and padded with zeros to a width of four, where N
    counts the stored numbers matching the prefix.  The digits always
    read back as N+1; they are exactly four while N+1 is at most 9999,
    and from 10000 on they are the plain decimal of N+1, longer than
    four. *)
Theorem next_invoice_number_format (clock : Clock) (w : World) :
  valid_date (utcnow clock) ->
  let prefix := strftime_INV_Y_m (utcnow clock) in
  let N := count_invoice_numbers prefix (invoices w) in
  next_invoice_number clock w = prefix +:+ format_0d 4 (N + 1)
  /\ prefix = "INV" +:+ format_0d 4 (year (utcnow clock))
              +:+ format_0d 2 (month (utcnow clock))
  /\ String.length prefix = 9%nat
  /\ numeral_value (format_0d 4 (N + 1)) = Some (N + 1)
  /\ (N + 1 <= 9999 ->
      four_digit_number prefix (N + 1) (next_invoice_number clock w))
  /\ (9999 < N + 1 ->
      format_0d 4 (N + 1) = str_of_Z (N + 1)
      /\ (4 < String.length (format_0d 4 (N + 1)))%nat).
Proof.
  intros Hdate prefix N.
  pose proof (count_invoice_numbers_nonneg prefix (invoices w)) as HN.
  fold N in HN.
  assert (numeral_value (format_0d 4 (N + 1)) = Some (N + 1)) as Hval
    by (apply numeral_value_format_0d; lia).
  repeat split.
  - apply strftime_INV_Y_m_length, Hdate.
  - exact Hval.
  - intros Hsmall. exists (format_0d 4 (N + 1)).
    repeat split; [apply format_0d_4_length; lia | exact Hval].
  - apply format_0d_4_large; assumption.
  - apply format_0d_4_large; assumption.
Qed.

(** The sample store respects the unique index on invoice numbers. *)
Lemma november_world_unique (n : Z) :
  NoDup (i_invoice_number <$> invoices (november_world n)).
Proof.
  unfold november_world. cbn [invoices set_invoices].
  rewrite <- list_fmap_compose.
  apply NoDup_fmap_2; [|apply NoDup_seq].
  intros j k Hjk. cbn in Hjk.
  apply String.app_inj in Hjk.
  apply (f_equal numeral_value) in Hjk.
  rewrite !numeral_value_format_0d in Hjk by lia.
  injection Hjk as Hjk. lia.
Qed.

Lemma filter_all {A} (P : A -> Prop) `{forall x, Decision (P x)} (l : list A) :
  Forall P l -> filter P l = l.
Proof.
  induction 1 as [|x l Hx Hl IH]; [reflexivity|].
  rewrite filter_cons, decide_True by exact Hx. f_equal. exact IH.
Qed.

Lemma upper_append (a b : string) : upper (a +:+ b) = upper a +:+ upper b.
Proof.
  induction a as [|c a IH]; [reflexivity|].
  rewrite append_cons. cbn [upper]. rewrite IH, append_cons. reflexivity.
Qed.

Lemma prefix_append (a b : string) : String.prefix a (a +:+ b) = true.
Proof.
  induction a as [|c a IH]; [destruct b; reflexivity|].
  rewrite append_cons. cbn [String.prefix].
  destruct (ascii_dec c c) as [_|Hne]; [exact IH | congruence].
Qed.

(** A number that begins with the prefix matches it. *)
Lemma like_prefix_append (prefix rest : string) :
  like_prefix prefix (prefix +:+ rest) = true.
Proof. unfold like_prefix. rewrite upper_append. apply prefix_append. Qed.

(** Every number of the sample store matches the November prefix. *)
Lemma november_world_count (n : Z) :
  0 <= n ->
  count_invoice_numbers "INV202511" (invoices (november_world n)) = n.
Proof.
  intros Hn. unfold count_invoice_numbers, november_world.
  cbn [invoices set_invoices].
  rewrite filter_all.
  - rewrite length_map, length_seq. lia.
  - apply Forall_forall. intros r Hr. apply list_elem_of_In, in_map_iff in Hr.
    destruct Hr as (k & <- & _). apply like_prefix_append.
Qed.

End Numbering.

Lemma next_invoice_number_format_witness :
  valid_date (utcnow sample_clock)
  /\ next_invoice_number sample_clock (november_world 6) = "INV2025110007".
Proof.
  split.
  - unfold valid_date. simpl. lia.
  - rewrite (proj1 (next_invoice_number_format sample_clock (november_world 6)
                      ltac:(unfold valid_date; simpl; lia))).
    vm_compute. reflexivity.
Defined.

(** C3, the claim as the specification words it, fails once a month
    holds 9999 invoices: the next number carries five digits. *)
Lemma next_invoice_number_fifth_digit :
  count_invoice_numbers "INV202511" (invoices (november_world 9999)) = 9999
  /\ NoDup (i_invoice_number <$> invoices (november_world 9999))
  /\ next_invoice_number sample_clock (november_world 9999) = "INV20251110000"
  /\ ~ four_digit_number "INV202511" 10000
        (next_invoice_number sample_clock (november_world 9999)).
Proof.
  assert (count_invoice_numbers "INV202511" (invoices (november_world 9999))
          = 9999) as Hcount by (apply november_world_count; lia).
  assert (next_invoice_number sample_clock (november_world 9999)
          = "INV20251110000") as Hnum.
  { unfold next_invoice_number.
    change (strftime_INV_Y_m (utcnow sample_clock)) with "INV202511".
    rewrite Hcount. reflexivity. }
  split; [exact Hcount|].
  split; [apply november_world_unique|].
  split; [exact Hnum|].
  rewrite Hnum. intros (digits & Heq & Hlen & _).
  apply (f_equal String.length) in Heq. rewrite length_append, Hlen in Heq.
  discriminate Heq.
Qed.

(** ** Rendering *)

Section Rendering.
Context `{Platform}.

(** What one rendering of an invoice with a generation timestamp does:
    the file named after that timestamp and the client is written, and
    the dictionary keeps the timestamp. *)
Lemma generate_invoice_pdf_spec (clock : Clock) (invoice : InvoiceDetails)
    (t : datetime) (w : World) :
  d_generated_at invoice = Some t ->
  let name := pdf_filename_of t (d_lead_id invoice) in
  exists page invoice' cache,
    generate_invoice_pdf clock invoice w
    = (set_files (set_LOGO_CACHE w cache) (<[name := page]> (files w)),
       Returned ("/files/invoices/" +:+ name, invoice')).
Proof.
  intros Hgen. cbv zeta. unfold generate_invoice_pdf.
  destruct (get_logo_image _ (LOGO_CACHE w)) as [neigh_logo cache1].
  destruct (get_logo_image (Some QR_URL) cache1) as [qr_image cache2].
  rewrite Hgen. cbn [to_ist_datetime].
  eexists _, _, cache2. reflexivity.
Qed.

(** C5 (as amended). The file name is [INV_<timestamp>_<client>.pdf]
    where the timestamp is the stored generation time of the invoice, not
    the time of rendering.  Rendering the same persisted invoice twice,
    at any two times, returns the same location twice and leaves one
    file under that name, the second rendering replacing the first; the
    files under other names are kept. *)
Theorem render_twice_same_file (clock1 clock2 : Clock)
    (invoice : InvoiceDetails) (t : datetime) (w : World) :
  d_generated_at invoice = Some t ->
  let name := pdf_filename_of t (d_lead_id invoice) in
  let run1 := generate_invoice_pdf clock1 invoice w in
  let run2 := generate_invoice_pdf clock2 invoice (fst run1) in
  (exists invoice1, snd run1 = Returned ("/files/invoices/" +:+ name, invoice1))
  /\ (exists invoice2, snd run2 = Returned ("/files/invoices/" +:+ name, invoice2))
  /\ (exists page2, files (fst run2) = <[name := page2]> (files w))
  /\ dom (files (fst run1)) = {[name]} ∪ dom (files w)
  /\ dom (files (fst run2)) = dom (files (fst run1)).
Proof.
  intros Hgen name run1 run2.
  destruct (generate_invoice_pdf_spec clock1 invoice t w Hgen)
    as (page1 & invoice1 & cache1 & Hrun1).
  fold name in Hrun1. fold run1 in Hrun1.
  destruct (generate_invoice_pdf_spec clock2 invoice t (fst run1) Hgen)
    as (page2 & invoice2 & cache2 & Hrun2).
  fold name in Hrun2. fold run2 in Hrun2.
  rewrite Hrun2. rewrite Hrun1. cbn [fst snd files set_files set_LOGO_CACHE].
  rewrite insert_insert_eq.
  repeat split; eauto.
  - apply dom_insert_L.
  - rewrite !dom_insert_L. set_solver.
Qed.
End Rendering.

Lemma render_twice_same_file_witness :
  d_generated_at sample_invoice = Some (mkDatetime 2025 11 1 9 0 0 false)
  /\ dom (files (fst second_render)) = dom (files (fst first_render)).
Proof.
  split; [reflexivity|].
  apply (render_twice_same_file (H:=offline) sample_clock later_clock
           sample_invoice (mkDatetime 2025 11 1 9 0 0 false) sample_world).
  reflexivity.
Defined.

(** C5, the claim as worded, fails: two renderings of the same persisted
    invoice, weeks apart, return the same location and leave a single
    file. *)
Lemma render_twice_one_file :
  returned_url first_render = Some "/files/invoices/INV_20251101T090000_7.pdf"
  /\ returned_url second_render = Some "/files/invoices/INV_20251101T090000_7.pdf"
  /\ dom (files (fst second_render)) = {[ "INV_20251101T090000_7.pdf" ]}.
Proof. repeat split; vm_compute; reflexivity. Qed.

(** ** The page *)

Section Page.
Context `{Platform}.

Lemma page_texts_app (a b : list CanvasOp) :
  page_texts (a ++ b) = page_texts a ++ page_texts b.
Proof. unfold page_texts. apply flat_map_app. Qed.

Lemma page_texts_draw_lines (x y step : Z) (lines : list string) :
  page_texts (fst (draw_lines x y step lines)) = lines.
Proof.
  revert y. induction lines as [|line rest IH]; intros y; [reflexivity|].
  cbn [draw_lines]. specialize (IH (y - step)).
  destruct (draw_lines x (y - step) step rest) as [ops y'].
  cbn [fst] in *. cbn. f_equal. exact IH.
Qed.

Lemma page_texts_draw_field_lines (x y : Z) (idx : nat) (lines : list string) :
  page_texts (fst (draw_field_lines x y idx lines)) = lines.
Proof.
  revert y idx. induction lines as [|line rest IH]; intros y idx; [reflexivity|].
  cbn [draw_field_lines].
  match goal with |- context [draw_field_lines x ?y' (S idx) rest] =>
    specialize (IH y' (S idx));
    destruct (draw_field_lines x y' (S idx) rest) as [ops y''] end.
  cbn [fst] in *. cbn. f_equal. exact IH.
Qed.

Lemma page_texts_draw_field (label : string) (value : option string) (x y : Z) :
  page_texts (fst (draw_field label value x y))
  = (label +:+ ":") :: wrap_text value 70.
Proof.
  unfold draw_field.
  pose proof (page_texts_draw_field_lines x y 0 (wrap_text value 70)) as Hl.
  destruct (draw_field_lines x y 0 (wrap_text value 70)) as [ops y'].
  cbn [fst] in *. cbn. f_equal. exact Hl.
Qed.

Lemma page_texts_draw_left_fields (fields : list (string * option string)) (x y : Z) :
  page_texts (fst (draw_left_fields fields x y)) = left_column_texts fields.
Proof.
  revert y. induction fields as [|[label value] rest IH]; intros y; [reflexivity|].
  cbn [draw_left_fields].
  pose proof (page_texts_draw_field label (str_or value (Some "NA")) x y) as Hf.
  destruct (draw_field label (str_or value (Some "NA")) x y) as [ops y'].
  specialize (IH y').
  destruct (draw_left_fields rest x y') as [ops' y''].
  cbn [fst] in *. rewrite page_texts_app, Hf, IH. reflexivity.
Qed.

Lemma page_texts_draw_right_fields (fields : list (string * option string)) (x y : Z) :
  page_texts (fst (draw_right_fields fields x y)) = right_column_texts fields.
Proof.
  revert y. induction fields as [|[label value] rest IH]; intros y; [reflexivity|].
  cbn [draw_right_fields]. specialize (IH (y - row_height)).
  destruct (draw_right_fields rest x (y - row_height)) as [ops' y''].
  cbn [fst] in *. rewrite page_texts_app, IH. reflexivity.
Qed.

(** Every text of the page, in drawing order.  The logo does not occur
    in it. *)
Lemma page_texts_invoice_page (clock : Clock) (neigh_logo qr_image : option ImageReader)
    (generated_dt : datetime) (invoice : InvoiceDetails) :
  page_texts (invoice_page clock neigh_logo qr_image generated_dt invoice)
  = ["Neighshop Global"]
    ++ wrap_text (Some BUSINESS_ADDRESS) 80 ++ ["+91 8307802643"]
    ++ left_column_texts (left_fields invoice)
    ++ right_column_texts (right_fields clock generated_dt invoice)
    ++ flat_map (fun row => [fst row; snd row]) (cost_rows invoice)
    ++ ["Payment Details"] ++ payment_lines
    ++ match qr_image with
       | Some _ => ["Scan UPI: 8307802643@axl"]
       | None => []
       end
    ++ ["Thank you for choosing Neighshop Global."].
Proof.
  unfold invoice_page.
  destruct neigh_logo as [logo|];
  repeat match goal with
  | |- context [draw_lines ?x ?y ?s ?l] =>
      let Hl := fresh "Hl" in
      pose proof (page_texts_draw_lines x y s l) as Hl;
      destruct (draw_lines x y s l) as [? ?]; cbn [fst] in Hl
  | |- context [draw_left_fields ?f ?x ?y] =>
      let Hl := fresh "Hl" in
      pose proof (page_texts_draw_left_fields f x y) as Hl;
      destruct (draw_left_fields f x y) as [? ?]; cbn [fst] in Hl
  | |- context [draw_right_fields ?f ?x ?y] =>
      let Hl := fresh "Hl" in
      pose proof (page_texts_draw_right_fields f x y) as Hl;
      destruct (draw_right_fields f x y) as [? ?]; cbn [fst] in Hl
  end;
  destruct qr_image as [qr|];
  rewrite !page_texts_app;
  repeat match goal with Hl : page_texts _ = _ |- _ => rewrite Hl; clear Hl end;
  cbn [page_texts flat_map op_texts app];
  rewrite ?app_nil_r, <- ?app_assoc; reflexivity.
Qed.








End Page.

(** ** Layout *)

Section Layout.
Context `{Platform}.


End Layout.

(** ** The logo fallback and the cost table *)

Section Fallback.
Context `{Platform}.


End Fallback.


Section Placeholder.
Context `{Platform}.

Lemma field_lines_absent (value : option string) :
  textwrap_wrap "NA" 70 = ["NA"] ->
  absent value -> field_lines value = ["NA"].
Proof.
  intros Hwrap [-> | ->]; unfold field_lines, str_or, wrap_text; cbn;
    rewrite Hwrap; reflexivity.
Qed.

Lemma field_lines_nonempty (value : option string) :
  textwrap_wrap "NA" 70 = ["NA"] -> field_lines value <> [].
Proof.
  intros Hwrap. unfold field_lines, wrap_text.
  destruct (str_or value (Some "NA")) as [s|]; [|discriminate].
  destruct (s =? "")%string; [discriminate|].
  destruct (textwrap_wrap s 70); discriminate.
Qed.

(** What a field shows: a value that is present is drawn as
    [textwrap.wrap] breaks it into lines, and [NA] is drawn in its place
    when wrapping leaves no line. *)
Lemma field_lines_present (s : string) :
  s <> "" ->
  field_lines (Some s)
  = match textwrap_wrap s 70 with [] => ["NA"] | lines => lines end.
Proof.
  intros Hs. unfold field_lines, str_or, wrap_text.
  destruct (String.eqb_spec s "") as [He | _]; [contradiction|].
  destruct (String.eqb_spec s "") as [He | _]; [contradiction|].
  reflexivity.
Qed.

(** C9 (as amended). In the left column the Brand, Email, Phone and
    Address fields each read the single line [NA] when the value is
    absent, never an empty line and never the text [None].  The Client
    field shows the name and falls back to the phone when the name is
    absent, so that it reads [NA] when both are absent.  A field reads
    the single line [NA] exactly when its value is absent, or is a text
    that wrapping turns into no line or into the line [NA] itself; a
    value that is present is otherwise drawn as it wraps.  These lines
    are the ones drawn on the page, after their labels. *)
Theorem absent_field_placeholder (invoice : InvoiceDetails) :
  textwrap_wrap "NA" 70 = ["NA"] ->
  (forall x y,
     page_texts (fst (draw_left_fields (left_fields invoice) x y))
     = "Client:" :: field_lines (str_or (d_lead_name invoice) (d_lead_phone invoice))
       ++ "Brand:" :: field_lines (d_brand_name invoice)
       ++ "Email:" :: field_lines (d_lead_email invoice)
       ++ "Phone:" :: field_lines (d_lead_phone invoice)
       ++ "Address:" :: field_lines (d_lead_address invoice))
  /\ (forall clock neigh_logo qr_image generated_dt,
        exists before after,
          page_texts (invoice_page clock neigh_logo qr_image generated_dt invoice)
          = before ++ left_column_texts (left_fields invoice) ++ after)
  /\ (absent (d_brand_name invoice) -> field_lines (d_brand_name invoice) = ["NA"])
  /\ (absent (d_lead_email invoice) -> field_lines (d_lead_email invoice) = ["NA"])
  /\ (absent (d_lead_phone invoice) -> field_lines (d_lead_phone invoice) = ["NA"])
  /\ (absent (d_lead_address invoice) -> field_lines (d_lead_address invoice) = ["NA"])
  /\ (absent (d_lead_name invoice) ->
      field_lines (str_or (d_lead_name invoice) (d_lead_phone invoice))
      = field_lines (d_lead_phone invoice))
  /\ (~ absent (d_lead_name invoice) ->
      field_lines (str_or (d_lead_name invoice) (d_lead_phone invoice))
      = field_lines (d_lead_name invoice))
  /\ (absent (d_lead_name invoice) -> absent (d_lead_phone invoice) ->
      field_lines (str_or (d_lead_name invoice) (d_lead_phone invoice)) = ["NA"])
  /\ (absent (str_or (d_lead_name invoice) (d_lead_phone invoice))
      <-> absent (d_lead_name invoice) /\ absent (d_lead_phone invoice))
  /\ (forall value,
        field_lines value = ["NA"]
        <-> absent value
            \/ exists s, value = Some s
                         /\ (textwrap_wrap s 70 = [] \/ textwrap_wrap s 70 = ["NA"]))
  /\ (forall s lines,
        s <> "" -> textwrap_wrap s 70 = lines -> lines <> [] ->
        field_lines (Some s) = lines)
  /\ (forall value, field_lines value <> []).
Proof.
  intros Hwrap.
  split.
  { intros x y. rewrite page_texts_draw_left_fields.
    unfold left_column_texts, left_fields. cbn [flat_map fst snd].
    rewrite app_nil_r. reflexivity. }
  split.
  { intros clock neigh_logo qr_image generated_dt.
    rewrite page_texts_invoice_page.
    exists (["Neighshop Global"] ++ wrap_text (Some BUSINESS_ADDRESS) 80
            ++ ["+91 8307802643"]).
    eexists. rewrite <- !app_assoc. reflexivity. }
  do 4 (split; [apply field_lines_absent; exact Hwrap|]).
  split.
  { intros [-> | ->]; reflexivity. }
  split.
  { intros Hname. destruct (d_lead_name invoice) as [name|];
      [|exfalso; apply Hname; left; reflexivity].
    unfold str_or. destruct (String.eqb_spec name "") as [-> | _];
      [exfalso; apply Hname; right; reflexivity | reflexivity]. }
  split.
  { intros Hname Hphone.
    assert (str_or (d_lead_name invoice) (d_lead_phone invoice) = d_lead_phone invoice)
      as -> by (destruct Hname as [-> | ->]; reflexivity).
    apply field_lines_absent; assumption. }
  split.
  { unfold absent, str_or. destruct (d_lead_name invoice) as [name|].
    - destruct (String.eqb_spec name "") as [-> | Hname].
      + split; [intros Hphone; split; [right; reflexivity | exact Hphone]
               | intros [_ Hphone]; exact Hphone].
      + split.
        * intros [Hn | Hn]; [discriminate | injection Hn as ->; contradiction].
        * intros [[Hn | Hn] _]; [discriminate | injection Hn as ->; contradiction].
    - split; [intros Hphone; split; [left; reflexivity | exact Hphone]
             | intros [_ Hphone]; exact Hphone]. }
  split.
  { intros value. split.
    - intros Hlines. destruct value as [s|]; [|left; left; reflexivity].
      destruct (String.eqb_spec s "") as [-> | Hs]; [left; right; reflexivity|].
      right. exists s. split; [reflexivity|].
      rewrite (field_lines_present s Hs) in Hlines.
      destruct (textwrap_wrap s 70); [left; reflexivity | right; exact Hlines].
    - intros [Habsent | (s & -> & Hs)]; [apply field_lines_absent; assumption|].
      destruct (String.eqb_spec s "") as [-> | Hne];
        [apply field_lines_absent; [exact Hwrap | right; reflexivity]|].
      rewrite (field_lines_present s Hne).
      destruct Hs as [-> | ->]; reflexivity. }
  split.
  { intros s lines Hs <- Hlines. rewrite (field_lines_present s Hs).
    destruct (textwrap_wrap s 70); [contradiction | reflexivity]. }
  intros value. apply field_lines_nonempty, Hwrap.
Qed.
End Placeholder.

Lemma absent_field_placeholder_witness :
  textwrap_wrap (Platform:=offline) "NA" 70 = ["NA"]
  /\ (absent (d_lead_email sample_invoice) ->
      field_lines (H:=offline) (d_lead_email sample_invoice) = ["NA"]).
Proof.
  split; [reflexivity|].
  apply (absent_field_placeholder (H:=offline) sample_invoice). reflexivity.
Defined.

(** C9, the claim as worded, fails for the name: a client without a name
    is shown by phone, not by [NA]. *)
Lemma absent_name_shows_phone :
  absent (d_lead_name phone_only_invoice)
  /\ page_texts (fst (draw_left_fields (H:=offline)
                        (left_fields phone_only_invoice) 7200 0))
     = ["Client:"; "9876543210"; "Brand:"; "NA"; "Email:"; "NA";
        "Phone:"; "9876543210"; "Address:"; "NA"].
Proof. split; [left; reflexivity | vm_compute; reflexivity]. Qed.

(** A name of blanks is present, so the phone does not take its place,
    and it wraps to no line: the Client field reads [NA] although the
    phone is known. *)
Example blank_name_shows_placeholder :
  page_texts (fst (draw_left_fields (H:=offline)
                     (left_fields blank_name_invoice) 7200 0))
  = ["Client:"; "NA"; "Brand:"; "NA"; "Email:"; "NA";
     "Phone:"; "9876543210"; "Address:"; "NA"].
Proof. vm_compute. reflexivity. Qed.

(** ** The wire format *)

Section Wire.
Context `{Platform}.

Lemma convert_numeric_fields_spec (fields : list string)
    (record result : gmap string pyvalue) :
  NoDup fields ->
  convert_numeric_fields fields record = Returned result ->
  forall field,
    (field ∉ fields -> result !! field = record !! field)
    /\ (field ∈ fields ->
        match record !! field with
        | None => result !! field = None
        | Some value =>
            exists d, as_decimal_value value = Returned d
                      /\ result !! field = Some (PFloat (float_of_Decimal d))
        end).
Proof.
  revert record. induction fields as [|f rest IH]; intros record Hnd Hrun field.
  - injection Hrun as <-. split; [reflexivity | intros Hin; inversion Hin].
  - apply NoDup_cons in Hnd as [Hf Hnd]. cbn [convert_numeric_fields] in Hrun.
    destruct (record !! f) as [value|] eqn:Hlook.
    + unfold parse_decimal in Hrun.
      destruct (as_decimal_value value) as [d|e] eqn:Hd; [|discriminate].
      cbn [obind] in Hrun.
      destruct (IH _ Hnd Hrun field) as [IHout IHin].
      destruct (IH _ Hnd Hrun f) as [IHf _].
      split.
      * intros Hnot. apply not_elem_of_cons in Hnot as [Hne Hnot].
        rewrite (IHout Hnot). apply lookup_insert_ne. congruence.
      * intros Hin. apply elem_of_cons in Hin as [-> | Hin].
        -- rewrite Hlook. exists d. split; [exact Hd|].
           rewrite (IHf Hf). apply lookup_insert_eq.
        -- assert (f <> field) as Hne by (intros ->; contradiction).
           specialize (IHin Hin). rewrite lookup_insert_ne in IHin by exact Hne.
           exact IHin.
    + destruct (IH _ Hnd Hrun field) as [IHout IHin].
      destruct (IH _ Hnd Hrun f) as [IHf _].
      split.
      * intros Hnot. apply not_elem_of_cons in Hnot as [Hne Hnot]. auto.
      * intros Hin. apply elem_of_cons in Hin as [-> | Hin]; [|exact (IHin Hin)].
        rewrite Hlook. rewrite (IHf Hf). exact Hlook.
Qed.

Lemma numeric_fields_NoDup : NoDup numeric_fields.
Proof.
  unfold numeric_fields.
  repeat (apply NoDup_cons; split;
          [rewrite ?elem_of_cons, elem_of_nil; intuition discriminate|]).
  apply NoDup_nil_2.
Qed.

Lemma rescale_rescale (d : Decimal) (c e : Z) :
  e <= c -> c <= exponent d ->
  rescale d c * 10 ^ (c - e) = rescale d e.
Proof.
  intros Hec Hcd. unfold rescale.
  rewrite <- Z.mul_assoc, <- Z.pow_add_r by lia.
  f_equal. f_equal. lia.
Qed.

(** Addition and subtraction are exact: at any scale fine enough for
    both operands the coefficients add and subtract as integers. *)
Lemma dec_add_exact (a b : Decimal) (e : Z) :
  e <= exponent a -> e <= exponent b ->
  rescale (dec_add a b) e = rescale a e + rescale b e.
Proof.
  intros Ha Hb. unfold dec_add.
  set (c := common_exponent a b).
  assert (e <= c /\ c <= exponent a /\ c <= exponent b) as (Hc & Hca & Hcb)
    by (unfold c, common_exponent; lia).
  unfold rescale at 1. cbn [coefficient exponent].
  rewrite Z.mul_add_distr_r, !rescale_rescale by lia. reflexivity.
Qed.

Lemma dec_sub_exact (a b : Decimal) (e : Z) :
  e <= exponent a -> e <= exponent b ->
  rescale (dec_sub a b) e = rescale a e - rescale b e.
Proof.
  intros Ha Hb. unfold dec_sub.
  set (c := common_exponent a b).
  assert (e <= c /\ c <= exponent a /\ c <= exponent b) as (Hc & Hca & Hcb)
    by (unfold c, common_exponent; lia).
  unfold rescale at 1. cbn [coefficient exponent].
  rewrite Z.mul_sub_distr_r, !rescale_rescale by lia. reflexivity.
Qed.

End Wire.

(** C4, the claim as worded, fails on the response of [create_invoice]:
    the invoice is stored with the decimal total 4998.90, and the
    response carries the total as a binary64 number that is not 4998.90. *)
Lemma response_total_is_binary_float :
  i_total <$> head (invoices (fst discount_invoice))
    = Some (mkDecimal 499890 (-2))
  /\ response_field discount_invoice "total"
     = Some (PFloat (S754_finite false 5496348676089446 (-40)))
  /\ float_is_Decimal (S754_finite false 5496348676089446 (-40))
                      (mkDecimal 499890 (-2)) = false
  /\ response_field discount_invoice "setup_fee_discount"
     = Some (PFloat (S754_finite false 7205759403792794 (-56)))
  /\ float_is_Decimal (S754_finite false 7205759403792794 (-56))
                      (mkDecimal 10 (-2)) = false.
Proof. repeat split; vm_compute; reflexivity. Qed.

(** ** Invoice creation *)

Section Creation.
Context `{Platform}.


End Creation.

(** The request of [discount_request] end to end: the row stored and the
    invoice number allocated. *)
Example create_invoice_stores_pricing :
  (fun r => (i_invoice_number r, i_subtotal r, i_tax r, i_total r,
             i_setup_fee_amount r, i_setup_fee_discount r, i_setup_fee_net r))
    <$> invoices (fst discount_invoice)
  = [("INV2025110001", mkDecimal 499890 (-2), mkDecimal 0 (-2),
      mkDecimal 499890 (-2), mkDecimal 300000 (-2), mkDecimal 10 (-2),
      mkDecimal 299990 (-2))].
Proof. vm_compute. reflexivity. Qed.
(** * Further properties of the handlers *)

(** ** The ledger: what a recording leaves alone *)

Section LedgerMore.
Context `{Platform}.

Lemma upsert_payment_keeps (new p : Payment) (rows : list Payment) :
  p ∈ rows ->
  p ∈ upsert_payment new rows \/ payment_key p = payment_key new.
Proof.
  induction rows as [|q rows IH]; intros Hin; [inversion Hin|].
  cbn [upsert_payment].
  destruct (same_key (pay_lead_id new) (pay_billing_month new) q) eqn:Hk.
  - apply elem_of_cons in Hin as [-> | Hin].
    + right. apply same_key_spec in Hk. exact Hk.
    + left. right. exact Hin.
  - apply elem_of_cons in Hin as [-> | Hin].
    + left. left.
    + destruct (IH Hin) as [Hkeep | Hkey]; [left; right; exact Hkeep | right; exact Hkey].
Qed.

Lemma upsert_payment_length (new : Payment) (rows : list Payment) :
  (length rows <= length (upsert_payment new rows) <= S (length rows))%nat.
Proof.
  induction rows as [|q rows IH]; cbn [upsert_payment length]; [lia|].
  destruct (same_key _ _ q); cbn [length]; lia.
Qed.

Lemma upsert_payment_ids (new : Payment) (rows : list Payment) :
  forall p, p ∈ rows ->
    exists p', p' ∈ upsert_payment new rows
               /\ pay_id p' = pay_id p /\ payment_key p' = payment_key p
               /\ pay_invoice_id p' = pay_invoice_id p.
Proof.
  induction rows as [|q rows IH]; intros p Hin; [inversion Hin|].
  cbn [upsert_payment].
  destruct (same_key (pay_lead_id new) (pay_billing_month new) q) eqn:Hk.
  - apply elem_of_cons in Hin as [-> | Hin].
    + eexists. split; [left|]. repeat split.
    + exists p. split; [right; exact Hin|]. repeat split.
  - apply elem_of_cons in Hin as [-> | Hin].
    + exists q. split; [left|]. repeat split.
    + destruct (IH p Hin) as (p' & Hp' & Hrest). exists p'. split; [right; exact Hp'|exact Hrest].
Qed.

(** What a request did to the world: nothing, or one upsert of a row
    whose key is the client of the request and the converted month. *)
Lemma record_payment_world (lead_id : Z) (body : json) (w : World) :
  fst (record_payment lead_id body w) = w
  \/ exists payload month new,
       request_payload body = Returned payload
       /\ column_date (dict_get payload "billing_month") = Some (Some month)
       /\ payment_key new = (lead_id, month)
       /\ is_Some (leads w !! lead_id)
       /\ fst (record_payment lead_id body w)
          = set_lead_payments w (upsert_payment new (lead_payments w))
                              (next_payment_id w + 1).
Proof.
  unfold record_payment, hbind, lift, ret.
  destruct (request_payload body) as [payload|e]; [|left; reflexivity].
  destruct (negb (truthy (dict_get payload "billing_month"))
            || negb (truthy (dict_get payload "amount"))); [left; reflexivity|].
  unfold insert_lead_payment, select_payment, hbind, lift, query, or_raise.
  destruct (column_date (dict_get payload "billing_month")) as [[month|]|] eqn:Hm;
    cbn [mjoin option_join]; try (left; reflexivity).
  destruct (column_decimal _) as [amount|]; [|left; reflexivity].
  destruct (column_date (dict_get payload "paid_on")) as [paid_on|];
    [|left; reflexivity].
  destruct (column_text (dict_get payload "payment_method")) as [method|];
    [|left; reflexivity].
  destruct (column_text (dict_get payload "note")) as [note|];
    [|left; reflexivity].
  destruct (bool_decide (is_Some (leads w !! lead_id))) eqn:Hfk;
    [|left; reflexivity].
  right. apply bool_decide_eq_true in Hfk.
  eexists payload, month, _. repeat split; try eassumption; reflexivity.
Qed.

(** X1. A recording touches nothing but the ledger, never removes a row,
    adds at most one, keeps the identifier, key and invoice link of every
    row, and leaves every row as it was except the one that holds the
    recorded pair. *)
Theorem record_payment_frame (lead_id : Z) (body : json) (w : World) :
  let w' := fst (record_payment lead_id body w) in
  leads w' = leads w /\ plans w' = plans w /\ invoices w' = invoices w
  /\ files w' = files w /\ LOGO_CACHE w' = LOGO_CACHE w
  /\ (length (lead_payments w) <= length (lead_payments w')
      <= S (length (lead_payments w)))%nat
  /\ (forall p, p ∈ lead_payments w ->
        exists p', p' ∈ lead_payments w' /\ pay_id p' = pay_id p
                   /\ payment_key p' = payment_key p
                   /\ pay_invoice_id p' = pay_invoice_id p)
  /\ (forall p, p ∈ lead_payments w ->
        p ∈ lead_payments w'
        \/ exists payload,
             request_payload body = Returned payload
             /\ pay_lead_id p = lead_id
             /\ column_date (dict_get payload "billing_month")
                = Some (Some (pay_billing_month p))).
Proof.
  cbv zeta.
  destruct (record_payment_world lead_id body w)
    as [-> | (payload & month & new & Hp & Hm & Hkey & _ & ->)].
  - repeat split; try lia; auto. intros p Hin. exists p. auto.
  - cbn [leads plans invoices files LOGO_CACHE lead_payments set_lead_payments].
    repeat split; try apply upsert_payment_length.
    + apply upsert_payment_ids.
    + intros p Hin.
      destruct (upsert_payment_keeps new p _ Hin) as [Hkeep | Hk]; [left; exact Hkeep|].
      right. exists payload. rewrite Hkey in Hk. unfold payment_key in Hk.
      injection Hk as Hl Hmo. subst. auto.
Qed.

(** X2. A recording for a client that is not in the store writes nothing
    and is never answered with a payment: when the request passes the
    checks the foreign key fails the statement. *)
Theorem record_payment_unknown_client (lead_id : Z) (body : json) (w : World) :
  leads w !! lead_id = None ->
  fst (record_payment lead_id body w) = w
  /\ (forall payment status,
        snd (record_payment lead_id body w)
        <> Returned (PaymentBody payment, status))
  /\ (forall payload,
        request_payload body = Returned payload ->
        truthy (dict_get payload "billing_month") = true ->
        truthy (dict_get payload "amount") = true ->
        exists e, snd (record_payment lead_id body w) = Raised e).
Proof.
  intros Hlead.
  assert (bool_decide (is_Some (leads w !! lead_id)) = false) as Hfk.
  { apply bool_decide_eq_false. rewrite Hlead. intros [x Hx]. discriminate. }
  unfold record_payment, hbind, lift, ret.
  destruct (request_payload body) as [payload|e].
  2:{ repeat split; [discriminate | intros payload [=]]. }
  destruct (truthy (dict_get payload "billing_month")) eqn:Hm.
  2:{ cbn [negb orb fst snd]. repeat split; [discriminate|].
      intros payload' [= <-] Hm'. congruence. }
  destruct (truthy (dict_get payload "amount")) eqn:Ha.
  2:{ cbn [negb orb fst snd]. repeat split; [discriminate|].
      intros payload' [= <-] _ Ha'. congruence. }
  cbn [negb orb].
  unfold insert_lead_payment, select_payment, hbind, lift, query, or_raise.
  destruct (column_date (dict_get payload "billing_month")) as [[month|]|];
    cbn [mjoin option_join fst snd];
    try (repeat split; [discriminate | intros; eexists; reflexivity]).
  destruct (column_decimal _) as [amount|]; cbn [fst snd];
    try (repeat split; [discriminate | intros; eexists; reflexivity]).
  destruct (column_date (dict_get payload "paid_on")) as [paid_on|]; cbn [fst snd];
    try (repeat split; [discriminate | intros; eexists; reflexivity]).
  destruct (column_text (dict_get payload "payment_method")) as [method|];
    cbn [fst snd];
    try (repeat split; [discriminate | intros; eexists; reflexivity]).
  destruct (column_text (dict_get payload "note")) as [note|]; cbn [fst snd];
    try (repeat split; [discriminate | intros; eexists; reflexivity]).
  rewrite Hfk. cbn [fst snd].
  repeat split; [discriminate | intros; eexists; reflexivity].
Qed.
End LedgerMore.

(** ** Validation of the request body *)

Section Validation.
Context `{Platform}.

(** X3. Presence is the only check of a recording: the 400 answer is
    given exactly when the billing month or the amount is falsy.  Any
    other value, a negative amount or a text that is no number included,
    goes on to the store. *)
Theorem record_payment_validation_iff (lead_id : Z) (body : json)
    (payload : gmap string json) (w : World) :
  request_payload body = Returned payload ->
  snd (record_payment lead_id body w)
  = Returned (ErrorBody "Billing month and amount required", 400)
  <-> truthy (dict_get payload "billing_month") = false
      \/ truthy (dict_get payload "amount") = false.
Proof.
  intros Hp. split.
  - intros Hrun.
    destruct (truthy (dict_get payload "billing_month")) eqn:Hm; [|auto].
    destruct (truthy (dict_get payload "amount")) eqn:Ha; [|auto].
    exfalso. revert Hrun.
    unfold record_payment, hbind, lift, ret. rewrite Hp, Hm, Ha. cbn [negb orb].
    unfold insert_lead_payment, select_payment, hbind, lift, query, or_raise.
    destruct (column_date (dict_get payload "billing_month")) as [[month|]|];
      cbn [mjoin option_join fst snd]; try discriminate.
    destruct (column_decimal _); cbn [fst snd]; try discriminate.
    destruct (column_date (dict_get payload "paid_on")); cbn [fst snd];
      try discriminate.
    destruct (column_text (dict_get payload "payment_method")); cbn [fst snd];
      try discriminate.
    destruct (column_text (dict_get payload "note")); cbn [fst snd];
      try discriminate.
    destruct (bool_decide _); cbn [fst snd]; discriminate.
  - intros Hfalsy.
    rewrite (record_payment_validation lead_id body payload w Hp Hfalsy).
    reflexivity.
Qed.

(** X4. A request body that is neither falsy nor a JSON object has no
    [get]: both handlers raise before they look at the store. *)
Theorem non_object_body_raises (clock : Clock) (host_url : option string)
    (lead_id : Z) (body : json) (w : World) :
  truthy body = true ->
  (forall members, body <> JObj members) ->
  record_payment lead_id body w = (w, Raised "AttributeError")
  /\ create_invoice clock host_url body w = (w, Raised "AttributeError").
Proof.
  intros Ht Hobj.
  assert (request_payload body = Raised "AttributeError") as Hp.
  { unfold request_payload. rewrite Ht. cbn [negb].
    destruct body; try reflexivity. destruct (Hobj members). reflexivity. }
  unfold record_payment, create_invoice, hbind, lift. rewrite Hp. auto.
Qed.
End Validation.

Lemma record_payment_unknown_client_witness :
  fst (record_payment (H:=offline) 99 (payment_request (JNum (mkDecimal 500 0)))
                      sample_world) = sample_world
  /\ exists e,
       snd (record_payment (H:=offline) 99
              (payment_request (JNum (mkDecimal 500 0))) sample_world)
       = Raised e.
Proof.
  destruct (record_payment_unknown_client (H:=offline) 99
              (payment_request (JNum (mkDecimal 500 0))) sample_world)
    as (Hw & _ & Hraise); [reflexivity|].
  split; [exact Hw|].
  apply (Hraise (dict_of_members [("billing_month", JStr "2025-11-01");
                                  ("amount", JNum (mkDecimal 500 0))]));
    reflexivity.
Defined.

Lemma record_payment_validation_iff_witness :
  snd (record_payment (H:=offline) 7 (payment_request (JNum (mkDecimal (-5) 0)))
                      sample_world)
  <> Returned (ErrorBody "Billing month and amount required", 400).
Proof.
  intros Hrun.
  apply (record_payment_validation_iff (H:=offline) 7
           (payment_request (JNum (mkDecimal (-5) 0)))
           (dict_of_members [("billing_month", JStr "2025-11-01");
                             ("amount", JNum (mkDecimal (-5) 0))])
           sample_world) in Hrun; [|reflexivity].
  destruct Hrun as [Hm | Ha]; vm_compute in *; discriminate.
Defined.

Lemma non_object_body_raises_witness :
  record_payment (H:=offline) 7 (JArr [JStr "2025-11-01"; JNum (mkDecimal 500 0)])
                 sample_world
  = (sample_world, Raised "AttributeError")
  /\ create_invoice (H:=offline) sample_clock None
       (JArr [JStr "2025-11-01"; JNum (mkDecimal 500 0)]) sample_world
     = (sample_world, Raised "AttributeError").
Proof.
  apply (non_object_body_raises (H:=offline)); [reflexivity | discriminate].
Defined.

(** ** Invoice creation: how a request ends *)

Section CreationMore.
Context `{Platform}.

Lemma same_text_refl (s : string) : same_text s s = true.
Proof. unfold same_text. apply String.eqb_refl. Qed.

Lemma first_joined_snoc (w : World) (number : string) (rows : list Invoice)
    (row : Invoice) (lead : Lead) (plan : Plan) :
  existsb (fun r => same_text (i_invoice_number r) number) rows = false ->
  i_invoice_number row = number ->
  leads w !! i_lead_id row = Some lead ->
  plans w !! i_plan_id row = Some plan ->
  first_joined w number (rows ++ [row]) = Some (details_of row lead plan).
Proof.
  intros Hnone Hnum Hlead Hplan.
  induction rows as [|r rows IH]; cbn [app first_joined].
  - rewrite Hnum, same_text_refl, Hlead, Hplan. reflexivity.
  - cbn [existsb] in Hnone. apply orb_false_elim in Hnone as [Hr Hrows].
    rewrite Hr. exact (IH Hrows).
Qed.

Lemma update_pdf_url_snoc (url number : string) (rows : list Invoice)
    (row : Invoice) :
  existsb (fun r => same_text (i_invoice_number r) number) rows = false ->
  i_invoice_number row = number ->
  map (fun r => if same_text (i_invoice_number r) number
                then with_pdf_url (Some url) r else r) (rows ++ [row])
  = rows ++ [with_pdf_url (Some url) row].
Proof.
  intros Hnone Hnum. rewrite map_app. cbn [map].
  rewrite Hnum, same_text_refl. f_equal.
  induction rows as [|r rows IH]; [reflexivity|].
  cbn [existsb] in Hnone. apply orb_false_elim in Hnone as [Hr Hrows].
  cbn [map]. rewrite Hr, (IH Hrows). reflexivity.
Qed.

(** One rendering: the page is written under the name built from the
    generation time and the client, the cache may have grown, and the
    tables are as they were. *)
Lemma generate_invoice_pdf_world (clock : Clock) (invoice : InvoiceDetails)
    (w : World) :
  let t := default (now_ist clock) (to_ist_datetime (d_generated_at invoice)) in
  let name := pdf_filename_of t (d_lead_id invoice) in
  exists page cache,
    (exists neigh_logo qr_image,
       page = invoice_page clock neigh_logo qr_image t invoice)
    /\ generate_invoice_pdf clock invoice w
       = (set_files (set_LOGO_CACHE w cache) (<[name := page]> (files w)),
          Returned ("/files/invoices/" +:+ name,
                    set_generated_at invoice (Some t))).
Proof.
  cbv zeta. unfold generate_invoice_pdf.
  destruct (get_logo_image _ (LOGO_CACHE w)) as [neigh_logo cache1].
  destruct (get_logo_image (Some QR_URL) cache1) as [qr_image cache2].
  destruct (to_ist_datetime (d_generated_at invoice)) as [t|]; cbn [default];
    eexists _, cache2; (split; [exists neigh_logo, qr_image|]; reflexivity).
Qed.

(** The three ways a creation request can end: before the INSERT, with
    the world as it was; at the INSERT, the allocated number being taken;
    or past it, the row stored, the page written and the location
    recorded on the row. *)
Lemma create_invoice_world (clock : Clock) (host_url : option string)
    (body : json) (w : World) :
  let run := create_invoice clock host_url body w in
  let number := next_invoice_number clock w in
  let taken :=
    existsb (fun r => same_text (i_invoice_number r) number) (invoices w) in
  (fst run = w
   /\ forall record status, snd run <> Returned (InvoiceBody record, status))
  \/ (taken = true
      /\ fst run = set_invoices w (invoices w) (next_invoice_id w + 1)
      /\ snd run = Raised "mysql.connector.IntegrityError")
  \/ (taken = false
      /\ exists payload row lead plan page cache,
           let t := default (now_ist clock)
                            (to_ist_datetime (Some (current_timestamp clock))) in
           let name := pdf_filename_of t (Some (i_lead_id row)) in
           let url := "/files/invoices/" +:+ name in
           let details :=
             set_pdf_url
               (set_generated_at
                  (set_plan_price (details_of row lead plan) (Some (p_price plan)))
                  (Some t))
               (Some url) in
           request_payload body = Returned payload
           /\ column_int (dict_get payload "lead_id") = Some (i_lead_id row)
           /\ column_int (dict_get payload "plan_id") = Some (i_plan_id row)
           /\ i_id row = next_invoice_id w
           /\ i_invoice_number row = number
           /\ i_pdf_url row = None
           /\ i_generated_at row = current_timestamp clock
           /\ leads w !! i_lead_id row = Some lead
           /\ plans w !! i_plan_id row = Some plan
           /\ (exists neigh_logo qr_image,
                 page = invoice_page clock neigh_logo qr_image t
                          (set_plan_price (details_of row lead plan)
                                          (Some (p_price plan))))
           /\ fst run
              = mkWorld (leads w) (plans w)
                  (invoices w ++ [with_pdf_url (Some url) row])
                  (lead_payments w) (next_invoice_id w + 1) (next_payment_id w)
                  (<[name := page]> (files w)) cache
           /\ snd run
              = try response_payload <-
                  serialize_invoice_record host_url (details_dict details) in
                Returned (InvoiceBody response_payload, 201)).
Proof.
  cbv zeta.
  unfold create_invoice, hbind, lift, ret.
  destruct (request_payload body) as [payload|e] eqn:Hpayload;
    [|left; split; [reflexivity | discriminate]].
  destruct (negb (truthy (dict_get payload "lead_id"))
            || negb (truthy (dict_get payload "plan_id")));
    [left; split; [reflexivity | discriminate]|].
  unfold select_plan, select_lead, hbind, lift, query, or_raise.
  destruct (column_int (dict_get payload "plan_id")) as [plan_key|] eqn:Hpk;
    [|left; split; [reflexivity | discriminate]].
  destruct (column_int (dict_get payload "lead_id")) as [lead_key|] eqn:Hlk;
    [|left; split; [reflexivity | discriminate]].
  destruct (plans w !! plan_key) as [plan|] eqn:Hplan.
  2:{ left. destruct (leads w !! lead_key); split; try reflexivity; discriminate. }
  destruct (leads w !! lead_key) as [lead|] eqn:Hlead;
    [|left; split; [reflexivity | discriminate]].
  destruct (as_decimal_json _) as [requested|e] eqn:Hreq;
    [|left; split; [reflexivity | discriminate]].
  set (p := invoice_pricing (p_price plan) DEFAULT_SETUP_FEE requested).
  unfold insert_invoice, hbind, lift, or_raise. rewrite Hlk, Hpk.
  destruct (column_decimal (JNum (pr_subtotal p))) as [subtotal|];
    [|left; split; [reflexivity | discriminate]].
  destruct (column_decimal (JNum (pr_tax p))) as [tax|];
    [|left; split; [reflexivity | discriminate]].
  destruct (column_decimal (JNum (pr_total p))) as [total|];
    [|left; split; [reflexivity | discriminate]].
  destruct (column_text (dict_get payload "notes")) as [notes|];
    [|left; split; [reflexivity | discriminate]].
  destruct (column_decimal (JNum (pr_setup_fee_amount p))) as [fee|];
    [|left; split; [reflexivity | discriminate]].
  destruct (column_decimal (JNum (pr_setup_discount p))) as [discount|];
    [|left; split; [reflexivity | discriminate]].
  destruct (column_decimal (JNum (pr_setup_fee_net p))) as [net|];
    [|left; split; [reflexivity | discriminate]].
  rewrite Hlead, Hplan.
  rewrite !bool_decide_eq_true_2 by eauto. cbn [andb].
  destruct (existsb _ (invoices w)) eqn:Htaken; cbn [negb].
  - right. left. repeat split; reflexivity.
  - right. right. split; [reflexivity|].
    set (row := mkInvoice (next_invoice_id w) lead_key plan_key
                  (next_invoice_number clock w) subtotal tax total fee discount
                  net (current_timestamp clock) notes None).
    unfold fetch_invoice_details, query. cbn [invoices set_invoices].
    erewrite (first_joined_snoc _ _ _ row lead plan);
      [| exact Htaken | reflexivity | exact Hlead | exact Hplan].
    match goal with |- context [generate_invoice_pdf clock ?inv ?w0] =>
      destruct (generate_invoice_pdf_world clock inv w0)
        as (page & cache & Hpage & ->) end.
    exists payload, row, lead, plan, page, cache.
    unfold update_pdf_url, modify.
    cbn [invoices set_invoices set_files set_LOGO_CACHE leads plans lead_payments
         next_invoice_id next_payment_id files LOGO_CACHE fst snd].
    rewrite (update_pdf_url_snoc _ _ _ row Htaken eq_refl).
    repeat split; try reflexivity; try assumption.
    + destruct (serialize_invoice_record _ _); reflexivity.
    + destruct (serialize_invoice_record _ _); reflexivity.
Qed.
End CreationMore.

Section CreationErrors.
Context `{Platform}.

(** X5. A creation request without a truthy client or plan identifier (a
    missing key, null, zero, an empty text) is answered 400 and nothing
    is read or written. *)
Theorem create_invoice_required_ids (clock : Clock) (host_url : option string)
    (body : json) (payload : gmap string json) (w : World) :
  request_payload body = Returned payload ->
  truthy (dict_get payload "lead_id") = false
  \/ truthy (dict_get payload "plan_id") = false ->
  create_invoice clock host_url body w
  = (w, Returned (ErrorBody "lead_id and plan_id required", 400)).
Proof.
  intros Hp Hfalsy. unfold create_invoice, hbind, lift, ret. rewrite Hp.
  destruct Hfalsy as [-> | ->]; [reflexivity|].
  rewrite orb_true_r. reflexivity.
Qed.

(** X6. A creation request that names a client or a plan the store does
    not hold is answered 400 before a number is allocated: the tables,
    the identifier counter and the files are as they were. *)
Theorem create_invoice_unknown_lead_or_plan (clock : Clock)
    (host_url : option string) (body : json) (payload : gmap string json)
    (lead_key plan_key : Z) (w : World) :
  request_payload body = Returned payload ->
  truthy (dict_get payload "lead_id") = true ->
  truthy (dict_get payload "plan_id") = true ->
  column_int (dict_get payload "lead_id") = Some lead_key ->
  column_int (dict_get payload "plan_id") = Some plan_key ->
  leads w !! lead_key = None \/ plans w !! plan_key = None ->
  create_invoice clock host_url body w
  = (w, Returned (ErrorBody "Invalid lead or plan", 400)).
Proof.
  intros Hp Hl Hpl Hlk Hpk Hmissing.
  unfold create_invoice, hbind, lift, ret. rewrite Hp, Hl, Hpl. cbn [negb orb].
  unfold select_plan, select_lead, hbind, lift, query, or_raise.
  rewrite Hpk, Hlk.
  destruct Hmissing as [-> | ->]; [destruct (plans w !! plan_key)|]; reflexivity.
Qed.

(** X7. When the number the count allocates is already stored, no
    request creates an invoice: the rows and the files stay as they are,
    no response carries an invoice, and since the count has not moved a
    later request of the same month is given the same number again. *)
Theorem create_invoice_number_taken (clock : Clock) (host_url : option string)
    (body : json) (w : World) (r : Invoice) :
  r ∈ invoices w ->
  same_text (i_invoice_number r) (next_invoice_number clock w) = true ->
  let run := create_invoice clock host_url body w in
  invoices (fst run) = invoices w
  /\ files (fst run) = files w
  /\ (forall record status, snd run <> Returned (InvoiceBody record, status))
  /\ next_invoice_number clock (fst run) = next_invoice_number clock w.
Proof.
  intros Hin Hsame. cbv zeta.
  assert (existsb (fun r => same_text (i_invoice_number r)
                                      (next_invoice_number clock w))
                  (invoices w) = true) as Htaken.
  { apply existsb_exists. exists r. split; [|exact Hsame].
    apply list_elem_of_In. exact Hin. }
  destruct (create_invoice_world clock host_url body w)
    as [[-> Hno] | [(_ & -> & ->) | (Hfree & _)]].
  - repeat split; auto.
  - repeat split; discriminate.
  - rewrite Htaken in Hfree. discriminate.
Qed.

(** X8. A created invoice takes the next place in its month: after a 201
    answer the stored numbers that match the month prefix are one more
    than before, the rows that were there are unchanged, and the new row
    is the last one, carrying the allocated number. *)
Theorem create_invoice_advances_count (clock : Clock) (host_url : option string)
    (body : json) (w w' : World) (record : gmap string pyvalue) :
  create_invoice clock host_url body w = (w', Returned (InvoiceBody record, 201)) ->
  let prefix := strftime_INV_Y_m (utcnow clock) in
  count_invoice_numbers prefix (invoices w')
  = count_invoice_numbers prefix (invoices w) + 1
  /\ (exists row, invoices w' = invoices w ++ [row]
                  /\ i_invoice_number row = next_invoice_number clock w
                  /\ i_id row = next_invoice_id w)
  /\ next_invoice_number clock w'
     = prefix +:+ format_0d 4 (count_invoice_numbers prefix (invoices w) + 2).
Proof.
  intros Hrun. cbv zeta.
  destruct (create_invoice_world clock host_url body w)
    as [[_ Hno] | [(_ & _ & Hraise)
                   | (_ & payload & row & lead & plan & page & cache & Hc)]].
  - rewrite Hrun in Hno. destruct (Hno record 201). reflexivity.
  - rewrite Hrun in Hraise. discriminate.
  - cbv zeta in Hc.
    destruct Hc as (_ & _ & _ & Hid & Hnum & _ & _ & _ & _ & _ & Hw & _).
    rewrite Hrun in Hw. cbn [fst] in Hw. subst w'.
    assert (count_invoice_numbers (strftime_INV_Y_m (utcnow clock))
              (invoices w ++ [with_pdf_url
                 (Some ("/files/invoices/" +:+
                        pdf_filename_of
                          (default (now_ist clock)
                             (to_ist_datetime (Some (current_timestamp clock))))
                          (Some (i_lead_id row)))) row])
            = count_invoice_numbers (strftime_INV_Y_m (utcnow clock)) (invoices w) + 1)
      as Hcount.
    { unfold count_invoice_numbers. rewrite filter_app, length_app.
      rewrite filter_cons_True.
      - rewrite filter_nil. cbn [length]. lia.
      - cbn [with_pdf_url i_invoice_number]. rewrite Hnum.
        unfold next_invoice_number. cbv zeta. apply like_prefix_append. }
    split; [exact Hcount|]. split.
    + eexists. split; [reflexivity|]. cbn [with_pdf_url i_invoice_number i_id]. auto.
    + unfold next_invoice_number. cbv zeta. cbn [invoices].
      rewrite Hcount. do 2 f_equal. lia.
Qed.
End CreationErrors.

Lemma create_invoice_required_ids_witness :
  create_invoice (H:=offline) sample_clock None
    (JObj [("lead_id", JNum (mkDecimal 0 0)); ("plan_id", JNum (mkDecimal 1 0))])
    sample_world
  = (sample_world, Returned (ErrorBody "lead_id and plan_id required", 400)).
Proof.
  apply (create_invoice_required_ids (H:=offline) sample_clock None _
           (dict_of_members [("lead_id", JNum (mkDecimal 0 0));
                             ("plan_id", JNum (mkDecimal 1 0))])).
  - reflexivity.
  - left. vm_compute. reflexivity.
Defined.

Lemma create_invoice_unknown_lead_or_plan_witness :
  create_invoice (H:=offline) sample_clock None (invoice_request 99 1) sample_world
  = (sample_world, Returned (ErrorBody "Invalid lead or plan", 400)).
Proof.
  apply (create_invoice_unknown_lead_or_plan (H:=offline) sample_clock None _
           (dict_of_members [("lead_id", JNum (mkDecimal 99 0));
                             ("plan_id", JNum (mkDecimal 1 0))]) 99 1).
  - reflexivity.
  - vm_compute. reflexivity.
  - vm_compute. reflexivity.
  - vm_compute. reflexivity.
  - vm_compute. reflexivity.
  - left. reflexivity.
Defined.

Lemma create_invoice_number_taken_witness :
  next_invoice_number sample_clock gap_world = "INV2025110002"
  /\ snd (create_invoice (H:=offline) sample_clock None (invoice_request 7 1)
                         gap_world)
     = Raised "mysql.connector.IntegrityError"
  /\ invoices (fst (create_invoice (H:=offline) sample_clock None
                      (invoice_request 7 1) gap_world))
     = invoices gap_world.
Proof.
  split; [vm_compute; reflexivity|].
  split; [vm_compute; reflexivity|].
  apply (create_invoice_number_taken (H:=offline) sample_clock None
           (invoice_request 7 1) gap_world (november_invoice 2)).
  - left.
  - vm_compute. reflexivity.
Defined.

Lemma create_invoice_advances_count_witness :
  next_invoice_number sample_clock sample_world = "INV2025110001"
  /\ next_invoice_number sample_clock (fst discount_invoice)
     = "INV202511" +:+ format_0d 4
         (count_invoice_numbers "INV202511" (invoices sample_world) + 2).
Proof.
  split; [vm_compute; reflexivity|].
  assert (exists record,
            discount_invoice = (fst discount_invoice,
                                Returned (InvoiceBody record, 201))) as [record Hrun].
  { eexists. vm_compute. reflexivity. }
  exact (proj2 (proj2 (create_invoice_advances_count (H:=offline) sample_clock
                         (Some "http://localhost:5700/") discount_request
                         sample_world _ record Hrun))).
Defined.

(** ** Numbering across months *)

Section Months.

Lemma upper_zeros (k : nat) : upper (zeros k) = zeros k.
Proof. induction k as [|k IH]; [reflexivity|]. cbn [zeros upper]. rewrite IH. reflexivity. Qed.

Lemma upper_string_of_uint (d : Decimal.uint) :
  upper (NilEmpty.string_of_uint d) = NilEmpty.string_of_uint d.
Proof.
  induction d; cbn [NilEmpty.string_of_uint upper]; rewrite ?IHd; reflexivity.
Qed.

Lemma upper_str_of_Z (n : Z) : 0 <= n -> upper (str_of_Z n) = str_of_Z n.
Proof.
  intros Hn. destruct n as [|p|p]; [reflexivity| |lia].
  unfold str_of_Z. cbn [Z.to_int NilZero.string_of_int].
  unfold NilZero.string_of_uint.
  destruct (Pos.to_uint p) eqn:Hd; [reflexivity|..];
    rewrite <- Hd; apply upper_string_of_uint.
Qed.

Lemma upper_format_0d (width : nat) (n : Z) :
  0 <= n -> upper (format_0d width n) = format_0d width n.
Proof.
  intros Hn. unfold format_0d.
  rewrite upper_append, upper_zeros, upper_str_of_Z by exact Hn. reflexivity.
Qed.

(** A month prefix is written in capitals and digits: the collation
    changes nothing in it. *)
Lemma upper_strftime_INV_Y_m (t : datetime) :
  valid_date t -> upper (strftime_INV_Y_m t) = strftime_INV_Y_m t.
Proof.
  intros [Hy Hm]. unfold strftime_INV_Y_m.
  rewrite !upper_append, !upper_format_0d by lia. reflexivity.
Qed.

Lemma prefix_same_length (a b rest : string) :
  String.length a = String.length b ->
  String.prefix a (b +:+ rest) = true -> a = b.
Proof.
  revert b. induction a as [|c a IH]; intros [|c' b] Hlen Hpre;
    try discriminate; [reflexivity|].
  rewrite append_cons in Hpre. cbn [String.prefix] in Hpre.
  destruct (ascii_dec c c') as [-> | Hne]; [|discriminate].
  f_equal. apply IH; [|exact Hpre]. cbn [String.length] in Hlen. lia.
Qed.

Lemma append_inj_length (a a' b b' : string) :
  String.length a = String.length a' ->
  a +:+ b = a' +:+ b' -> a = a' /\ b = b'.
Proof.
  revert a'. induction a as [|c a IH]; intros [|c' a'] Hlen Heq; try discriminate.
  - split; [reflexivity | exact Heq].
  - rewrite !append_cons in Heq. injection Heq as -> Heq.
    cbn [String.length] in Hlen.
    destruct (IH a' ltac:(lia) Heq) as [-> ->]. auto.
Qed.

(** The month prefix tells the month: two valid dates with the same
    prefix are of the same year and month. *)
Lemma strftime_INV_Y_m_inj (t t' : datetime) :
  valid_date t -> valid_date t' ->
  strftime_INV_Y_m t = strftime_INV_Y_m t' ->
  year t = year t' /\ month t = month t'.
Proof.
  intros [Hy Hm] [Hy' Hm'] Heq. unfold strftime_INV_Y_m in Heq.
  apply append_inj_length in Heq as [_ Heq]; [|reflexivity].
  apply append_inj_length in Heq as [Hyear Hmonth];
    [|rewrite !format_0d_4_length by lia; reflexivity].
  pose proof (numeral_value_format_0d 4 (year t) ltac:(lia)) as H1.
  pose proof (numeral_value_format_0d 4 (year t') ltac:(lia)) as H2.
  pose proof (numeral_value_format_0d 2 (month t) ltac:(lia)) as H3.
  pose proof (numeral_value_format_0d 2 (month t') ltac:(lia)) as H4.
  rewrite Hyear in H1. rewrite Hmonth in H3. split; congruence.
Qed.

Lemma like_prefix_other_month (t t' : datetime) (rest : string) :
  valid_date t -> valid_date t' ->
  like_prefix (strftime_INV_Y_m t) (strftime_INV_Y_m t' +:+ rest) = true ->
  year t = year t' /\ month t = month t'.
Proof.
  intros Ht Ht' Hlike. unfold like_prefix in Hlike.
  rewrite upper_append, !upper_strftime_INV_Y_m in Hlike by assumption.
  apply prefix_same_length in Hlike;
    [|rewrite !strftime_INV_Y_m_length by assumption; reflexivity].
  apply strftime_INV_Y_m_inj; assumption.
Qed.

(** X9. Numbering is per month: when every stored number was allocated
    in another month (it begins with the prefix of a date of another
    year or month), the next number is the month prefix followed by
    0001. *)
Theorem next_invoice_number_restarts (clock : Clock) (w : World) :
  valid_date (utcnow clock) ->
  (forall r, r ∈ invoices w ->
     exists t rest,
       valid_date t
       /\ (year t <> year (utcnow clock) \/ month t <> month (utcnow clock))
       /\ i_invoice_number r = strftime_INV_Y_m t +:+ rest) ->
  next_invoice_number clock w = strftime_INV_Y_m (utcnow clock) +:+ "0001".
Proof.
  intros Hnow Hrows. unfold next_invoice_number. cbv zeta.
  assert (count_invoice_numbers (strftime_INV_Y_m (utcnow clock)) (invoices w) = 0)
    as ->; [|reflexivity].
  unfold count_invoice_numbers.
  induction (invoices w) as [|r rows IH]; [reflexivity|].
  rewrite filter_cons_False.
  - apply IH. intros r' Hr'. apply Hrows. right. exact Hr'.
  - destruct (Hrows r ltac:(left)) as (t & rest & Ht & Hother & ->).
    intros Hlike.
    destruct (like_prefix_other_month _ _ _ Hnow Ht Hlike). lia.
Qed.
End Months.

Lemma next_invoice_number_restarts_witness :
  next_invoice_number later_clock (november_world 6) = "INV2025120001".
Proof.
  apply (next_invoice_number_restarts later_clock (november_world 6)).
  - unfold valid_date. simpl. lia.
  - intros r Hr. exists (mkDatetime 2025 11 1 9 0 0 false).
    unfold november_world in Hr. cbn [invoices set_invoices] in Hr.
    apply list_elem_of_fmap in Hr as (k & -> & _).
    exists (format_0d 4 (Z.of_nat k)).
    split; [unfold valid_date; simpl; lia|].
    split; [right; simpl; lia | reflexivity].
Defined.

(** ** Serialization: the keys of a record and its failures *)

Section WireMore.
Context `{Platform}.

Lemma convert_numeric_fields_returns (fields : list string)
    (record : gmap string pyvalue) :
  NoDup fields ->
  (forall field value, field ∈ fields -> record !! field = Some value ->
     exists d, as_decimal_value value = Returned d) ->
  exists result, convert_numeric_fields fields record = Returned result.
Proof.
  revert record. induction fields as [|f rest IH]; intros record Hnd Hok.
  - eexists. reflexivity.
  - apply NoDup_cons in Hnd as [Hf Hnd]. cbn [convert_numeric_fields].
    destruct (record !! f) as [value|] eqn:Hlook.
    + destruct (Hok f value ltac:(left) Hlook) as [d Hd].
      unfold parse_decimal. rewrite Hd. cbn [obind].
      apply IH; [exact Hnd|].
      intros field v Hin Hv.
      rewrite lookup_insert_ne in Hv by (intros <-; contradiction).
      apply (Hok field v); [right; exact Hin | exact Hv].
    + apply IH; [exact Hnd|].
      intros field v Hin Hv. apply (Hok field v); [right; exact Hin | exact Hv].
Qed.


Lemma convert_numeric_fields_other (fields : list string)
    (record result : gmap string pyvalue) (key : string) :
  convert_numeric_fields fields record = Returned result ->
  key ∉ fields -> result !! key = record !! key.
Proof.
  revert record. induction fields as [|f rest IH]; intros record Hrun Hnot.
  - injection Hrun as <-. reflexivity.
  - apply not_elem_of_cons in Hnot as [Hne Hnot]. cbn [convert_numeric_fields] in Hrun.
    destruct (record !! f) as [value|].
    + unfold parse_decimal in Hrun.
      destruct (as_decimal_value value) as [d|e]; [|discriminate].
      cbn [obind] in Hrun. rewrite (IH _ Hrun Hnot).
      apply lookup_insert_ne. congruence.
    + exact (IH _ Hrun Hnot).
Qed.

Lemma stamp_keys_not_numeric (key : string) :
  key ∈ stamp_keys -> key ∉ numeric_fields.
Proof.
  unfold stamp_keys, numeric_fields.
  rewrite !elem_of_cons, !elem_of_nil.
  intros Hk Hn. decompose [or] Hk; subst; decompose [or] Hn; try discriminate;
    contradiction.
Qed.

(** What serialization adds and what it passes on. *)
Lemma serialize_invoice_record_spec (host_url : option string)
    (invoice record : gmap string pyvalue) :
  serialize_invoice_record host_url invoice = Returned record ->
  (forall key, key ∈ ["generated_at"; "created_at"; "updated_at"] ->
     record !! key
     = Some (iso_or_none (to_ist_datetime_value (record_get invoice key))))
  /\ absolute_invoice_url host_url (record_get invoice "pdf_url")
     = Returned (record_get record "pdf_url")
  /\ is_Some (record !! "pdf_url")
  /\ (forall key, key ∉ numeric_fields -> key ∉ stamp_keys ->
        record !! key = invoice !! key)
  /\ (forall key, is_Some (record !! key) ->
        is_Some (invoice !! key) \/ key ∈ stamp_keys).
Proof.
  intros Hrun. unfold serialize_invoice_record in Hrun.
  destruct (convert_numeric_fields numeric_fields invoice) as [converted|e] eqn:Hconv;
    [|discriminate].
  cbn [obind] in Hrun.
  assert (forall key, key ∈ stamp_keys -> converted !! key = invoice !! key)
    as Hstamp.
  { intros key Hk.
    apply (convert_numeric_fields_other _ _ _ key Hconv
             (stamp_keys_not_numeric key Hk)). }
  cbv zeta in Hrun. unfold record_get in Hrun.
  rewrite !lookup_insert_ne in Hrun by discriminate.
  rewrite !Hstamp in Hrun
    by (unfold stamp_keys; rewrite !elem_of_cons; auto).
  repeat match type of Hrun with
         | context [default PNone (invoice !! ?k)] =>
             fold (record_get invoice k) in Hrun
         end.
  destruct (absolute_invoice_url host_url (record_get invoice "pdf_url"))
    as [url|e] eqn:Hurl; [|discriminate].
  cbn [obind] in Hrun. injection Hrun as <-.
  split; [|split; [|split; [|split]]].
  - intros key Hk. rewrite !elem_of_cons, elem_of_nil in Hk.
    destruct Hk as [-> | [-> | [-> | []]]].
    + rewrite lookup_insert_ne, lookup_insert_ne, lookup_insert_ne by discriminate.
      apply lookup_insert_eq.
    + rewrite lookup_insert_ne, lookup_insert_ne by discriminate.
      apply lookup_insert_eq.
    + rewrite lookup_insert_ne by discriminate. apply lookup_insert_eq.
  - unfold record_get at 1. rewrite lookup_insert_eq. reflexivity.
  - rewrite lookup_insert_eq. eauto.
  - intros key Hnum Hst. unfold stamp_keys in Hst.
    rewrite !not_elem_of_cons in Hst. destruct Hst as (H1 & H2 & H3 & H4 & _).
    rewrite !lookup_insert_ne by congruence.
    apply (convert_numeric_fields_other _ _ _ key Hconv Hnum).
  - intros key Hsome.
    destruct (decide (key ∈ stamp_keys)) as [Hk | Hk]; [right; exact Hk | left].
    unfold stamp_keys in Hk. rewrite !not_elem_of_cons in Hk.
    destruct Hk as (H1 & H2 & H3 & H4 & _).
    rewrite !lookup_insert_ne in Hsome by congruence.
    destruct (decide (key ∈ numeric_fields)) as [Hn | Hn].
    + destruct (convert_numeric_fields_spec _ _ _ numeric_fields_NoDup Hconv key)
        as [_ Hin]. specialize (Hin Hn).
      destruct (invoice !! key); [eauto|].
      rewrite Hin in Hsome. exact Hsome.
    + rewrite (convert_numeric_fields_other _ _ _ key Hconv Hn) in Hsome.
      exact Hsome.
Qed.

Lemma serialize_invoice_record_numeric (host_url : option string)
    (invoice record : gmap string pyvalue) (field : string) :
  serialize_invoice_record host_url invoice = Returned record ->
  field ∈ numeric_fields ->
  match invoice !! field with
  | None => record !! field = None
  | Some value =>
      exists d, as_decimal_value value = Returned d
                /\ record !! field = Some (PFloat (float_of_Decimal d))
  end.
Proof.
  intros Hrun Hfield. unfold serialize_invoice_record in Hrun.
  destruct (convert_numeric_fields numeric_fields invoice) as [converted|e] eqn:Hconv;
    [|discriminate].
  cbn [obind] in Hrun.
  destruct (absolute_invoice_url _ _) as [url|e]; [|discriminate].
  cbn [obind] in Hrun. injection Hrun as <-.
  destruct (convert_numeric_fields_spec _ _ _ numeric_fields_NoDup Hconv field)
    as [_ Hin]. specialize (Hin Hfield).
  unfold numeric_fields in Hfield.
  rewrite !elem_of_cons, elem_of_nil in Hfield.
  rewrite !lookup_insert_ne
    by (intros <-; decompose [or] Hfield; try discriminate; contradiction).
  exact Hin.
Qed.

(** X10. What serialization adds and what it passes on.  The keys of a
    record are those of the row together with generated_at, created_at,
    updated_at and pdf_url, which it has whether or not the row had
    them: each time is the ISO text of the row's value in IST or null,
    and pdf_url is the absolute form of the row's location.  Every other
    entry that is not a money field is the row's own. *)
Theorem serialize_invoice_record_keys (host_url : option string)
    (invoice record : gmap string pyvalue) :
  serialize_invoice_record host_url invoice = Returned record ->
  dom record = dom invoice ∪ list_to_set stamp_keys
  /\ (forall key, key ∈ ["generated_at"; "created_at"; "updated_at"] ->
        record !! key
        = Some (iso_or_none (to_ist_datetime_value (record_get invoice key))))
  /\ (exists url,
        absolute_invoice_url host_url (record_get invoice "pdf_url") = Returned url
        /\ record !! "pdf_url" = Some url)
  /\ (forall key, key ∉ numeric_fields -> key ∉ stamp_keys ->
        record !! key = invoice !! key).
Proof.
  intros Hrun.
  destruct (serialize_invoice_record_spec _ _ _ Hrun)
    as (Htimes & Hurl & [url Hsome] & Hother & Hdom).
  split; [|split; [exact Htimes | split; [|exact Hother]]].
  - apply set_eq. intros key.
    rewrite elem_of_union, !elem_of_dom, elem_of_list_to_set. split.
    + apply Hdom.
    + intros [Hrow | Hstamp].
      * destruct (decide (key ∈ stamp_keys)) as [Hk | Hk].
        -- unfold stamp_keys in Hk. rewrite !elem_of_cons, elem_of_nil in Hk.
           destruct Hk as [-> | [-> | [-> | [-> | []]]]];
             rewrite ?Hsome, ?Htimes by (rewrite !elem_of_cons; auto); eauto.
        -- destruct (decide (key ∈ numeric_fields)) as [Hn | Hn].
           ++ pose proof (serialize_invoice_record_numeric _ _ _ key Hrun Hn) as Hm.
              destruct Hrow as [value Hv]. rewrite Hv in Hm.
              destruct Hm as (d & _ & ->). eauto.
           ++ rewrite (Hother key Hn Hk). exact Hrow.
      * unfold stamp_keys in Hstamp. rewrite !elem_of_cons, elem_of_nil in Hstamp.
        destruct Hstamp as [-> | [-> | [-> | [-> | []]]]];
          rewrite ?Hsome, ?Htimes by (rewrite !elem_of_cons; auto); eauto.
  - exists url. split; [|exact Hsome].
    unfold record_get in Hurl at 2. rewrite Hsome in Hurl. exact Hurl.
Qed.

(** A row whose money fields are decimals and whose location is falsy
    or a text is serialized. *)
Lemma serialize_invoice_record_total (host_url : option string)
    (invoice : gmap string pyvalue) :
  (forall field value,
     field ∈ numeric_fields -> invoice !! field = Some value ->
     exists d, as_decimal_value value = Returned d) ->
  (py_truthy (record_get invoice "pdf_url") = true ->
   exists path, invoice !! "pdf_url" = Some (PStr path)) ->
  exists record, serialize_invoice_record host_url invoice = Returned record.
Proof.
  intros Hmoney Hpath.
  destruct (convert_numeric_fields_returns _ _ numeric_fields_NoDup Hmoney)
    as [converted Hconv].
  unfold serialize_invoice_record. rewrite Hconv. cbn [obind]. cbv zeta.
  unfold record_get.
  rewrite !lookup_insert_ne by discriminate.
  rewrite (convert_numeric_fields_other _ _ _ "pdf_url" Hconv)
    by (apply stamp_keys_not_numeric; unfold stamp_keys; rewrite !elem_of_cons; auto).
  unfold record_get in Hpath.
  unfold absolute_invoice_url.
  destruct (py_truthy (default PNone (invoice !! "pdf_url"))) eqn:Ht; cbn [negb].
  - destruct (Hpath eq_refl) as [path Hp]. rewrite Hp.
    cbn [default from_option id].
    match goal with |- context [if ?b then _ else _] => destruct b end;
      [eexists; reflexivity|].
    destruct host_url; eexists; reflexivity.
  - eexists. reflexivity.
Qed.

End WireMore.

Lemma serialize_invoice_record_keys_witness :
  wire_sample !! "created_at" = None
  /\ wire_sample_record !! "created_at" = Some PNone
  /\ wire_sample_record !! "pdf_url" = Some PNone.
Proof.
  assert (serialize_invoice_record (H:=offline) None wire_sample
          = Returned wire_sample_record) as Hrun by (vm_compute; reflexivity).
  destruct (serialize_invoice_record_keys (H:=offline) None wire_sample
              wire_sample_record Hrun) as (_ & Htimes & _).
  split; [reflexivity|]. split.
  - rewrite (Htimes "created_at") by (rewrite !elem_of_cons; auto). reflexivity.
  - vm_compute. reflexivity.
Defined.

(** ** The location of a file and the image cache *)

Section Location.

Lemma string_of_list_ascii_app (a b : list ascii) :
  string_of_list_ascii (a ++ b)
  = string_of_list_ascii a +:+ string_of_list_ascii b.
Proof.
  induction a as [|c a IH]; [reflexivity|].
  cbn [app string_of_list_ascii]. rewrite append_cons, IH. reflexivity.
Qed.

Lemma list_ascii_of_string_app (a b : string) :
  list_ascii_of_string (a +:+ b)
  = list_ascii_of_string a ++ list_ascii_of_string b.
Proof.
  induction a as [|c a IH]; [reflexivity|].
  rewrite append_cons. cbn [list_ascii_of_string app]. rewrite IH. reflexivity.
Qed.

Lemma string_rev_app (a b : string) :
  string_rev (a +:+ b) = string_rev b +:+ string_rev a.
Proof.
  unfold string_rev.
  rewrite list_ascii_of_string_app, rev_app_distr, string_of_list_ascii_app.
  reflexivity.
Qed.

Lemma string_rev_involutive (s : string) : string_rev (string_rev s) = s.
Proof.
  unfold string_rev.
  rewrite list_ascii_of_string_of_list_ascii, rev_involutive.
  apply string_of_list_ascii_of_string.
Qed.

Lemma string_rev_slashes (k : nat) : string_rev (slashes k) = slashes k.
Proof.
  induction k as [|k IH]; [reflexivity|].
  change (slashes (S k)) with ("/" +:+ slashes k) at 1.
  rewrite string_rev_app, IH.
  clear IH. induction k as [|k IH]; [reflexivity|].
  cbn [slashes]. rewrite append_cons, IH. reflexivity.
Qed.

Lemma rstrip_slash_rev_spec (s : string) :
  exists k, s = slashes k +:+ rstrip_slash_rev s
            /\ match rstrip_slash_rev s with
               | String c _ => Ascii.eqb c "/"%char = false
               | EmptyString => True
               end.
Proof.
  induction s as [|c s (k & Hs & Hend)]; [exists O; split; [reflexivity | exact I]|].
  cbn [rstrip_slash_rev].
  destruct (Ascii.eqb c "/"%char) eqn:Hc.
  - apply Ascii.eqb_eq in Hc as ->. exists (S k). split; [|exact Hend].
    cbn [slashes]. rewrite append_cons. f_equal. exact Hs.
  - exists O. split; [reflexivity | exact Hc].
Qed.

(** [rstrip("/")] removes the slashes at the end and nothing else. *)
Lemma rstrip_slash_spec (s : string) :
  exists k, s = rstrip_slash s +:+ slashes k
            /\ ends_with_slash (rstrip_slash s) = false.
Proof.
  destruct (rstrip_slash_rev_spec (string_rev s)) as (k & Hs & Hend).
  exists k. unfold rstrip_slash, ends_with_slash. split.
  - rewrite <- (string_rev_involutive s) at 1. rewrite Hs at 1.
    rewrite string_rev_app, string_rev_slashes. reflexivity.
  - rewrite string_rev_involutive.
    destruct (rstrip_slash_rev (string_rev s)); [reflexivity | exact Hend].
Qed.

(** X12. The location sent to a client.  A relative path is appended to
    the host address with the slashes at its end removed, all of them and
    nothing else, so that the path's own slash is the only one at the
    joint; a path that is already absolute is sent as it is, and a
    missing or empty one as null. *)
Theorem absolute_invoice_url_join (host path : string) :
  path <> "" ->
  String.prefix "http://" path = false ->
  String.prefix "https://" path = false ->
  exists base k,
    absolute_invoice_url (Some host) (PStr path) = Returned (PStr (base +:+ path))
    /\ host = base +:+ slashes k
    /\ ends_with_slash base = false.
Proof.
  intros Hne Hp Hps.
  destruct (rstrip_slash_spec host) as (k & Hhost & Hend).
  exists (rstrip_slash host), k. split; [|split; assumption].
  unfold absolute_invoice_url. cbn [py_truthy].
  destruct (String.eqb_spec path "") as [-> | _]; [contradiction|].
  cbn [negb]. rewrite Hp, Hps. reflexivity.
Qed.
End Location.

Lemma absolute_invoice_url_join_witness :
  exists base k,
    absolute_invoice_url (Some "http://localhost:5700//")
                         (PStr "/files/invoices/a.pdf")
    = Returned (PStr (base +:+ "/files/invoices/a.pdf"))
    /\ "http://localhost:5700//" = base +:+ slashes k
    /\ ends_with_slash base = false.
Proof.
  apply absolute_invoice_url_join; [discriminate | reflexivity..].
Defined.

(** X13. The image cache.  An image that was loaded once is served from
    the cache on every later call for the same source, whatever has
    become of the file or the network by then, and the cache is left
    alone.  A failed load is not remembered as a failure: the next call
    gives what a call on an empty cache would give. *)
Theorem get_logo_image_cached (before later : Platform) (url : option string)
    (cache cache1 : gmap string (option ImageReader))
    (result : option ImageReader) :
  @NEIGHSHOP_LOGO_PATH before = @NEIGHSHOP_LOGO_PATH later ->
  @logo_path_exists before = @logo_path_exists later ->
  get_logo_image (H:=before) url cache = (result, cache1) ->
  match result with
  | Some image => get_logo_image (H:=later) url cache1 = (Some image, cache1)
  | None =>
      fst (get_logo_image (H:=later) url cache1)
      = fst (get_logo_image (H:=later) url ∅)
  end.
Proof.
  intros Hpath Hexists. unfold get_logo_image. rewrite Hpath, Hexists.
  destruct (_ && logo_path_exists).
  - destruct (mjoin (cache !! NEIGHSHOP_LOGO_PATH)) as [cached|] eqn:Hc.
    + intros [= <- <-]. rewrite Hc. reflexivity.
    + intros [= <- <-]. rewrite lookup_insert_eq, lookup_empty. cbn [mjoin option_join].
      destruct (@open_logo_file before); cbn [mjoin option_join]; reflexivity.
  - destruct url as [u|]; [|intros [= <- <-]; reflexivity].
    destruct (String.eqb u ""); [intros [= <- <-]; reflexivity|].
    destruct (mjoin (cache !! u)) as [cached|] eqn:Hc.
    + intros [= <- <-]. rewrite Hc. reflexivity.
    + intros [= <- <-]. rewrite lookup_insert_eq, lookup_empty.
      destruct (@fetch_image before u); cbn [mjoin option_join]; reflexivity.
Qed.

Lemma get_logo_image_cached_witness :
  get_logo_image (H:=offline) (Some QR_URL)
    (snd (get_logo_image (H:=online) (Some QR_URL) ∅))
  = (Some (Image QR_URL), snd (get_logo_image (H:=online) (Some QR_URL) ∅)).
Proof.
  apply (get_logo_image_cached online offline (Some QR_URL) ∅ _
           (Some (Image QR_URL))); reflexivity.
Defined.

(** ** Invoice creation: what a 201 answer stands for *)

Section Created.
Context `{Platform}.

Lemma details_dict_plain (d : InvoiceDetails) :
  details_dict d !! "invoice_number" = Some (PStr (d_invoice_number d))
  /\ details_dict d !! "id" = Some (PInt (d_id d))
  /\ details_dict d !! "pdf_url" = Some (opt_value PStr (d_pdf_url d)).
Proof. repeat split; reflexivity. Qed.

Lemma files_location_relative (name : string) :
  ("/files/invoices/" +:+ name) <> ""
  /\ String.prefix "http://" ("/files/invoices/" +:+ name) = false
  /\ String.prefix "https://" ("/files/invoices/" +:+ name) = false.
Proof. cbv [String.append]. repeat split. discriminate. Qed.

(** X14. What a 201 answer stands for.  One row was appended, with the
    next identifier and the allocated number, and no other row changed;
    the page was written under a name built from the row's generation
    time and client, and no other file changed; the row records the
    location of that file; the clients, the plans and the ledger are as
    they were; and the response carries the row's identifier and number
    and the location made absolute. *)
Theorem create_invoice_created (clock : Clock) (host_url : option string)
    (body : json) (w w' : World) (record : gmap string pyvalue) :
  create_invoice clock host_url body w = (w', Returned (InvoiceBody record, 201)) ->
  exists row name page,
    invoices w' = invoices w ++ [row]
    /\ i_id row = next_invoice_id w
    /\ next_invoice_id w' = next_invoice_id w + 1
    /\ i_invoice_number row = next_invoice_number clock w
    /\ name = pdf_filename_of
                (default (now_ist clock) (to_ist_datetime (Some (i_generated_at row))))
                (Some (i_lead_id row))
    /\ i_pdf_url row = Some ("/files/invoices/" +:+ name)
    /\ files w' = <[name := page]> (files w)
    /\ leads w' = leads w /\ plans w' = plans w
    /\ lead_payments w' = lead_payments w
    /\ record !! "id" = Some (PInt (i_id row))
    /\ record !! "invoice_number" = Some (PStr (i_invoice_number row))
    /\ record !! "pdf_url"
       = Some (PStr (match host_url with
                     | Some host => rstrip_slash host +:+ "/files/invoices/" +:+ name
                     | None => "/files/invoices/" +:+ name
                     end)).
Proof.
  intros Hrun.
  destruct (create_invoice_world clock host_url body w)
    as [[_ Hno] | [(_ & _ & Hraise)
                   | (_ & payload & row & lead & plan & page & cache & Hc)]].
  - rewrite Hrun in Hno. destruct (Hno record 201). reflexivity.
  - rewrite Hrun in Hraise. discriminate.
  - cbv zeta in Hc.
    destruct Hc as (_ & _ & _ & Hid & Hnum & _ & Hgen & _ & _ & _ & Hw & Hresp).
    rewrite Hrun in Hw, Hresp. cbn [fst snd] in Hw, Hresp. subst w'.
    set (name := pdf_filename_of
                   (default (now_ist clock)
                      (to_ist_datetime (Some (current_timestamp clock))))
                   (Some (i_lead_id row))) in *.
    set (details := set_pdf_url _ _) in Hresp.
    destruct (serialize_invoice_record host_url (details_dict details))
      as [payload'|e] eqn:Hser; [|discriminate].
    cbn [obind] in Hresp. injection Hresp as ->.
    destruct (serialize_invoice_record_spec _ _ _ Hser)
      as (_ & Hurl & [url Hsome] & Hother & _).
    destruct (details_dict_plain details) as (Hn & Hi & Hp).
    exists (with_pdf_url (Some ("/files/invoices/" +:+ name)) row), name, page.
    cbn [invoices next_invoice_id files leads plans lead_payments with_pdf_url
         i_id i_invoice_number i_pdf_url i_generated_at i_lead_id].
    rewrite Hgen.
    repeat split; try assumption; try reflexivity.
    + rewrite Hother, Hi; [reflexivity | |];
        unfold numeric_fields, stamp_keys;
        rewrite !elem_of_cons, elem_of_nil; intuition discriminate.
    + rewrite Hother, Hn; [reflexivity | |];
        unfold numeric_fields, stamp_keys;
        rewrite !elem_of_cons, elem_of_nil; intuition discriminate.
    + unfold record_get in Hurl. rewrite Hsome, Hp in Hurl. cbn [default] in Hurl.
      rewrite Hsome. f_equal.
      destruct (files_location_relative name) as (Hne & Hh & Hhs).
      unfold absolute_invoice_url in Hurl.
      subst details.
      cbn [set_pdf_url d_pdf_url opt_value py_truthy from_option id] in Hurl.
      destruct (String.eqb_spec ("/files/invoices/" +:+ name) "") as [He | _];
        [contradiction|].
      cbn [negb] in Hurl. rewrite Hh, Hhs in Hurl. cbn [orb] in Hurl.
      destruct host_url; congruence.
Qed.

(** X15. The file name holds the client and the second of creation, not
    the invoice number: two invoices created for one client within the
    same second of the store's clock are two rows with different numbers
    that record the same location, and the folder has gained a single
    file, the page of the second. *)
Theorem create_invoice_twice_same_second (clock1 clock2 : Clock)
    (host_url : option string) (body : json) (w w1 w2 : World)
    (record1 record2 : gmap string pyvalue) :
  current_timestamp clock1 = current_timestamp clock2 ->
  create_invoice clock1 host_url body w
  = (w1, Returned (InvoiceBody record1, 201)) ->
  create_invoice clock2 host_url body w1
  = (w2, Returned (InvoiceBody record2, 201)) ->
  exists row1 row2 name page,
    invoices w2 = invoices w ++ [row1; row2]
    /\ same_text (i_invoice_number row1) (i_invoice_number row2) = false
    /\ i_pdf_url row1 = Some ("/files/invoices/" +:+ name)
    /\ i_pdf_url row2 = Some ("/files/invoices/" +:+ name)
    /\ files w2 = <[name := page]> (files w).
Proof.
  intros Hstamp Hrun1 Hrun2.
  destruct (create_invoice_world clock1 host_url body w)
    as [[_ Hno] | [(_ & _ & Hraise)
                   | (_ & payload & r1 & lead1 & plan1 & pg1 & cache1 & Hc1)]].
  { rewrite Hrun1 in Hno. destruct (Hno record1 201). reflexivity. }
  { rewrite Hrun1 in Hraise. discriminate. }
  destruct (create_invoice_world clock2 host_url body w1)
    as [[_ Hno] | [(_ & _ & Hraise)
                   | (Hfree & payload' & r2 & lead2 & plan2 & pg2 & cache2 & Hc2)]].
  { rewrite Hrun2 in Hno. destruct (Hno record2 201). reflexivity. }
  { rewrite Hrun2 in Hraise. discriminate. }
  cbv zeta in Hc1, Hc2.
  destruct Hc1 as (Hp1 & Hl1 & _ & _ & _ & _ & _ & _ & _ & _ & Hw1 & _).
  destruct Hc2 as (Hp2 & Hl2 & _ & _ & Hnum2 & _ & _ & _ & _ & _ & Hw2 & _).
  rewrite Hrun1 in Hw1. rewrite Hrun2 in Hw2. cbn [fst] in Hw1, Hw2.
  rewrite Hp1 in Hp2. injection Hp2 as <-.
  assert (i_lead_id r2 = i_lead_id r1) as Hlead by congruence.
  rewrite <- Hstamp, Hlead in Hw2.
  set (name := pdf_filename_of
                 (default (now_ist clock1)
                    (to_ist_datetime (Some (current_timestamp clock1))))
                 (Some (i_lead_id r1))) in *.
  assert (pdf_filename_of
            (default (now_ist clock2)
               (to_ist_datetime (Some (current_timestamp clock1))))
            (Some (i_lead_id r1)) = name) as Hname by reflexivity.
  rewrite Hname in Hw2.
  exists (with_pdf_url (Some ("/files/invoices/" +:+ name)) r1),
         (with_pdf_url (Some ("/files/invoices/" +:+ name)) r2), name, pg2.
  cbn [with_pdf_url i_invoice_number i_pdf_url].
  split; [|split; [|split; [reflexivity | split; [reflexivity|]]]].
  - rewrite Hw2. cbn [invoices]. rewrite Hw1. cbn [invoices].
    rewrite <- app_assoc. reflexivity.
  - assert (invoices w1
            = invoices w ++ [with_pdf_url (Some ("/files/invoices/" +:+ name)) r1])
      as Hinv1 by (rewrite Hw1; reflexivity).
    rewrite Hinv1 in Hfree.
    rewrite existsb_app in Hfree.
    apply orb_false_elim in Hfree as [_ Hfree]. cbn [existsb] in Hfree.
    rewrite orb_false_r in Hfree.
    cbn [with_pdf_url i_invoice_number] in Hfree. rewrite Hnum2. exact Hfree.
  - rewrite Hw2. cbn [files]. rewrite Hw1. cbn [files].
    apply insert_insert_eq.
Qed.
End Created.

Lemma create_invoice_created_witness :
  exists row name page,
    invoices (fst discount_invoice) = invoices sample_world ++ [row]
    /\ i_pdf_url row = Some ("/files/invoices/" +:+ name)
    /\ files (fst discount_invoice) = <[name := page]> (files sample_world)
    /\ response_field discount_invoice "pdf_url"
       = Some (PStr ("http://localhost:5700/files/invoices/" +:+ name)).
Proof.
  assert (exists record,
            discount_invoice = (fst discount_invoice,
                                Returned (InvoiceBody record, 201))) as [record Hrun].
  { eexists. vm_compute. reflexivity. }
  destruct (create_invoice_created (H:=offline) sample_clock
              (Some "http://localhost:5700/") discount_request sample_world _
              record Hrun)
    as (row & name & page & Hinv & _ & _ & _ & _ & Hurl & Hfiles & _ & _ & _
        & _ & _ & Hrec).
  exists row, name, page. repeat split; try assumption.
  unfold response_field. rewrite Hrun. cbn [snd]. exact Hrec.
Defined.

Lemma create_invoice_twice_same_second_witness :
  exists row1 row2 name page,
    invoices (fst second_discount_invoice) = invoices sample_world ++ [row1; row2]
    /\ same_text (i_invoice_number row1) (i_invoice_number row2) = false
    /\ i_pdf_url row1 = Some ("/files/invoices/" +:+ name)
    /\ i_pdf_url row2 = Some ("/files/invoices/" +:+ name)
    /\ files (fst second_discount_invoice) = <[name := page]> (files sample_world).
Proof.
  assert (exists record,
            discount_invoice = (fst discount_invoice,
                                Returned (InvoiceBody record, 201))) as [record1 Hrun1].
  { eexists. vm_compute. reflexivity. }
  assert (exists record,
            second_discount_invoice = (fst second_discount_invoice,
                                       Returned (InvoiceBody record, 201)))
    as [record2 Hrun2].
  { eexists. vm_compute. reflexivity. }
  destruct (create_invoice_twice_same_second (H:=offline) sample_clock sample_clock
              (Some "http://localhost:5700/") discount_request sample_world _ _
              record1 record2 eq_refl Hrun1 Hrun2)
    as (row1 & row2 & name & page & Hrows).
  exists row1, row2, name, page. exact Hrows.
Defined.

(** ** The payment lines *)

Section Lines.
Context `{Platform}.

Lemma lstrip_first (s : string) (c : ascii) :
  first_char (lstrip s) = Some c -> is_space c = false.
Proof.
  induction s as [|a s IH]; [discriminate|].
  cbn [lstrip]. destruct (is_space a) eqn:Ha; [exact IH|].
  cbn [first_char]. intros [= <-]. exact Ha.
Qed.

Lemma lstrip_fixed (s : string) :
  (forall c, first_char s = Some c -> is_space c = false) -> lstrip s = s.
Proof.
  destruct s as [|a s]; [reflexivity|]. intros Hfirst.
  cbn [lstrip]. rewrite (Hfirst a eq_refl). reflexivity.
Qed.

(** What [lstrip] removes is white space. *)
Lemma lstrip_spec (s : string) :
  exists spaces, s = spaces +:+ lstrip s /\ all_chars is_space spaces = true.
Proof.
  induction s as [|a s (spaces & Hs & Hsp)]; [exists ""; auto|].
  cbn [lstrip]. destruct (is_space a) eqn:Ha.
  - exists (String a spaces). rewrite append_cons. cbn [all_chars].
    rewrite Ha, Hsp. split; [f_equal; exact Hs | reflexivity].
  - exists "". auto.
Qed.

Lemma first_char_app (a b : string) (c : ascii) :
  first_char a = Some c -> first_char (a +:+ b) = Some c.
Proof. destruct a; [discriminate|]. rewrite append_cons. auto. Qed.

Lemma append_empty_r (a : string) : a +:+ "" = a.
Proof. induction a as [|c a IH]; [reflexivity|]. rewrite append_cons, IH. reflexivity. Qed.

(** [strip] leaves a text that neither begins nor ends with white
    space. *)
Lemma strip_trimmed (s : string) : trimmed (strip s).
Proof.
  unfold trimmed, strip, last_char. rewrite string_rev_involutive.
  split; [|apply lstrip_first].
  intros c Hc.
  destruct (lstrip_spec (string_rev (lstrip s))) as (spaces & Hrev & _).
  set (r := lstrip (string_rev (lstrip s))) in *.
  assert (lstrip s = string_rev r +:+ string_rev spaces) as Hs.
  { rewrite <- string_rev_app, <- Hrev, string_rev_involutive. reflexivity. }
  apply (lstrip_first s). rewrite Hs. apply first_char_app. exact Hc.
Qed.

Lemma strip_fixed (s : string) : trimmed s -> strip s = s.
Proof.
  intros [Hfirst Hlast]. unfold strip.
  rewrite (lstrip_fixed s Hfirst), (lstrip_fixed (string_rev s) Hlast).
  apply string_rev_involutive.
Qed.

Lemma lstrip_spaces (s : string) : all_chars is_space s = true -> lstrip s = "".
Proof.
  induction s as [|a s IH]; [reflexivity|].
  cbn [all_chars lstrip]. intros [Ha Hs]%andb_true_iff. rewrite Ha. exact (IH Hs).
Qed.

Lemma strip_spaces (s : string) : all_chars is_space s = true -> strip s = "".
Proof. intros Hs. unfold strip. rewrite (lstrip_spaces s Hs). reflexivity. Qed.

Lemma string_rev_cons (c : ascii) (s : string) :
  string_rev (String c s) = string_rev s +:+ String c "".
Proof.
  change (String c s) with (String c "" +:+ s) at 1.
  rewrite string_rev_app. reflexivity.
Qed.

Lemma all_chars_app (test : ascii -> bool) (a b : string) :
  all_chars test (a +:+ b) = all_chars test a && all_chars test b.
Proof.
  induction a as [|c a IH]; [reflexivity|].
  rewrite append_cons. cbn [all_chars]. rewrite IH, andb_assoc. reflexivity.
Qed.

(** The pieces [split("|")] cuts hold the characters of the text other
    than the separator. *)
Lemma split_on_chars (test : ascii -> bool) (sep : ascii) (s current : string) :
  all_chars (fun c => Ascii.eqb c sep || test c) s = true ->
  all_chars test (string_rev current) = true ->
  Forall (fun piece => all_chars test piece = true) (split_on sep s current).
Proof.
  revert current. induction s as [|a s IH]; intros current Hs Hcur.
  - cbn [split_on]. constructor; [exact Hcur | constructor].
  - cbn [all_chars] in Hs. apply andb_true_iff in Hs as [Ha Hs].
    cbn [split_on]. destruct (Ascii.eqb a sep) eqn:Hsep.
    + constructor; [exact Hcur|]. apply IH; [exact Hs | reflexivity].
    + apply IH; [exact Hs|]. cbn [orb] in Ha.
      rewrite string_rev_cons, all_chars_app, Hcur. cbn [all_chars].
      rewrite Ha. reflexivity.
Qed.

(** X16. The payment lines of the page under an override.  With
    [INVOICE_PAYMENT_LINES] set to a non-empty text of ASCII characters,
    every line drawn is a piece of it cut at the bars, trimmed, and never
    empty, and every piece that is not blank is drawn; an override made
    of bars and white space only leaves the heading with no line under
    it, not the configured lines. *)
Theorem payment_lines_override (raw : string) :
  INVOICE_PAYMENT_LINES = Some raw -> raw <> "" -> ascii_text raw ->
  (forall line, line ∈ payment_lines ->
     line <> "" /\ trimmed line
     /\ exists piece, piece ∈ split_pipe raw /\ line = strip piece)
  /\ (forall piece, piece ∈ split_pipe raw -> strip piece <> "" ->
        strip piece ∈ payment_lines)
  /\ (all_chars (fun c => Ascii.eqb c "|"%char || is_space c) raw = true ->
      payment_lines = []).
Proof.
  intros Hraw Hne _. unfold payment_lines. rewrite Hraw.
  destruct (String.eqb_spec raw "") as [-> | _]; [contradiction|].
  split; [|split].
  - intros line Hin. apply list_elem_of_filter in Hin as [Hnonempty Hin].
    apply list_elem_of_fmap in Hin as (piece & -> & Hpiece).
    split; [|split].
    + intros Hempty. rewrite Hempty in Hnonempty. discriminate.
    + apply strip_trimmed.
    + eauto.
  - intros piece Hpiece Hnonempty. apply list_elem_of_filter. split.
    + destruct (String.eqb_spec (strip piece) "") as [He | _];
        [contradiction | reflexivity].
    + apply list_elem_of_fmap. eauto.
  - intros Hblank.
    pose proof (split_on_chars is_space "|"%char raw "" Hblank eq_refl) as Hpieces.
    fold (split_pipe raw) in Hpieces.
    induction Hpieces as [|piece pieces Hpiece _ IH]; [reflexivity|].
    cbn [map]. rewrite filter_cons_False; [exact IH|].
    rewrite (strip_spaces piece Hpiece). cbn. discriminate.
Qed.
End Lines.

Lemma payment_lines_override_witness :
  payment_lines (H:=with_payment_lines " | ") = []
  /\ "UPI: shop@bank" ∈ payment_lines (H:=with_payment_lines "| UPI: shop@bank |").
Proof.
  split.
  - apply (payment_lines_override (H:=with_payment_lines " | ") " | ");
      [reflexivity | discriminate | reflexivity | reflexivity].
  - apply (proj1 (proj2 (payment_lines_override
                           (H:=with_payment_lines "| UPI: shop@bank |")
                           "| UPI: shop@bank |" eq_refl ltac:(discriminate)
                           eq_refl))
             " UPI: shop@bank ").
    + vm_compute. right. left.
    + vm_compute. discriminate.
Defined.

(** ** The layout of the page *)

Section Flow.
Context `{Platform}.

Lemma wrap_text_nonempty (text : option string) (width : nat) :
  (0 < length (wrap_text text width))%nat.
Proof.
  unfold wrap_text. destruct text as [s|]; [|cbn; lia].
  destruct (String.eqb s ""); [cbn; lia|].
  destruct (textwrap_wrap s width); cbn; lia.
Qed.

Lemma draw_field_lines_y (x y : Z) (idx : nat) (lines : list string) :
  snd (draw_field_lines x y idx lines)
  = y - row_height * (Z.of_nat (length lines)
                      - match idx, lines with O, _ :: _ => 1 | _, _ => 0 end).
Proof.
  revert y idx. induction lines as [|line rest IH]; intros y idx.
  - cbn [draw_field_lines snd length]. destruct idx; lia.
  - cbn [draw_field_lines].
    match goal with |- context [draw_field_lines x ?y' (S idx) rest] =>
      specialize (IH y' (S idx));
      destruct (draw_field_lines x y' (S idx) rest) as [ops y''] end.
    cbn [snd] in *. rewrite IH. cbn [length]. destruct idx, rest; cbn [length]; lia.
Qed.

(** A field of the left column takes one row for each line of its
    value. *)
Lemma draw_field_y (label : string) (value : option string) (x y : Z) :
  snd (draw_field label value x y)
  = y - row_height * Z.of_nat (length (wrap_text value 70)).
Proof.
  unfold draw_field.
  pose proof (draw_field_lines_y x y 0 (wrap_text value 70)) as Hy.
  pose proof (wrap_text_nonempty value 70) as Hne.
  destruct (draw_field_lines x y 0 (wrap_text value 70)) as [ops y'].
  cbn [snd] in *. rewrite Hy.
  destruct (wrap_text value 70); cbn [length] in *; lia.
Qed.

Lemma draw_left_fields_y (fields : list (string * option string)) (x y : Z) :
  snd (draw_left_fields fields x y)
  = y - row_height
        * Z.of_nat (length (flat_map (fun field => field_lines (snd field)) fields)).
Proof.
  revert y. induction fields as [|[label value] rest IH]; intros y.
  - cbn. lia.
  - cbn [draw_left_fields flat_map snd].
    pose proof (draw_field_y label (str_or value (Some "NA")) x y) as Hy.
    destruct (draw_field label (str_or value (Some "NA")) x y) as [ops y'].
    specialize (IH y').
    destruct (draw_left_fields rest x y') as [ops' y''].
    cbn [snd] in *. rewrite IH, Hy, length_app. unfold field_lines. cbn [snd]. lia.
Qed.

Lemma draw_right_fields_y (fields : list (string * option string)) (x y : Z) :
  snd (draw_right_fields fields x y) = y - row_height * Z.of_nat (length fields).
Proof.
  revert y. induction fields as [|[label value] rest IH]; intros y.
  - cbn. lia.
  - cbn [draw_right_fields]. specialize (IH (y - row_height)).
    destruct (draw_right_fields rest x (y - row_height)) as [ops y'].
    cbn [snd length] in *. rewrite IH. lia.
Qed.

Lemma draw_lines_y (x y step : Z) (lines : list string) :
  snd (draw_lines x y step lines) = y - step * Z.of_nat (length lines).
Proof.
  revert y. induction lines as [|line rest IH]; intros y; [cbn; lia|].
  cbn [draw_lines]. specialize (IH (y - step)).
  destruct (draw_lines x (y - step) step rest) as [ops y'].
  cbn [snd length] in *. rewrite IH. lia.
Qed.

Lemma page_tables_app (a b : list CanvasOp) :
  page_tables (a ++ b) = page_tables a ++ page_tables b.
Proof. unfold page_tables. apply flat_map_app. Qed.

Lemma page_tables_draw_lines (x y step : Z) (lines : list string) :
  page_tables (fst (draw_lines x y step lines)) = [].
Proof.
  revert y. induction lines as [|line rest IH]; intros y; [reflexivity|].
  cbn [draw_lines]. specialize (IH (y - step)).
  destruct (draw_lines x (y - step) step rest) as [ops y']. exact IH.
Qed.

Lemma page_tables_draw_field_lines (x y : Z) (idx : nat) (lines : list string) :
  page_tables (fst (draw_field_lines x y idx lines)) = [].
Proof.
  revert y idx. induction lines as [|line rest IH]; intros y idx; [reflexivity|].
  cbn [draw_field_lines].
  match goal with |- context [draw_field_lines x ?y' (S idx) rest] =>
    specialize (IH y' (S idx));
    destruct (draw_field_lines x y' (S idx) rest) as [ops y''] end.
  exact IH.
Qed.

Lemma page_tables_draw_left_fields (fields : list (string * option string))
    (x y : Z) :
  page_tables (fst (draw_left_fields fields x y)) = [].
Proof.
  revert y. induction fields as [|[label value] rest IH]; intros y; [reflexivity|].
  cbn [draw_left_fields]. unfold draw_field.
  pose proof (page_tables_draw_field_lines x y 0
                (wrap_text (str_or value (Some "NA")) 70)) as Hl.
  destruct (draw_field_lines x y 0 _) as [ops y'].
  specialize (IH (y' - row_height)).
  destruct (draw_left_fields rest x (y' - row_height)) as [ops' y''].
  cbn [fst] in *. rewrite !page_tables_app, Hl, IH. reflexivity.
Qed.

Lemma page_tables_draw_right_fields (fields : list (string * option string))
    (x y : Z) :
  page_tables (fst (draw_right_fields fields x y)) = [].
Proof.
  revert y. induction fields as [|[label value] rest IH]; intros y; [reflexivity|].
  cbn [draw_right_fields]. specialize (IH (y - row_height)).
  destruct (draw_right_fields rest x (y - row_height)) as [ops y'].
  cbn [fst] in *. rewrite page_tables_app, IH. reflexivity.
Qed.

(** X17. Where the cost table goes.  The page has one table, at the left
    margin.  Its top is 20 points under the client block, and the client
    block takes 16 points for every line of the five client fields, a
    long value wrapped over several lines pushing the table down; the
    three fields of the right column never reach as far down; above the
    block, the address takes 11 points a line and the title stands 4
    points lower when there is no logo.  The position is that of the
    lower left corner, the height of the table under its top. *)
Theorem cost_table_position (clock : Clock) (neigh_logo qr_image : option ImageReader)
    (generated_dt : datetime) (invoice : InvoiceDetails) :
  let title_y :=
    A4_height - margin
    - match neigh_logo with Some _ => 8 * pt | None => 12 * pt end in
  let address_lines := wrap_text (Some BUSINESS_ADDRESS) 80 ++ ["+91 8307802643"] in
  let client_lines :=
    flat_map (fun field => field_lines (snd field)) (left_fields invoice) in
  let block_top :=
    title_y - 18 * pt - 11 * pt * Z.of_nat (length address_lines) - 22 * pt in
  let block_bottom := block_top - 16 * pt * Z.of_nat (length client_lines) in
  page_tables (invoice_page clock neigh_logo qr_image generated_dt invoice)
  = [(margin, block_bottom - 20 * pt - table_wrap_height (cost_rows invoice))]
  /\ (5 <= length client_lines)%nat
  /\ block_bottom < block_top - 16 * pt * 3.
Proof.
  cbv zeta.
  assert (5 <= length (flat_map (fun field => field_lines (snd field))
                                (left_fields invoice)))%nat as Hfive.
  { unfold left_fields. cbn [flat_map snd]. rewrite !length_app. cbn [length].
    unfold field_lines.
    repeat match goal with |- context [wrap_text ?v 70] =>
      let Hw := fresh "Hw" in
      pose proof (wrap_text_nonempty v 70) as Hw;
      generalize dependent (wrap_text v 70); intros end.
    lia. }
  split; [|split; [exact Hfive | unfold pt; lia]].
  unfold invoice_page.
  destruct neigh_logo as [logo|];
  repeat match goal with
  | |- context [draw_lines ?x ?y ?s ?l] =>
      let Ht := fresh "Ht" in let Hy := fresh "Hy" in
      pose proof (page_tables_draw_lines x y s l) as Ht;
      pose proof (draw_lines_y x y s l) as Hy;
      destruct (draw_lines x y s l) as [? ?]; cbn [fst snd] in Ht, Hy; subst
  | |- context [draw_left_fields ?f ?x ?y] =>
      let Ht := fresh "Ht" in let Hy := fresh "Hy" in
      pose proof (page_tables_draw_left_fields f x y) as Ht;
      pose proof (draw_left_fields_y f x y) as Hy;
      destruct (draw_left_fields f x y) as [? ?]; cbn [fst snd] in Ht, Hy; subst
  | |- context [draw_right_fields ?f ?x ?y] =>
      let Ht := fresh "Ht" in let Hy := fresh "Hy" in
      pose proof (page_tables_draw_right_fields f x y) as Ht;
      pose proof (draw_right_fields_y f x y) as Hy;
      destruct (draw_right_fields f x y) as [? ?]; cbn [fst snd] in Ht, Hy; subst
  end;
  destruct qr_image as [qr|];
  rewrite !page_tables_app;
  repeat match goal with Ht : page_tables _ = _ |- _ => rewrite Ht; clear Ht end;
  cbn [page_tables flat_map op_table_at app];
  unfold right_fields; cbn [length]; unfold row_height, pt in *;
  do 2 f_equal; lia.
Qed.
End Flow.

Section Reproducible.
Context `{Platform}.

Lemma invoice_page_clock (clock1 clock2 : Clock)
    (neigh_logo qr_image : option ImageReader) (generated_dt : datetime)
    (invoice : InvoiceDetails) :
  invoice_page clock1 neigh_logo qr_image generated_dt invoice
  = invoice_page clock2 neigh_logo qr_image generated_dt invoice.
Proof. reflexivity. Qed.

(** X18. A stored invoice renders the same whenever it is rendered: for
    an invoice that has a generation time the file name, the page, the
    dictionary handed back and the state left behind do not depend on
    the clock. *)
Theorem generate_invoice_pdf_any_time (clock1 clock2 : Clock)
    (invoice : InvoiceDetails) (t : datetime) (w : World) :
  d_generated_at invoice = Some t ->
  generate_invoice_pdf clock1 invoice w = generate_invoice_pdf clock2 invoice w.
Proof.
  intros Hgen. unfold generate_invoice_pdf. rewrite Hgen. reflexivity.
Qed.
End Reproducible.

Lemma generate_invoice_pdf_any_time_witness :
  generate_invoice_pdf (H:=offline) sample_clock sample_invoice sample_world
  = generate_invoice_pdf (H:=offline) later_clock sample_invoice sample_world.
Proof.
  apply (generate_invoice_pdf_any_time (H:=offline) sample_clock later_clock
           sample_invoice (mkDatetime 2025 11 1 9 0 0 false)).
  reflexivity.
Defined.

(** ** The range of a total *)

Section PricingMore.

Lemma rescale_scale (d : Decimal) (c e : Z) :
  e <= c -> c <= exponent d ->
  rescale d e = rescale d c * 10 ^ (c - e).
Proof.
  intros Hec Hcd. unfold rescale.
  rewrite <- Z.mul_assoc, <- Z.pow_add_r by lia.
  f_equal. f_equal. lia.
Qed.

(** Comparison of two decimals is comparison of their coefficients at
    any scale fine enough for both. *)
Lemma dec_ltb_at (a b : Decimal) (e : Z) :
  e <= exponent a -> e <= exponent b ->
  dec_ltb a b = true <-> rescale a e < rescale b e.
Proof.
  intros Ha Hb. rewrite dec_ltb_spec.
  set (c := common_exponent a b).
  assert (e <= c /\ c <= exponent a /\ c <= exponent b) as (Hc & Hca & Hcb)
    by (unfold c, common_exponent; lia).
  rewrite (rescale_scale a c e), (rescale_scale b c e) by lia.
  assert (0 < 10 ^ (c - e)) by (apply pow10_pos; lia).
  nia.
Qed.

Lemma dec_leb_at (a b : Decimal) (e : Z) :
  e <= exponent a -> e <= exponent b ->
  dec_leb a b = true <-> rescale a e <= rescale b e.
Proof.
  intros Ha Hb. unfold dec_leb. rewrite negb_true_iff, <- not_true_iff_false.
  rewrite (dec_ltb_at b a e Hb Ha). lia.
Qed.

Lemma rescale_zero (e : Z) : rescale dec_zero e = 0.
Proof. reflexivity. Qed.

(** The pricing at a scale fine enough for its three inputs: the applied
    discount is the request clamped between zero and the fee, and the
    total is the plan price plus the fee less the applied discount. *)
Lemma invoice_pricing_at (plan_price fee requested : Decimal) (e : Z) :
  e <= exponent plan_price -> e <= exponent fee -> e <= exponent requested ->
  e <= 0 ->
  let p := invoice_pricing plan_price fee requested in
  e <= exponent (pr_setup_discount p)
  /\ rescale (pr_setup_discount p) e
     = Z.min (Z.max (rescale requested e) 0) (rescale fee e)
  /\ e <= exponent (pr_total p)
  /\ rescale (pr_total p) e
     = rescale plan_price e + rescale fee e - rescale (pr_setup_discount p) e.
Proof.
  intros Hp Hf Hr He. cbv zeta.
  assert (e <= exponent (pr_setup_discount (invoice_pricing plan_price fee requested))
          /\ rescale (pr_setup_discount (invoice_pricing plan_price fee requested)) e
             = Z.min (Z.max (rescale requested e) 0) (rescale fee e)) as [Hd Hval].
  { unfold invoice_pricing. cbn [pr_setup_discount]. unfold dec_gtb.
    destruct (dec_ltb requested dec_zero) eqn:Hneg.
    - apply (dec_ltb_at requested dec_zero e Hr He) in Hneg.
      rewrite rescale_zero in Hneg.
      destruct (dec_ltb fee dec_zero) eqn:Hfee.
      + apply (dec_ltb_at fee dec_zero e Hf He) in Hfee.
        rewrite rescale_zero in Hfee. split; [exact Hf | lia].
      + apply not_true_iff_false in Hfee.
        rewrite (dec_ltb_at fee dec_zero e Hf He), rescale_zero in Hfee.
        split; [exact He | rewrite rescale_zero; lia].
    - apply not_true_iff_false in Hneg.
      rewrite (dec_ltb_at requested dec_zero e Hr He), rescale_zero in Hneg.
      destruct (dec_ltb fee requested) eqn:Hcap.
      + apply (dec_ltb_at fee requested e Hf Hr) in Hcap. split; [exact Hf | lia].
      + apply not_true_iff_false in Hcap.
        rewrite (dec_ltb_at fee requested e Hf Hr) in Hcap.
        split; [exact Hr | lia]. }
  split; [exact Hd|]. split; [exact Hval|].
  assert (pr_total (invoice_pricing plan_price fee requested)
          = dec_add plan_price
              (dec_sub fee (pr_setup_discount
                              (invoice_pricing plan_price fee requested))))
    as -> by reflexivity.
  assert (e <= exponent (dec_sub fee (pr_setup_discount
                                        (invoice_pricing plan_price fee requested))))
    as Hnet by (unfold dec_sub, common_exponent; cbn [exponent]; lia).
  split.
  - unfold dec_add, common_exponent. cbn [exponent]. lia.
  - rewrite dec_add_exact, dec_sub_exact by assumption. lia.
Qed.

(** X19. The range of a total.  With a setup fee that is not negative,
    the total of an invoice lies between the plan price and the plan
    price plus the fee, whatever discount is requested; a request of the
    whole fee or more brings it to the plan price, and a request of zero
    or less leaves the whole fee on it. *)
Theorem invoice_total_range (plan_price fee requested : Decimal) :
  dec_ltb fee dec_zero = false ->
  let p := invoice_pricing plan_price fee requested in
  dec_leb plan_price (pr_total p) = true
  /\ dec_leb (pr_total p) (dec_add plan_price fee) = true
  /\ (dec_leb fee requested = true -> dec_eqb (pr_total p) plan_price = true)
  /\ (dec_leb requested dec_zero = true ->
      dec_eqb (pr_total p) (dec_add plan_price fee) = true).
Proof.
  intros Hfee. cbv zeta.
  set (e := fine_scale plan_price fee requested).
  assert (e <= exponent plan_price /\ e <= exponent fee /\ e <= exponent requested
          /\ e <= 0) as (Hp & Hf & Hr & He) by (unfold e, fine_scale; lia).
  destruct (invoice_pricing_at plan_price fee requested e Hp Hf Hr He)
    as (Hd & Hval & Ht & Htotal).
  apply not_true_iff_false in Hfee.
  rewrite (dec_ltb_at fee dec_zero e Hf He), rescale_zero in Hfee.
  assert (e <= exponent (dec_add plan_price fee)) as Hsum
    by (unfold dec_add, common_exponent; cbn [exponent]; lia).
  assert (forall a b, e <= exponent a -> e <= exponent b ->
            rescale a e = rescale b e -> dec_eqb a b = true) as Heq.
  { intros a b Ha Hb Hab. unfold dec_eqb, dec_compare.
    set (c := common_exponent a b).
    assert (e <= c /\ c <= exponent a /\ c <= exponent b) as (Hc & Hca & Hcb)
      by (unfold c, common_exponent; lia).
    rewrite (rescale_scale a c e), (rescale_scale b c e) in Hab by lia.
    assert (0 < 10 ^ (c - e)) by (apply pow10_pos; lia).
    assert (rescale a c = rescale b c) as -> by nia.
    rewrite Z.compare_refl. reflexivity. }
  repeat split.
  - apply (dec_leb_at _ _ e Hp Ht). lia.
  - apply (dec_leb_at _ _ e Ht Hsum). rewrite dec_add_exact by assumption. lia.
  - intros Hfull. apply (dec_leb_at fee requested e Hf Hr) in Hfull.
    apply Heq; try assumption. lia.
  - intros Hnone. apply (dec_leb_at requested dec_zero e Hr He) in Hnone.
    rewrite rescale_zero in Hnone.
    apply Heq; try assumption. rewrite dec_add_exact by assumption. lia.
Qed.

(** X20. A larger request never raises the total: of two requests on the
    same plan and fee, the one that asks for at least as much discount
    is invoiced at most as much. *)
Theorem invoice_total_antitone (plan_price fee smaller larger : Decimal) :
  dec_leb smaller larger = true ->
  dec_leb (pr_total (invoice_pricing plan_price fee larger))
          (pr_total (invoice_pricing plan_price fee smaller)) = true.
Proof.
  intros Hle.
  set (e := Z.min (fine_scale plan_price fee smaller) (exponent larger)).
  assert (e <= exponent plan_price /\ e <= exponent fee /\ e <= exponent smaller
          /\ e <= exponent larger /\ e <= 0) as (Hp & Hf & Hs & Hl & He)
    by (unfold e, fine_scale; lia).
  destruct (invoice_pricing_at plan_price fee smaller e Hp Hf Hs He)
    as (_ & Hval1 & Ht1 & Htotal1).
  destruct (invoice_pricing_at plan_price fee larger e Hp Hf Hl He)
    as (_ & Hval2 & Ht2 & Htotal2).
  apply (dec_leb_at smaller larger e Hs Hl) in Hle.
  apply (dec_leb_at _ _ e Ht2 Ht1). lia.
Qed.
End PricingMore.

Lemma invoice_total_range_witness :
  dec_leb (mkDecimal 199900 (-2))
          (pr_total (invoice_pricing (mkDecimal 199900 (-2)) (mkDecimal 3000 0)
                                     (mkDecimal 5000 0))) = true
  /\ dec_eqb (pr_total (invoice_pricing (mkDecimal 199900 (-2)) (mkDecimal 3000 0)
                                        (mkDecimal 5000 0)))
             (mkDecimal 199900 (-2)) = true.
Proof.
  pose proof (invoice_total_range (mkDecimal 199900 (-2)) (mkDecimal 3000 0)
                (mkDecimal 5000 0) eq_refl) as Hrange.
  cbv zeta in Hrange. destruct Hrange as (Hlow & _ & Hfull & _).
  split; [exact Hlow | apply Hfull; reflexivity].
Defined.

Lemma invoice_total_antitone_witness :
  dec_leb (pr_total (invoice_pricing (mkDecimal 199900 (-2)) (mkDecimal 3000 0)
                                     (mkDecimal 25005 (-1))))
          (pr_total (invoice_pricing (mkDecimal 199900 (-2)) (mkDecimal 3000 0)
                                     (mkDecimal 100 0))) = true.
Proof.
  apply (invoice_total_antitone (mkDecimal 199900 (-2)) (mkDecimal 3000 0)
           (mkDecimal 100 0) (mkDecimal 25005 (-1))).
  reflexivity.
Defined.

(** ** The plan catalogue *)

Section CatalogueProps.
Context `{Platform} `{Collation}.

Lemma update_plan_ids (id : Z) (name : option string) (price : Decimal)
    (features : json) (rows : list PlanRow) :
  pl_id <$> update_plan id name price features rows = pl_id <$> rows.
Proof.
  unfold update_plan. induction rows as [|r rows IH]; [reflexivity|].
  cbn [map fmap list_fmap] in *. rewrite IH.
  destruct (pl_id r =? id); reflexivity.
Qed.

Lemma deactivate_others_ids (id : Z) (rows : list PlanRow) :
  pl_id <$> deactivate_others id rows = pl_id <$> rows.
Proof.
  unfold deactivate_others. induction rows as [|r rows IH]; [reflexivity|].
  cbn [map fmap list_fmap] in *. rewrite IH.
  destruct (pl_id r =? id); reflexivity.
Qed.

Lemma none_active_without (id : Z) (name : option string) (price : Decimal)
    (features : json) (rows : list PlanRow) :
  id ∉ pl_id <$> rows ->
  filter (fun r => pl_is_active r = 1)
         (deactivate_others id (update_plan id name price features rows)) = [].
Proof.
  unfold deactivate_others, update_plan.
  induction rows as [|r rows IH]; intros Hnot; [reflexivity|].
  cbn [fmap list_fmap] in Hnot. apply not_elem_of_cons in Hnot as [Hne Hnot].
  cbn [map]. destruct (Z.eqb_spec (pl_id r) id) as [Heq | _]; [congruence|].
  destruct (Z.eqb_spec (pl_id r) id) as [Heq | _]; [congruence|].
  rewrite filter_cons_False by (cbn; discriminate). exact (IH Hnot).
Qed.

(** The two UPDATEs leave one active plan: the row they were given. *)
Lemma one_active_after (r0 : PlanRow) (name : option string) (price : Decimal)
    (features : json) (rows : list PlanRow) :
  NoDup (pl_id <$> rows) -> r0 ∈ rows ->
  filter (fun r => pl_is_active r = 1)
         (deactivate_others (pl_id r0)
            (update_plan (pl_id r0) name price features rows))
  = [mkPlanRow (pl_id r0) (default (pl_name r0) name) price features 1 1].
Proof.
  induction rows as [|r rows IH]; intros Hnd Hin; [inversion Hin|].
  cbn [fmap list_fmap] in Hnd. apply NoDup_cons in Hnd as [Hfresh Hnd].
  apply elem_of_cons in Hin as [<- | Hin].
  - unfold deactivate_others, update_plan. cbn [map].
    rewrite Z.eqb_refl. cbn [pl_id]. rewrite Z.eqb_refl.
    rewrite filter_cons_True by reflexivity. f_equal.
    apply (none_active_without (pl_id r0) name price features rows Hfresh).
  - assert (pl_id r <> pl_id r0) as Hne.
    { intros Heq. apply Hfresh. rewrite Heq.
      apply list_elem_of_fmap. eauto. }
    unfold deactivate_others, update_plan. cbn [map].
    destruct (Z.eqb_spec (pl_id r) (pl_id r0)) as [Heq | _]; [congruence|].
    destruct (Z.eqb_spec (pl_id r) (pl_id r0)) as [Heq | _]; [congruence|].
    rewrite filter_cons_False by (cbn; discriminate). exact (IH Hnd Hin).
Qed.

Lemma catalogue_ok_ids (c : Catalogue) (rows : list PlanRow) :
  catalogue_ok c -> pl_id <$> rows = pl_id <$> plan_rows c ->
  catalogue_ok (set_plan_rows c rows).
Proof.
  intros [Hnd Hlt] Hids. unfold catalogue_ok. cbn [plan_rows set_plan_rows next_plan_id].
  rewrite Hids. split; [exact Hnd|].
  apply Forall_fmap with (f := pl_id) (P := fun k => k < next_plan_id c).
  rewrite Hids. apply Forall_fmap. exact Hlt.
Qed.

Lemma find_elem_of {A} (test : A -> bool) (l : list A) (x : A) :
  List.find test l = Some x -> x ∈ l /\ test x = true.
Proof.
  intros Hfind. apply find_some in Hfind as [Hin Ht].
  split; [apply list_elem_of_In; exact Hin | exact Ht].
Qed.

(** What [seed_plans] does when it returns. *)
Lemma seed_plans_returns (c c' : Catalogue) :
  seed_plans c = (c', Returned tt) ->
  (exists basic,
     List.find (fun plan => String.eqb (lower (pl_name plan)) "basic") (plan_rows c)
     = Some basic
     /\ c' = set_plan_rows c
               (deactivate_others (pl_id basic)
                  (update_plan (pl_id basic) None basic_price basic_features
                               (plan_rows c))))
  \/ (List.find (fun plan => String.eqb (lower (pl_name plan)) "basic") (plan_rows c)
      = None
      /\ Forall (fun r => pl_id r ∉ plans_in_use c) (plan_rows c)
      /\ c' = mkCatalogue
                [mkPlanRow (next_plan_id c) "Basic" basic_price basic_features 1 1]
                (next_plan_id c + 1) (plans_in_use c)).
Proof.
  unfold seed_plans, sbind, squery.
  destruct (List.find _ (plan_rows c)) as [basic|] eqn:Hfind.
  - unfold smodify. cbn [plan_rows set_plan_rows]. intros [= <-].
    left. exists basic. split; reflexivity.
  - unfold delete_plans.
    destruct (existsb _ (plan_rows c)) eqn:Huse; [discriminate|].
    unfold insert_plan. cbn [plan_rows set_plan_rows next_plan_id plans_in_use app].
    intros [= <-]. right. split; [reflexivity|]. split; [|reflexivity].
    apply Forall_forall. intros r Hr Hin.
    apply not_true_iff_false in Huse. apply Huse.
    apply existsb_exists. exists r. split; [apply list_elem_of_In; exact Hr|].
    apply bool_decide_eq_true. exact Hin.
Qed.

(** Seeding keeps the primary key and the plans referred to, and leaves
    an active plan. *)
Lemma seed_plans_ok (c c' : Catalogue) :
  catalogue_ok c -> seed_plans c = (c', Returned tt) ->
  catalogue_ok c' /\ plans_in_use c' = plans_in_use c /\ active_plans c' <> [].
Proof.
  intros Hok Hrun.
  destruct (seed_plans_returns c c' Hrun)
    as [(basic & Hfind & ->) | (Hfind & _ & ->)].
  - apply find_elem_of in Hfind as [Hin _].
    split; [|split; [reflexivity|]].
    + apply (catalogue_ok_ids c _ Hok).
      rewrite deactivate_others_ids, update_plan_ids. reflexivity.
    + unfold active_plans. cbn [plan_rows set_plan_rows].
      rewrite (one_active_after basic None _ _ _ (proj1 Hok) Hin). discriminate.
  - split; [|split; [reflexivity | discriminate]].
    split; [cbn; apply NoDup_singleton|].
    cbn [plan_rows next_plan_id]. constructor; [cbn; lia | constructor].
Qed.

(** What [update_plans] does when it answers: the catalogue [c1] is the
    one it was given, or the seeded one when no plan was called Basic;
    the plan found there is updated from the request and the others are
    deactivated. *)
Lemma update_plans_answers (body : json) (c c' : Catalogue)
    (response : PlansBody * Z) :
  update_plans body c = (c', Returned response) ->
  exists payload plan requested name price c1 basic,
    request_payload body = Returned payload
    /\ plan_payload (default (JArr []) (payload !! "plans")) = Returned plan
    /\ as_decimal_json (json_or (dict_get plan "price") (JNum basic_price))
       = Returned requested
    /\ mjoin (column_text (json_or (dict_get plan "name") (JStr "Basic")))
       = Some name
    /\ column_decimal (JNum requested) = Some price
    /\ (c1 = c \/ (select_basic_id c = None /\ seed_plans c = (c1, Returned tt)))
    /\ List.find (fun r => text_equal (pl_name r) "Basic") (plan_rows c1) = Some basic
    /\ c' = set_plan_rows c1
              (deactivate_others (pl_id basic)
                 (update_plan (pl_id basic) (Some name) price
                    (json_or (dict_get plan "features") basic_features)
                    (plan_rows c1)))
    /\ response = (PlansMessage "Plan updated", 200).
Proof.
  unfold update_plans, sbind, slift, squery, sret.
  destruct (request_payload body) as [payload|e] eqn:Hpayload; [|discriminate].
  destruct (plan_payload _) as [plan|e] eqn:Hplan; [|discriminate].
  destruct (as_decimal_json _) as [requested|e] eqn:Hreq; [|discriminate].
  destruct (select_basic_id c) as [id|] eqn:Hsel.
  - unfold select_basic_id in Hsel.
    destruct (List.find _ (plan_rows c)) as [basic|] eqn:Hfind;
      cbn [fmap option_fmap option_map] in Hsel; [|discriminate].
    injection Hsel as <-.
    unfold update_basic_plan, sbind, slift, or_raise, smodify.
    destruct (mjoin (column_text _)) as [name|] eqn:Hname; [|discriminate].
    destruct (column_decimal (JNum requested)) as [price|] eqn:Hprice;
      [|discriminate].
    cbn [plan_rows set_plan_rows]. intros [= <- <-].
    exists payload, plan, requested, name, price, c, basic.
    repeat split; auto.
  - destruct (seed_plans c) as [c1 [[]|e]] eqn:Hseed; [|discriminate].
    unfold select_basic_id.
    destruct (List.find _ (plan_rows c1)) as [basic|] eqn:Hfind;
      cbn [fmap option_fmap option_map]; [|discriminate].
    unfold update_basic_plan, sbind, slift, or_raise, smodify.
    destruct (mjoin (column_text _)) as [name|] eqn:Hname; [|discriminate].
    destruct (column_decimal (JNum requested)) as [price|] eqn:Hprice;
      [|discriminate].
    cbn [plan_rows set_plan_rows]. intros [= <- <-].
    exists payload, plan, requested, name, price, c1, basic.
    repeat split; auto.
Qed.

(** The active plan [update_plans] leaves when it answers from a
    catalogue that keeps its primary key. *)
Lemma update_plans_active (body : json) (c c' : Catalogue)
    (response : PlansBody * Z) :
  catalogue_ok c ->
  update_plans body c = (c', Returned response) ->
  exists payload plan requested name price c1 basic,
    request_payload body = Returned payload
    /\ plan_payload (default (JArr []) (payload !! "plans")) = Returned plan
    /\ as_decimal_json (json_or (dict_get plan "price") (JNum basic_price))
       = Returned requested
    /\ mjoin (column_text (json_or (dict_get plan "name") (JStr "Basic")))
       = Some name
    /\ column_decimal (JNum requested) = Some price
    /\ catalogue_ok c1 /\ plans_in_use c1 = plans_in_use c
    /\ pl_id <$> plan_rows c' = pl_id <$> plan_rows c1
    /\ next_plan_id c' = next_plan_id c1
    /\ plans_in_use c' = plans_in_use c1
    /\ active_plans c'
       = [mkPlanRow (pl_id basic) name price
                    (json_or (dict_get plan "features") basic_features) 1 1]
    /\ response = (PlansMessage "Plan updated", 200).
Proof.
  intros Hok Hrun.
  destruct (update_plans_answers body c c' response Hrun)
    as (payload & plan & requested & name & price & c1 & basic
        & Hp & Hplan & Hreq & Hname & Hprice & Hc1 & Hfind & -> & ->).
  assert (catalogue_ok c1 /\ plans_in_use c1 = plans_in_use c) as [Hok1 Huse].
  { destruct Hc1 as [-> | [_ Hseed]]; [auto|].
    destruct (seed_plans_ok c c1 Hok Hseed) as (Hok1 & Huse & _). auto. }
  apply find_elem_of in Hfind as [Hin _].
  exists payload, plan, requested, name, price, c1, basic.
  unfold active_plans. cbn [plan_rows set_plan_rows plans_in_use next_plan_id].
  rewrite (one_active_after basic (Some name) _ _ _ (proj1 Hok1) Hin).
  rewrite deactivate_others_ids, update_plan_ids.
  repeat split; try assumption; try reflexivity; apply Hok1.
Qed.

(** X21. Seeding leaves exactly one active plan.  When [seed_plans]
    returns, from any catalogue, one plan is active: it is called Basic
    in some mix of capitals, costs 1999.00, has the five standard
    features and the rank 1.  The primary key is kept and the plans
    referred to are not touched. *)
Theorem seed_plans_one_active (c c' : Catalogue) :
  catalogue_ok c ->
  seed_plans c = (c', Returned tt) ->
  exists r,
    active_plans c' = [r]
    /\ lower (pl_name r) = "basic"
    /\ pl_price r = basic_price
    /\ pl_features r = basic_features
    /\ pl_sort_order r = 1
    /\ catalogue_ok c'
    /\ plans_in_use c' = plans_in_use c.
Proof.
  intros Hok Hrun.
  destruct (seed_plans_returns c c' Hrun)
    as [(basic & Hfind & ->) | (Hfind & _ & ->)].
  - apply find_elem_of in Hfind as [Hin Hname].
    apply String.eqb_eq in Hname.
    eexists. unfold active_plans. cbn [plan_rows set_plan_rows].
    rewrite (one_active_after basic None _ _ _ (proj1 Hok) Hin).
    repeat split; try reflexivity; try exact Hname.
    + unfold catalogue_ok. cbn [plan_rows set_plan_rows].
      rewrite deactivate_others_ids, update_plan_ids. exact (proj1 Hok).
    + apply (catalogue_ok_ids c _ Hok).
      rewrite deactivate_others_ids, update_plan_ids. reflexivity.
  - eexists. unfold active_plans. cbn [plan_rows].
    rewrite filter_cons_True by reflexivity. rewrite filter_nil.
    repeat split; try reflexivity.
    + cbn. apply NoDup_singleton.
    + cbn [plan_rows next_plan_id]. constructor; [cbn; lia | constructor].
Qed.

(** X22. An update leaves exactly one active plan.  When [update_plans]
    answers, one plan is active: it carries the name, the price and the
    features of the request as the store converted them, or Basic,
    1999.00 and the standard features where the request gave none, and
    the rank 1; every other plan is inactive.  The primary key is kept
    and the plans referred to are not touched. *)
Theorem update_plans_one_active (body : json) (c c' : Catalogue)
    (response : PlansBody * Z) :
  catalogue_ok c ->
  update_plans body c = (c', Returned response) ->
  exists payload plan requested r,
    request_payload body = Returned payload
    /\ plan_payload (default (JArr []) (payload !! "plans")) = Returned plan
    /\ as_decimal_json (json_or (dict_get plan "price") (JNum basic_price))
       = Returned requested
    /\ active_plans c' = [r]
    /\ mjoin (column_text (json_or (dict_get plan "name") (JStr "Basic")))
       = Some (pl_name r)
    /\ column_decimal (JNum requested) = Some (pl_price r)
    /\ pl_features r = json_or (dict_get plan "features") basic_features
    /\ pl_sort_order r = 1
    /\ catalogue_ok c'
    /\ plans_in_use c' = plans_in_use c
    /\ response = (PlansMessage "Plan updated", 200).
Proof.
  intros Hok Hrun.
  destruct (update_plans_active body c c' response Hok Hrun)
    as (payload & plan & requested & name & price & c1 & basic
        & Hp & Hplan & Hreq & Hname & Hprice & Hok1 & Huse1 & Hids & Hnext
        & Huse & Hactive & Hresp).
  exists payload, plan, requested.
  eexists. split; [exact Hp|]. split; [exact Hplan|]. split; [exact Hreq|].
  split; [exact Hactive|]. cbn [pl_name pl_price pl_features pl_sort_order].
  repeat split; try assumption; try congruence.
  - rewrite Hids. apply Hok1.
  - destruct Hok1 as [_ Hlt]. rewrite Hnext.
    apply Forall_fmap with (f := pl_id) (P := fun k => k < next_plan_id c1).
    rewrite Hids. apply Forall_fmap. exact Hlt.
Qed.

(** X23. A falsy price is no price.  A request whose price is falsy
    (absent, null, the number zero, the empty text, false) is priced
    like a request without a price: when [update_plans] answers, the
    active plan costs 1999.00 as the store converts it.  Only falsy
    values are replaced; a truthy one, the text "0" included, is the
    price requested. *)
Theorem update_plans_falsy_price (body : json) (payload plan : gmap string json)
    (c c' : Catalogue) (response : PlansBody * Z) :
  catalogue_ok c ->
  request_payload body = Returned payload ->
  plan_payload (default (JArr []) (payload !! "plans")) = Returned plan ->
  truthy (dict_get plan "price") = false ->
  update_plans body c = (c', Returned response) ->
  exists r,
    active_plans c' = [r]
    /\ column_decimal (JNum basic_price) = Some (pl_price r).
Proof.
  intros Hok Hp Hplan Hfalsy Hrun.
  destruct (update_plans_active body c c' response Hok Hrun)
    as (payload' & plan' & requested & name & price & c1 & basic
        & Hp' & Hplan' & Hreq & _ & Hprice & _ & _ & _ & _ & _ & Hactive & _).
  rewrite Hp in Hp'. injection Hp' as <-.
  rewrite Hplan in Hplan'. injection Hplan' as <-.
  unfold json_or in Hreq. rewrite Hfalsy in Hreq.
  cbn [as_decimal_json] in Hreq. injection Hreq as <-.
  eexists. split; [exact Hactive | exact Hprice].
Qed.

Lemma insert_by_order_perm (r : PlanRow) (rows : list PlanRow) :
  insert_by_order r rows ≡ₚ r :: rows.
Proof.
  induction rows as [|x rows IH]; [reflexivity|].
  cbn [insert_by_order]. destruct (pl_sort_order r <=? pl_sort_order x);
    [reflexivity|].
  rewrite IH. apply Permutation_swap.
Qed.

Lemma order_by_sort_order_perm (rows : list PlanRow) :
  order_by_sort_order rows ≡ₚ rows.
Proof.
  induction rows as [|r rows IH]; [reflexivity|].
  cbn [order_by_sort_order foldr]. rewrite insert_by_order_perm.
  constructor. exact IH.
Qed.

Lemma insert_by_order_ranked (r : PlanRow) (rows : list PlanRow) :
  ranked rows -> ranked (insert_by_order r rows).
Proof.
  induction rows as [|x rows IH]; intros Hr; [cbn; auto|].
  cbn [insert_by_order].
  destruct (Z.leb_spec (pl_sort_order r) (pl_sort_order x)) as [Hle | Hgt].
  - cbn [ranked] in *. destruct Hr as [Hx Hrest]. split; [|auto].
    constructor; [exact Hle|].
    eapply Forall_impl; [exact Hx|]. cbn. intros; lia.
  - cbn [ranked] in *. destruct Hr as [Hx Hrest]. split; [|auto].
    rewrite insert_by_order_perm. constructor; [lia | exact Hx].
Qed.

Lemma order_by_sort_order_ranked (rows : list PlanRow) :
  ranked (order_by_sort_order rows).
Proof.
  induction rows as [|r rows IH]; [exact I|].
  cbn [order_by_sort_order foldr]. apply insert_by_order_ranked. exact IH.
Qed.

Lemma select_active_plans_nil (c : Catalogue) :
  select_active_plans c = [] <-> active_plans c = [].
Proof.
  unfold select_active_plans. fold (active_plans c).
  pose proof (order_by_sort_order_perm (active_plans c)) as Hperm.
  split; intros Hnil.
  - rewrite Hnil in Hperm. apply Permutation_nil in Hperm. exact Hperm.
  - rewrite Hnil. reflexivity.
Qed.

(** X24. The list of plans is never empty.  When [list_plans] answers,
    it lists the active plans of the catalogue it leaves, each once, in
    the order of their rank, and there is at least one: a catalogue
    without an active plan is seeded first, and any other is left as it
    is. *)
Theorem list_plans_lists_active (c c' : Catalogue) (response : PlansBody * Z) :
  catalogue_ok c ->
  list_plans c = (c', Returned response) ->
  exists listed,
    response = (PlansList (plan_record <$> listed), 200)
    /\ listed <> []
    /\ listed ≡ₚ active_plans c'
    /\ ranked listed
    /\ (active_plans c <> [] -> c' = c)
    /\ (active_plans c = [] -> seed_plans c = (c', Returned tt)).
Proof.
  intros Hok. unfold list_plans, sbind, squery, sret.
  destruct (select_active_plans c) as [|r rows] eqn:Hsel.
  - destruct (seed_plans c) as [c1 [[]|e]] eqn:Hseed; [|discriminate].
    intros [= <- <-].
    destruct (seed_plans_ok c c1 Hok Hseed) as (_ & _ & Hactive).
    exists (select_active_plans c1).
    split; [reflexivity|]. split.
    { intros Hnil. apply select_active_plans_nil in Hnil. contradiction. }
    split; [apply order_by_sort_order_perm|].
    split; [apply order_by_sort_order_ranked|].
    apply select_active_plans_nil in Hsel. split; [contradiction | auto].
  - intros [= <- <-]. exists (r :: rows).
    split; [reflexivity|]. split; [discriminate|].
    rewrite <- Hsel.
    split; [apply order_by_sort_order_perm|].
    split; [apply order_by_sort_order_ranked|].
    split; [reflexivity|].
    intros Hnil. apply select_active_plans_nil in Hnil. congruence.
Qed.

(** The rows after [seed_plans], returned or raised: the same plans, or
    one new plan in place of plans none of which was referred to. *)
Lemma seed_plans_rows (c : Catalogue) :
  let c' := fst (seed_plans c) in
  plans_in_use c' = plans_in_use c
  /\ ((pl_id <$> plan_rows c' = pl_id <$> plan_rows c
       /\ next_plan_id c' = next_plan_id c)
      \/ (Forall (fun r => pl_id r ∉ plans_in_use c) (plan_rows c)
          /\ pl_id <$> plan_rows c' = [next_plan_id c]
          /\ next_plan_id c' = next_plan_id c + 1)).
Proof.
  cbv zeta. destruct (seed_plans c) as [c1 [[]|e]] eqn:Hseed.
  - destruct (seed_plans_returns c c1 Hseed)
      as [(basic & _ & ->) | (_ & Huse & ->)]; cbn [fst].
    + split; [reflexivity|]. left. cbn [plan_rows set_plan_rows next_plan_id].
      rewrite deactivate_others_ids, update_plan_ids. auto.
    + split; [reflexivity|]. right. auto.
  - revert Hseed. unfold seed_plans, sbind, squery, smodify.
    destruct (List.find _ (plan_rows c)); [discriminate|].
    unfold delete_plans. destruct (existsb _ (plan_rows c)); [|discriminate].
    intros [= <- <-]. cbn [fst]. auto.
Qed.

(** X25. No request removes a plan that is referred to.  After
    [update_plans] and after [list_plans], answered or failed, the
    catalogue holds the plans it held, under the same identifiers, or,
    when none of them was referred to by an invoice or a client, a
    single new plan in their place. *)
Theorem plans_in_use_kept (body : json) (c : Catalogue) (c' : Catalogue) :
  c' = fst (update_plans body c) \/ c' = fst (list_plans c) ->
  plans_in_use c' = plans_in_use c
  /\ ((pl_id <$> plan_rows c' = pl_id <$> plan_rows c
       /\ next_plan_id c' = next_plan_id c)
      \/ (Forall (fun r => pl_id r ∉ plans_in_use c) (plan_rows c)
          /\ pl_id <$> plan_rows c' = [next_plan_id c]
          /\ next_plan_id c' = next_plan_id c + 1)).
Proof.
  pose proof (seed_plans_rows c) as Hseed. cbv zeta in Hseed.
  intros [-> | ->].
  - unfold update_plans, sbind, slift, squery, sret.
    destruct (request_payload body) as [payload|e]; [|cbn [fst]; auto].
    destruct (plan_payload _) as [plan|e]; [|cbn [fst]; auto].
    destruct (as_decimal_json _) as [requested|e]; [|cbn [fst]; auto].
    assert (forall c1 id,
              let c2 := fst (match update_basic_plan id
                                     (json_or (dict_get plan "name") (JStr "Basic"))
                                     requested
                                     (json_or (dict_get plan "features") basic_features)
                                     c1 with
                             | (c2, Returned _) =>
                                 match smodify (deactivate_others id) c2 with
                                 | (c3, Returned _) =>
                                     (c3, Returned (PlansMessage "Plan updated", 200))
                                 | (c3, Raised e) => (c3, Raised e)
                                 end
                             | (c2, Raised e) => (c2, Raised e)
                             end) in
              plans_in_use c2 = plans_in_use c1
              /\ pl_id <$> plan_rows c2 = pl_id <$> plan_rows c1
              /\ next_plan_id c2 = next_plan_id c1) as Hupdate.
    { intros c1 id. cbv zeta.
      unfold update_basic_plan, sbind, slift, or_raise, smodify.
      destruct (mjoin (column_text _)); [|cbn [fst]; auto].
      destruct (column_decimal (JNum requested)); [|cbn [fst]; auto].
      cbn [fst plan_rows set_plan_rows plans_in_use next_plan_id].
      rewrite deactivate_others_ids, update_plan_ids. auto. }
    destruct (select_basic_id c) as [id|].
    + destruct (Hupdate c id) as (Hu & Hi & Hn). rewrite Hu, Hi, Hn. auto.
    + destruct (seed_plans c) as [c1 [[]|e]]; cbn [fst] in *; [|exact Hseed].
      destruct (select_basic_id c1) as [id|]; [|exact Hseed].
      destruct (Hupdate c1 id) as (Hu & Hi & Hn). rewrite Hu, Hi, Hn. exact Hseed.
  - unfold list_plans, sbind, squery, sret.
    destruct (select_active_plans c); [|cbn [fst]; auto].
    destruct (seed_plans c) as [c1 [[]|e]]; cbn [fst] in *; exact Hseed.
Qed.

(** X26. After a rename the catalogue cannot be updated.  When no plan
    is called Basic any more, neither for the store nor in small
    letters, and a plan is referred to by an invoice or a client, a
    well-formed update fails at the DELETE of [seed_plans] and changes
    nothing. *)
Theorem update_plans_after_rename (body : json) (payload plan : gmap string json)
    (requested : Decimal) (c : Catalogue) (used : PlanRow) :
  request_payload body = Returned payload ->
  plan_payload (default (JArr []) (payload !! "plans")) = Returned plan ->
  as_decimal_json (json_or (dict_get plan "price") (JNum basic_price))
  = Returned requested ->
  Forall (fun r => text_equal (pl_name r) "Basic" = false) (plan_rows c) ->
  Forall (fun r => lower (pl_name r) <> "basic") (plan_rows c) ->
  used ∈ plan_rows c -> pl_id used ∈ plans_in_use c ->
  update_plans body c = (c, Raised "mysql.connector.IntegrityError").
Proof.
  intros Hp Hplan Hreq Hsql Hlower Hin Huse.
  unfold update_plans, sbind, slift, squery, sret. rewrite Hp, Hplan, Hreq.
  assert (select_basic_id c = None) as ->.
  { unfold select_basic_id.
    destruct (List.find _ (plan_rows c)) as [r|] eqn:Hfind; [|reflexivity].
    apply find_elem_of in Hfind as [Hr Ht].
    rewrite Forall_forall in Hsql. rewrite (Hsql r Hr) in Ht. discriminate. }
  assert (seed_plans c = (c, Raised "mysql.connector.IntegrityError")) as ->;
    [|reflexivity].
  unfold seed_plans, sbind, squery.
  destruct (List.find _ (plan_rows c)) as [r|] eqn:Hfind.
  { apply find_elem_of in Hfind as [Hr Ht]. apply String.eqb_eq in Ht.
    rewrite Forall_forall in Hlower. destruct (Hlower r Hr Ht). }
  unfold delete_plans.
  assert (existsb (fun r => bool_decide (pl_id r ∈ plans_in_use c)) (plan_rows c)
          = true) as ->; [|reflexivity].
  apply existsb_exists. exists used. split; [apply list_elem_of_In; exact Hin|].
  apply bool_decide_eq_true. exact Huse.
Qed.
End CatalogueProps.

Lemma catalogue_ok_mixed : catalogue_ok mixed_catalogue.
Proof.
  split.
  - cbn. repeat (apply NoDup_cons; split;
                 [rewrite ?elem_of_cons, elem_of_nil; intuition discriminate|]).
    apply NoDup_nil_2.
  - repeat constructor.
Qed.

Lemma catalogue_ok_seeded : catalogue_ok seeded_catalogue.
Proof.
  split; [cbn; apply NoDup_singleton | repeat constructor].
Qed.

Lemma seed_plans_one_active_witness :
  exists r,
    active_plans (fst (seed_plans mixed_catalogue)) = [r]
    /\ lower (pl_name r) = "basic"
    /\ pl_price r = basic_price
    /\ pl_features r = basic_features
    /\ pl_sort_order r = 1
    /\ catalogue_ok (fst (seed_plans mixed_catalogue))
    /\ plans_in_use (fst (seed_plans mixed_catalogue)) = plans_in_use mixed_catalogue.
Proof.
  apply (seed_plans_one_active mixed_catalogue); [exact catalogue_ok_mixed|].
  vm_compute. reflexivity.
Defined.

Lemma update_plans_one_active_witness :
  exists r,
    active_plans (fst (update_plans (H:=offline) (H0:=letters_ci)
                         (price_request (JStr "2499.5")) seeded_catalogue)) = [r]
    /\ pl_price r = mkDecimal 249950 (-2)
    /\ pl_name r = "Basic".
Proof.
  destruct (update_plans_one_active (H:=offline) (H0:=letters_ci)
              (price_request (JStr "2499.5")) seeded_catalogue
              (fst (update_plans (H:=offline) (H0:=letters_ci)
                      (price_request (JStr "2499.5")) seeded_catalogue))
              (PlansMessage "Plan updated", 200) catalogue_ok_seeded)
    as (payload & plan & requested & r & Hp & Hplan & Hreq & Hactive & Hname
        & Hprice & _); [vm_compute; reflexivity|].
  exists r. split; [exact Hactive|].
  vm_compute in Hp. injection Hp as <-.
  vm_compute in Hplan. injection Hplan as <-.
  vm_compute in Hreq. injection Hreq as <-.
  vm_compute in Hprice, Hname.
  injection Hprice as Hprice. injection Hname as Hname.
  split; symmetry; assumption.
Defined.

Lemma update_plans_falsy_price_witness :
  exists r,
    active_plans (fst (update_plans (H:=offline) (H0:=letters_ci)
                         (price_request (JNum (mkDecimal 0 0))) seeded_catalogue))
    = [r]
    /\ Some basic_price = Some (pl_price r).
Proof.
  apply (update_plans_falsy_price (H:=offline) (H0:=letters_ci)
           (price_request (JNum (mkDecimal 0 0)))
           (dict_of_members [("plans", JArr [JObj [("price", JNum (mkDecimal 0 0))]])])
           (dict_of_members [("price", JNum (mkDecimal 0 0))])
           seeded_catalogue _ (PlansMessage "Plan updated", 200)
           catalogue_ok_seeded); vm_compute; reflexivity.
Defined.

Lemma list_plans_lists_active_witness :
  exists listed,
    snd (list_plans empty_catalogue)
    = Returned (PlansList (plan_record <$> listed), 200)
    /\ listed <> [].
Proof.
  destruct (list_plans_lists_active empty_catalogue (fst (list_plans empty_catalogue))
              (PlansList (plan_record <$> active_plans (fst (list_plans empty_catalogue))),
               200))
    as (listed & Hresp & Hne & _).
  - split; [apply NoDup_nil_2 | constructor].
  - vm_compute. reflexivity.
  - exists listed. split; [|exact Hne]. rewrite <- Hresp. vm_compute. reflexivity.
Defined.

Lemma plans_in_use_kept_witness :
  pl_id <$> plan_rows after_rename = [1] /\ plans_in_use after_rename = {[ 1 ]}.
Proof.
  destruct (plans_in_use_kept (H:=offline) (H0:=letters_ci) (rename_request "Pro")
              seeded_catalogue after_rename (or_introl eq_refl))
    as (Huse & [[Hids _] | (Hfree & _)]).
  - split; [exact Hids | exact Huse].
  - exfalso. apply Forall_cons in Hfree as [Hfree _]. apply Hfree.
    cbn. set_solver.
Defined.

Lemma update_plans_after_rename_witness :
  update_plans (H:=offline) (H0:=letters_ci) (price_request (JNum (mkDecimal 999 0)))
               after_rename
  = (after_rename, Raised "mysql.connector.IntegrityError").
Proof.
  apply (update_plans_after_rename (H:=offline) (H0:=letters_ci)
           (price_request (JNum (mkDecimal 999 0)))
           (dict_of_members [("plans", JArr [JObj [("price", JNum (mkDecimal 999 0))]])])
           (dict_of_members [("price", JNum (mkDecimal 999 0))])
           (mkDecimal 999 0) after_rename
           (mkPlanRow 1 "Pro" basic_price basic_features 1 1)).
  - vm_compute. reflexivity.
  - vm_compute. reflexivity.
  - vm_compute. reflexivity.
  - repeat constructor.
  - repeat constructor; vm_compute; discriminate.
  - vm_compute. left.
  - vm_compute. set_solver.
Defined.

(** ** Reading invoices back *)

Section ReadingBack.
Context `{Platform} `{Collation} `{Calendar}.

Lemma drop_prefix_append (prefix rest : string) :
  drop_prefix prefix (prefix +:+ rest) = Some rest.
Proof.
  induction prefix as [|c prefix IH]; [destruct rest; reflexivity|].
  rewrite append_cons. cbn [drop_prefix]. rewrite Ascii.eqb_refl. exact IH.
Qed.

Lemma invoice_file_route_location (t : datetime) (lead_id : option Z) :
  invoice_file_route ("/files/invoices/" +:+ pdf_filename_of t lead_id)
  = Some (pdf_filename_of t lead_id).
Proof.
  unfold invoice_file_route. rewrite drop_prefix_append.
  unfold pdf_filename_of. cbv [String.append]. reflexivity.
Qed.

Lemma right_column_invoice_number (clock : Clock) (t : datetime)
    (invoice : InvoiceDetails) :
  d_invoice_number invoice <> "" ->
  d_invoice_number invoice ∈ right_column_texts (right_fields clock t invoice).
Proof.
  intros Hne. unfold right_column_texts, right_fields. cbn [flat_map fst snd app].
  apply elem_of_cons. right. apply elem_of_cons. left. cbn [str_or].
  destruct (String.eqb_spec (d_invoice_number invoice) "") as [He | _];
    [contradiction | reflexivity].
Qed.

(** X27. The location of a created invoice can be fetched.  After a 201
    answer the location recorded on the new row is a path of the file
    route, and asking the route for it sends the page that was just
    written, with the invoice number on it; the download flag only
    chooses between showing and saving. *)
Theorem created_invoice_is_served (clock : Clock) (host_url : option string)
    (body : json) (w w' : World) (record : gmap string pyvalue)
    (download : option string) :
  create_invoice clock host_url body w = (w', Returned (InvoiceBody record, 201)) ->
  exists row url name page,
    last (invoices w') = Some row
    /\ i_pdf_url row = Some url
    /\ invoice_file_route url = Some name
    /\ serve_invoice_pdf name download w'
       = (w', Returned (FileSent page (download_flag download)))
    /\ i_invoice_number row ∈ page_texts page.
Proof.
  intros Hrun.
  destruct (create_invoice_world clock host_url body w)
    as [[_ Hno] | [(_ & _ & Hraise)
                   | (_ & payload & row & lead & plan & page & cache & Hc)]].
  - rewrite Hrun in Hno. destruct (Hno record 201). reflexivity.
  - rewrite Hrun in Hraise. discriminate.
  - cbv zeta in Hc.
    destruct Hc as (_ & _ & _ & _ & Hnum & _ & _ & _ & _
                    & (neigh_logo & qr_image & Hpage) & Hw & _).
    rewrite Hrun in Hw. cbn [fst] in Hw. subst w'.
    eexists _, _, _, page. cbn [invoices].
    split; [apply last_snoc|]. split; [reflexivity|].
    split; [apply invoice_file_route_location|].
    split.
    + unfold serve_invoice_pdf, query. cbn [files].
      rewrite lookup_insert_eq. reflexivity.
    + cbn [with_pdf_url i_invoice_number]. rewrite Hpage.
      rewrite page_texts_invoice_page.
      match goal with |- context [right_fields ?c ?t ?d] =>
        pose proof (right_column_invoice_number c t d) as Hin end.
      cbn [set_plan_price details_of d_invoice_number] in Hin.
      assert (i_invoice_number row <> "") as Hne.
      { rewrite Hnum. unfold next_invoice_number, strftime_INV_Y_m. cbv zeta.
        cbv [String.append]. discriminate. }
      specialize (Hin Hne). rewrite !elem_of_app. tauto.
Qed.

Lemma key_leb_total (a b : list Z) :
  key_leb a b = false -> key_leb b a = true.
Proof.
  revert b. induction a as [|x a IH]; intros [|y b]; try discriminate.
  cbn [key_leb]. intros Hab.
  apply orb_false_elim in Hab as [Hlt Hrest].
  apply andb_false_iff in Hrest as [Hne | Hrest].
  - apply orb_true_iff. left. apply Z.ltb_lt.
    apply Z.ltb_ge in Hlt. apply Z.eqb_neq in Hne. lia.
  - destruct (Z.ltb_spec y x) as [_ | Hge]; [reflexivity|].
    apply Z.ltb_ge in Hlt. assert (x = y) as -> by lia.
    rewrite Z.eqb_refl. cbn [orb andb]. exact (IH b Hrest).
Qed.

Lemma key_leb_trans (a b c : list Z) :
  length a = length b -> length b = length c ->
  key_leb a b = true -> key_leb b c = true -> key_leb a c = true.
Proof.
  revert b c. induction a as [|x a IH]; intros [|y b] [|z c] Hab Hbc;
    try discriminate; try reflexivity.
  cbn [key_leb length] in *. intros Hxy Hyz.
  apply orb_true_iff in Hxy as [Hxy | Hxy];
    apply orb_true_iff in Hyz as [Hyz | Hyz];
    rewrite ?andb_true_iff, ?Z.ltb_lt, ?Z.eqb_eq in *.
  - apply orb_true_iff. left. apply Z.ltb_lt. lia.
  - destruct Hyz as [-> _]. apply orb_true_iff. left. apply Z.ltb_lt. lia.
  - destruct Hxy as [-> _]. apply orb_true_iff. left. apply Z.ltb_lt. lia.
  - destruct Hxy as [-> Hxy], Hyz as [-> Hyz]. apply orb_true_iff. right.
    rewrite Z.eqb_refl. apply (IH b c); auto.
Qed.

Lemma datetime_leb_trans (a b c : datetime) :
  datetime_leb a b = true -> datetime_leb b c = true -> datetime_leb a c = true.
Proof. apply key_leb_trans; reflexivity. Qed.

Lemma insert_newest_first_perm (row : Joined) (rows : list Joined) :
  insert_newest_first row rows ≡ₚ row :: rows.
Proof.
  induction rows as [|x rows IH]; [reflexivity|].
  cbn [insert_newest_first]. destruct (datetime_leb _ _); [reflexivity|].
  rewrite IH. apply Permutation_swap.
Qed.

Lemma newest_first_perm (rows : list Joined) : newest_first rows ≡ₚ rows.
Proof.
  induction rows as [|r rows IH]; [reflexivity|].
  cbn [newest_first foldr]. rewrite insert_newest_first_perm.
  constructor. exact IH.
Qed.

Lemma insert_newest_first_order (row : Joined) (rows : list Joined) :
  newest_first_order rows -> newest_first_order (insert_newest_first row rows).
Proof.
  induction rows as [|x rows IH]; intros Hr; [cbn; auto|].
  cbn [insert_newest_first].
  destruct (datetime_leb (i_generated_at x.1.1) (i_generated_at row.1.1)) eqn:Hle.
  - cbn [newest_first_order] in *. destruct Hr as [Hx Hrest]. split; [|auto].
    constructor; [exact Hle|].
    eapply Forall_impl; [exact Hx|]. cbn. intros y Hy.
    exact (datetime_leb_trans _ _ _ Hy Hle).
  - cbn [newest_first_order] in *. destruct Hr as [Hx Hrest]. split; [|auto].
    rewrite insert_newest_first_perm. constructor; [|exact Hx].
    apply key_leb_total. exact Hle.
Qed.

Lemma newest_first_ordered (rows : list Joined) :
  newest_first_order (newest_first rows).
Proof.
  induction rows as [|r rows IH]; [exact I|].
  cbn [newest_first foldr]. apply insert_newest_first_order. exact IH.
Qed.

(** The money columns of a listed row are decimals and its location is a
    text or NULL. *)
Lemma listed_dict_money (row : Joined) (field : string) (value : pyvalue) :
  field ∈ numeric_fields -> listed_dict row !! field = Some value ->
  exists d, value = PDecimal d.
Proof.
  destruct row as [[inv lead] plan]. unfold numeric_fields.
  rewrite !elem_of_cons, elem_of_nil.
  intros [-> | [-> | [-> | [-> | [-> | [-> | [-> | []]]]]]]];
    intros [= <-]; eexists; reflexivity.
Qed.

Lemma listed_dict_serializes (host_url : option string) (row : Joined) :
  exists record, serialize_invoice_record host_url (listed_dict row) = Returned record.
Proof.
  apply serialize_invoice_record_total.
  - intros field value Hin Hv.
    destruct (listed_dict_money row field value Hin Hv) as [d ->].
    exists d. reflexivity.
  - destruct row as [[inv lead] plan]. unfold record_get.
    replace (listed_dict (inv, lead, plan) !! "pdf_url")
      with (Some (opt_value PStr (i_pdf_url inv))) by reflexivity.
    destruct (i_pdf_url inv) as [path|]; cbn [opt_value default py_truthy];
      [eauto | discriminate].
Qed.

Lemma serialize_invoice_records_returns (host_url : option string)
    (rows : list Joined) :
  exists records,
    serialize_invoice_records host_url (map listed_dict rows) = Returned records
    /\ Forall2 (fun row record =>
                  serialize_invoice_record host_url (listed_dict row)
                  = Returned record) rows records.
Proof.
  induction rows as [|row rows (records & Hrun & Hall)].
  - exists []. split; [reflexivity | constructor].
  - destruct (listed_dict_serializes host_url row) as [record Hrecord].
    exists (record :: records). cbn [map serialize_invoice_records].
    rewrite Hrecord, Hrun. split; [reflexivity|]. constructor; assumption.
Qed.

(** X28. A listing changes nothing and fails only at a date the store
    refuses.  For a search of ASCII characters, [list_invoices] answers
    exactly when each date parameter is absent, empty or accepted by the
    store, and raises otherwise; either way the store is as it was.  The
    rows of an answer are those of the join of the invoices with their
    client and plan that the query selects, each once, newest first, and
    every record is the serialization of its row.  A search that is
    absent or blank and dates that are absent or empty select every
    row. *)
Theorem list_invoices_answers (host_url : option string) (q : InvoiceQuery)
    (w : World) :
  (forall search, q_search q = Some search -> ascii_text search) ->
  let run := list_invoices host_url q w in
  let accepted :=
    date_parameter_ok (q_generated_from q) && date_parameter_ok (q_generated_to q) in
  fst run = w
  /\ (accepted = false -> exists e, snd run = Raised e)
  /\ (accepted = true ->
      exists rows records,
        snd run = Returned records
        /\ rows ≡ₚ filter (fun row =>
                             matches_query
                               (sanitize_string (opt_value PStr (q_search q)))
                               (q_generated_from q) (q_generated_to q) row = true)
                          (joined_invoices w)
        /\ newest_first_order rows
        /\ Forall2 (fun row record =>
                      serialize_invoice_record host_url (listed_dict row)
                      = Returned record) rows records
        /\ (sanitize_string (opt_value PStr (q_search q)) = None ->
            not_given (q_generated_from q) -> not_given (q_generated_to q) ->
            rows ≡ₚ joined_invoices w)).
Proof.
  intros _. cbv zeta. unfold list_invoices, hbind, query, lift, raise.
  destruct (date_parameter_ok (q_generated_from q)
            && date_parameter_ok (q_generated_to q)) eqn:Hdates.
  2:{ split; [reflexivity|]. split; [eexists; reflexivity | discriminate]. }
  set (selected := filter _ (joined_invoices w)).
  destruct (serialize_invoice_records_returns host_url (newest_first selected))
    as (records & Hrun & Hall).
  rewrite Hrun. split; [reflexivity|]. split; [discriminate|]. intros _.
  exists (newest_first selected), records.
  split; [reflexivity|].
  split; [apply newest_first_perm|].
  split; [apply newest_first_ordered|].
  split; [exact Hall|].
  intros Hsearch Hfrom Hto. rewrite newest_first_perm. subst selected.
  rewrite Hsearch.
  assert (forall row, matches_query None (q_generated_from q) (q_generated_to q) row
                      = true) as Hall_rows.
  { intros [[inv lead] plan]. unfold matches_query.
    destruct Hfrom as [-> | ->], Hto as [-> | ->]; reflexivity. }
  rewrite filter_all; [reflexivity|].
  apply Forall_forall. intros row _. apply Hall_rows.
Qed.
End ReadingBack.

Lemma list_invoices_answers_witness :
  fst (list_invoices (H:=offline) (H0:=letters_ci) (H1:=plain_calendar)
         None asha_query (fst discount_invoice)) = fst discount_invoice
  /\ (exists records,
        snd (list_invoices (H:=offline) (H0:=letters_ci) (H1:=plain_calendar)
               None asha_query (fst discount_invoice)) = Returned records
        /\ length records = 1%nat)
  /\ (exists e,
        snd (list_invoices (H:=offline) (H0:=letters_ci) (H1:=plain_calendar)
               None refused_query (fst discount_invoice)) = Raised e).
Proof.
  assert (forall search, q_search asha_query = Some search -> ascii_text search)
    as Hascii by (intros search [= <-]; reflexivity).
  destruct (list_invoices_answers (H:=offline) (H0:=letters_ci) (H1:=plain_calendar)
              None asha_query (fst discount_invoice) Hascii)
    as (Hsame & _ & Hanswer).
  split; [exact Hsame|]. split.
  - destruct (Hanswer eq_refl) as (rows & records & Hrun & Hrows & _ & Hall & _).
    exists records. split; [exact Hrun|].
    rewrite <- (Forall2_length _ _ _ Hall), Hrows. vm_compute. reflexivity.
  - apply (list_invoices_answers (H:=offline) (H0:=letters_ci) (H1:=plain_calendar)
             None refused_query (fst discount_invoice)).
    + intros search [=].
    + reflexivity.
Defined.

Section Consistency.
Context `{Platform} `{Collation} `{Calendar}.

(** Two rows that agree on a column are serialized alike on it. *)
Lemma serialize_invoice_record_agree (host_url : option string)
    (a b ra rb : gmap string pyvalue) (key : string) :
  serialize_invoice_record host_url a = Returned ra ->
  serialize_invoice_record host_url b = Returned rb ->
  a !! key = b !! key -> ra !! key = rb !! key.
Proof.
  intros Ha Hb Hkey.
  destruct (serialize_invoice_record_spec _ _ _ Ha)
    as (Htimes_a & Hurl_a & [ua Hsome_a] & Hother_a & _).
  destruct (serialize_invoice_record_spec _ _ _ Hb)
    as (Htimes_b & Hurl_b & [ub Hsome_b] & Hother_b & _).
  destruct (decide (key ∈ stamp_keys)) as [Hstamp | Hstamp].
  - unfold stamp_keys in Hstamp. rewrite !elem_of_cons, elem_of_nil in Hstamp.
    destruct Hstamp as [-> | [-> | [-> | [-> | []]]]].
    1-3: rewrite Htimes_a, Htimes_b by (rewrite !elem_of_cons; auto);
         unfold record_get; rewrite Hkey; reflexivity.
    unfold record_get in Hurl_a, Hurl_b.
    rewrite Hsome_a in Hurl_a. rewrite Hsome_b in Hurl_b.
    rewrite Hkey in Hurl_a. rewrite Hurl_a in Hurl_b.
    cbn [default from_option id] in Hurl_b. rewrite Hsome_a, Hsome_b. congruence.
  - destruct (decide (key ∈ numeric_fields)) as [Hnum | Hnum].
    + pose proof (serialize_invoice_record_numeric _ _ _ key Ha Hnum) as Hna.
      pose proof (serialize_invoice_record_numeric _ _ _ key Hb Hnum) as Hnb.
      rewrite Hkey in Hna.
      destruct (b !! key) as [value|]; [|congruence].
      destruct Hna as (d & Hd & ->). destruct Hnb as (d' & Hd' & ->).
      congruence.
    + rewrite Hother_a, Hother_b by assumption. exact Hkey.
Qed.

Lemma Forall2_elem_of_l {A B} (R : A -> B -> Prop) (l : list A) (k : list B) (x : A) :
  Forall2 R l k -> x ∈ l -> exists y, y ∈ k /\ R x y.
Proof.
  induction 1 as [|a b l k Hab _ IH]; intros Hin; [inversion Hin|].
  apply elem_of_cons in Hin as [-> | Hin].
  - exists b. split; [left | exact Hab].
  - destruct (IH Hin) as (y & Hy & Hxy). exists y. split; [right; exact Hy | exact Hxy].
Qed.

(** The columns of a listed row, as the creation response holds them. *)
Lemma listed_dict_details (inv : Invoice) (lead : Lead) (plan : Plan)
    (t : datetime) (key : string) :
  is_Some (listed_dict (inv, lead, plan) !! key) ->
  key = "generated_at"
  \/ listed_dict (inv, lead, plan) !! key
     = details_dict (set_generated_at
                       (set_plan_price (details_of inv lead plan)
                                       (Some (p_price plan)))
                       (Some t)) !! key.
Proof.
  intros [value Hv]. unfold listed_dict in Hv.
  apply elem_of_list_to_map_2 in Hv.
  rewrite !elem_of_cons, elem_of_nil in Hv.
  repeat (destruct Hv as [[= -> ->] | Hv]; [first [left; reflexivity | right; reflexivity]|]).
  destruct Hv.
Qed.

(** X29. A created invoice is listed as it was answered.  After a 201
    answer, a listing without parameters holds a record for the new
    invoice that agrees with the creation response on every column a
    listing has: the same number, the same amounts as binary floats, the
    same location, the same generation time. *)
Theorem created_invoice_is_listed (clock : Clock) (host_url : option string)
    (body : json) (w w' : World) (record : gmap string pyvalue) :
  create_invoice clock host_url body w = (w', Returned (InvoiceBody record, 201)) ->
  exists records listed,
    list_invoices host_url no_query w' = (w', Returned records)
    /\ listed ∈ records
    /\ listed !! "invoice_number"
       = Some (PStr (next_invoice_number clock w))
    /\ (forall key, is_Some (listed !! key) -> listed !! key = record !! key).
Proof.
  intros Hrun.
  destruct (create_invoice_world clock host_url body w)
    as [[_ Hno] | [(_ & _ & Hraise)
                   | (_ & payload & row & lead & plan & page & cache & Hc)]].
  { rewrite Hrun in Hno. destruct (Hno record 201). reflexivity. }
  { rewrite Hrun in Hraise. discriminate. }
  cbv zeta in Hc.
  destruct Hc as (_ & _ & _ & _ & Hnum & _ & Hgen & Hlead & Hplan & _ & Hw & Hresp).
  rewrite Hrun in Hw, Hresp. cbn [fst snd] in Hw, Hresp.
  set (t := default (now_ist clock)
              (to_ist_datetime (Some (current_timestamp clock)))) in *.
  set (url := "/files/invoices/" +:+ pdf_filename_of t (Some (i_lead_id row))) in *.
  set (details := set_pdf_url _ (Some url)) in Hresp.
  destruct (serialize_invoice_record host_url (details_dict details))
    as [response|e] eqn:Hser; [|discriminate].
  cbn [obind] in Hresp. injection Hresp as ->.
  set (row' := with_pdf_url (Some url) row) in *.
  destruct (serialize_invoice_records_returns host_url
              (newest_first (joined_invoices w')))
    as (records & Hruns & Hall).
  assert (list_invoices host_url no_query w' = (w', Returned records)) as Hlist.
  { unfold list_invoices, hbind, query, lift.
    cbn [no_query q_search q_generated_from q_generated_to opt_value
         date_parameter_ok andb].
    rewrite filter_all; [rewrite Hruns; reflexivity|].
    apply Forall_forall. intros [[inv l] p] _. reflexivity. }
  assert ((row', lead, plan) ∈ newest_first (joined_invoices w')) as Hin.
  { rewrite newest_first_perm. unfold joined_invoices. subst w'. cbn [invoices].
    rewrite omap_app. apply elem_of_app. right.
    cbn [omap list_omap]. unfold join_invoice. cbn [leads plans].
    subst row'. cbn [with_pdf_url i_lead_id i_plan_id]. rewrite Hlead, Hplan.
    left. }
  destruct (Forall2_elem_of_l _ _ _ _ Hall Hin) as (listed & Hlisted & Hrow).
  exists records, listed. split; [exact Hlist|]. split; [exact Hlisted|].
  destruct (serialize_invoice_record_spec _ _ _ Hrow)
    as (Htimes_l & _ & _ & Hother_l & Hdom_l).
  destruct (serialize_invoice_record_spec _ _ _ Hser) as (Htimes_r & _).
  split.
  - rewrite Hother_l by
      (unfold numeric_fields, stamp_keys; rewrite !elem_of_cons, elem_of_nil;
       intuition discriminate).
    subst row'. cbn. rewrite Hnum. reflexivity.
  - intros key Hsome.
    destruct (decide (key = "generated_at")) as [-> | Hne].
    { rewrite Htimes_l, Htimes_r by (rewrite !elem_of_cons; auto).
      unfold record_get. subst details row'. cbn. rewrite Hgen. reflexivity. }
    apply (serialize_invoice_record_agree host_url
             (listed_dict (row', lead, plan)) (details_dict details));
      [exact Hrow | exact Hser |].
    destruct (Hdom_l key Hsome) as [Hcol | Hstamp].
    + destruct (listed_dict_details row' lead plan t key Hcol) as [-> | Hcols];
        [contradiction|].
      rewrite Hcols. reflexivity.
    + unfold stamp_keys in Hstamp. rewrite !elem_of_cons, elem_of_nil in Hstamp.
      destruct Hstamp as [-> | [-> | [-> | [-> | []]]]];
        [contradiction | reflexivity..].
Qed.
End Consistency.

Lemma created_invoice_is_served_witness :
  exists row url name page,
    last (invoices (fst discount_invoice)) = Some row
    /\ i_pdf_url row = Some url
    /\ invoice_file_route url = Some name
    /\ serve_invoice_pdf name (Some "1") (fst discount_invoice)
       = (fst discount_invoice, Returned (FileSent page true))
    /\ i_invoice_number row ∈ page_texts page.
Proof.
  assert (exists record,
            discount_invoice = (fst discount_invoice,
                                Returned (InvoiceBody record, 201))) as [record Hrun].
  { eexists. vm_compute. reflexivity. }
  exact (created_invoice_is_served (H:=offline) sample_clock
           (Some "http://localhost:5700/") discount_request sample_world _ record
           (Some "1") Hrun).
Defined.

Lemma created_invoice_is_listed_witness :
  exists records listed,
    listing_after_creation = (fst discount_invoice, Returned records)
    /\ listed ∈ records
    /\ listed !! "invoice_number" = Some (PStr "INV2025110001").
Proof.
  assert (exists record,
            discount_invoice = (fst discount_invoice,
                                Returned (InvoiceBody record, 201))) as [record Hrun].
  { eexists. vm_compute. reflexivity. }
  destruct (created_invoice_is_listed (H:=offline) (H0:=letters_ci)
              (H1:=plain_calendar) sample_clock (Some "http://localhost:5700/")
              discount_request sample_world _ record Hrun)
    as (records & listed & Hlist & Hin & Hnumber & _).
  exists records, listed. split; [exact Hlist|]. split; [exact Hin|].
  rewrite Hnumber. vm_compute. reflexivity.
Defined.

(** ** Sanitized texts *)

Section Sanitizing.
Context `{Platform}.

(** X30. What [sanitize_string] hands on.  A result is never the empty
    text and neither begins nor ends with white space, and sanitizing it
    again gives it back; a text made of white space only, like a missing
    value, becomes None. *)
Theorem sanitize_string_trimmed (value : pyvalue) :
  (forall result,
     sanitize_string value = Some result ->
     result <> "" /\ trimmed result /\ sanitize_string (PStr result) = Some result)
  /\ (forall blank, all_chars is_space blank = true ->
                    sanitize_string (PStr blank) = None)
  /\ sanitize_string PNone = None.
Proof.
  split; [|split; [|reflexivity]].
  - intros result Hrun.
    assert (result = strip (py_str value) /\ result <> "") as [-> Hne].
    { unfold sanitize_string in Hrun. destruct value; [discriminate|..];
        match type of Hrun with context [String.eqb ?s ""] =>
          destruct (String.eqb_spec s "") as [He | Hne] end;
        try discriminate; injection Hrun as <-; auto. }
    split; [exact Hne|]. split; [apply strip_trimmed|].
    unfold sanitize_string. cbn [py_str].
    rewrite (strip_fixed _ (strip_trimmed _)).
    destruct (String.eqb_spec (strip (py_str value)) "") as [He | _];
      [contradiction | reflexivity].
  - intros blank Hblank. unfold sanitize_string. cbn [py_str].
    rewrite (strip_spaces blank Hblank). reflexivity.
Qed.
End Sanitizing.
(** * Amounts with two decimals, end to end

    The rule of [create_invoice] from the request to the stored row and
    the response, for amounts written with at most two decimals: these
    are the amounts the schema stores, and on them neither the context
    of [Decimal] nor the columns round anything. *)


(** Read in hundredths, an amount with at most two decimals is at least
    its coefficient. *)
Lemma coefficient_le_cents (d : Decimal) :
  -2 <= exponent d -> Z.abs (coefficient d) <= Z.abs (cents d).
Proof.
  intros He. unfold cents, rescale.
  assert (0 < 10 ^ (exponent d - -2)) by (apply pow10_pos; lia).
  rewrite Z.abs_mul. rewrite (Z.abs_eq (10 ^ _)) by lia.
  pose proof (Z.abs_nonneg (coefficient d)). nia.
Qed.

Lemma within_precision_cents (d : Decimal) :
  -2 <= exponent d -> Z.abs (cents d) < 10 ^ 28 -> within_precision d.
Proof.
  intros He Hc. unfold within_precision.
  pose proof (coefficient_le_cents d He). lia.
Qed.

(** The pricing of amounts written with two decimals: every result has
    at most two decimals and at most 28 digits, and in hundredths the
    results are the integers the rule describes. *)
Lemma invoice_pricing_in_cents (plan_price fee requested : Decimal) :
  in_cents plan_price -> in_cents fee -> -2 <= exponent requested ->
  let p := invoice_pricing plan_price fee requested in
  (-2 <= exponent (pr_setup_discount p)
   /\ -2 <= exponent (pr_setup_fee_net p)
   /\ -2 <= exponent (pr_subtotal p))
  /\ cents (pr_setup_discount p) = Z.min (Z.max (cents requested) 0) (cents fee)
  /\ cents (pr_setup_fee_net p) = cents fee - cents (pr_setup_discount p)
  /\ 0 <= cents (pr_setup_fee_net p)
  /\ cents (pr_subtotal p) = cents plan_price + cents (pr_setup_fee_net p)
  /\ Forall within_precision
       [pr_setup_discount p; pr_setup_fee_net p; pr_subtotal p].
Proof.
  intros [Hpe Hpb] [Hfe Hfb] Hre. cbv zeta.
  destruct (invoice_pricing_at plan_price fee requested (-2) Hpe Hfe Hre ltac:(lia))
    as (Hde & Hd & Hte & Ht).
  cbv zeta in Hde, Hd, Hte, Ht.
  set (p := invoice_pricing plan_price fee requested) in *.
  assert (pr_setup_fee_net p = dec_sub fee (pr_setup_discount p)) as Hnet
    by reflexivity.
  assert (pr_subtotal p = dec_add plan_price (pr_setup_fee_net p)) as Hsub
    by reflexivity.
  assert (-2 <= exponent (pr_setup_fee_net p)) as Hne
    by (rewrite Hnet; unfold dec_sub, common_exponent; cbn [exponent]; lia).
  assert (-2 <= exponent (pr_subtotal p)) as Hse
    by (rewrite Hsub; unfold dec_add, common_exponent; cbn [exponent]; lia).
  assert (cents (pr_setup_fee_net p) = cents fee - cents (pr_setup_discount p))
    as Hn by (rewrite Hnet; unfold cents; apply dec_sub_exact; assumption).
  assert (cents (pr_subtotal p) = cents plan_price + cents (pr_setup_fee_net p))
    as Hs by (rewrite Hsub; unfold cents; apply dec_add_exact; assumption).
  fold (cents (pr_setup_discount p)) in Hd.
  fold (cents requested) in Hd. fold (cents fee) in Hd.
  change (10 ^ 27) with 1000000000000000000000000000 in Hpb, Hfb.
  split; [auto|]. split; [exact Hd|]. split; [exact Hn|].
  split; [lia|]. split; [exact Hs|].
  repeat constructor; apply within_precision_cents; try assumption;
    change (10 ^ 28) with 10000000000000000000000000000; lia.
Qed.



Section Priced.
Context `{Platform}.



End Priced.

Section PricedInvoice.
Context `{Platform}.

End PricedInvoice.



(** ** The wire format of the amounts *)

Section WireFormat.
Context `{Platform}.

(** C4 (as amended). Serialization converts every monetary field
    present in a record to the binary64 number nearest to its decimal
    value, and leaves an absent field absent: the record handed to
    [jsonify] holds binary floating point, not decimals.  The pricing
    before it is decimal arithmetic, and exact for amounts written with
    at most two decimals: every result has at most two decimals and at
    most the 28 digits [Decimal] keeps, so nothing is rounded, and in
    hundredths the total is the integer sum of the plan price and the
    setup fee less the applied discount. *)
Theorem serialized_money_is_binary64 (host_url : option string)
    (invoice record : gmap string pyvalue) :
  serialize_invoice_record host_url invoice = Returned record ->
  (forall field,
     field ∈ numeric_fields ->
     match invoice !! field with
     | None => record !! field = None
     | Some value =>
         exists d, as_decimal_value value = Returned d
                   /\ record !! field = Some (PFloat (float_of_Decimal d))
     end)
  /\ (forall plan_price fee requested,
        in_cents plan_price -> in_cents fee -> -2 <= exponent requested ->
        let p := invoice_pricing plan_price fee requested in
        cents (pr_total p)
        = cents plan_price + (cents fee - cents (pr_setup_discount p))
        /\ Forall (fun d => -2 <= exponent d /\ within_precision d)
                  [pr_setup_discount p; pr_setup_fee_net p; pr_subtotal p;
                   pr_total p]).
Proof.
  intros Hrun. split.
  - intros field Hfield.
    unfold serialize_invoice_record in Hrun.
    destruct (convert_numeric_fields numeric_fields invoice) as [converted|e] eqn:Hconv;
      [|discriminate].
    cbn [obind] in Hrun.
    destruct (absolute_invoice_url _ _) as [url|e]; [|discriminate].
    cbn [obind] in Hrun. injection Hrun as <-.
    destruct (convert_numeric_fields_spec _ _ _ numeric_fields_NoDup Hconv field)
      as [_ Hin]. specialize (Hin Hfield).
    unfold numeric_fields in Hfield.
    rewrite !elem_of_cons, elem_of_nil in Hfield.
    rewrite !lookup_insert_ne
      by (intros <-; decompose [or] Hfield; try discriminate; contradiction).
    exact Hin.
  - intros plan_price fee requested Hp Hf Hr. cbv zeta.
    destruct (invoice_pricing_in_cents plan_price fee requested Hp Hf Hr)
      as ((Hde & Hne & Hse) & _ & Hn & _ & Hs & Hfit).
    cbv zeta in Hde, Hne, Hse, Hn, Hs, Hfit.
    set (p := invoice_pricing plan_price fee requested) in *.
    assert (pr_total p = pr_subtotal p) as -> by reflexivity.
    split; [rewrite Hs, Hn; reflexivity|].
    inversion Hfit as [|? ? Hfd Hrest]; subst.
    inversion Hrest as [|? ? Hfn Hrest']; subst.
    inversion Hrest' as [|? ? Hfs _]; subst.
    repeat (apply Forall_cons; split; [split; assumption|]). apply Forall_nil_2.
Qed.
End WireFormat.

Lemma serialized_money_is_binary64_witness :
  serialize_invoice_record (H:=offline) None wire_sample = Returned wire_sample_record
  /\ match wire_sample !! "total" with
     | None => wire_sample_record !! "total" = None
     | Some value =>
         exists d, as_decimal_value (H:=offline) value = Returned d
                   /\ wire_sample_record !! "total" = Some (PFloat (float_of_Decimal d))
     end
  /\ cents (pr_total (invoice_pricing (mkDecimal 199900 (-2)) (mkDecimal 3000 0)
                                      (mkDecimal 1 (-1))))
     = 199900 + (300000 - 10).
Proof.
  assert (serialize_invoice_record (H:=offline) None wire_sample
          = Returned wire_sample_record) as Hrun by (vm_compute; reflexivity).
  split; [exact Hrun|].
  destruct (serialized_money_is_binary64 (H:=offline) None wire_sample
              wire_sample_record Hrun) as [Hfields Hpricing].
  split.
  - apply Hfields. unfold numeric_fields. rewrite !elem_of_cons. auto.
  - apply (Hpricing (mkDecimal 199900 (-2)) (mkDecimal 3000 0) (mkDecimal 1 (-1))).
    + split; [cbn; lia | vm_compute; reflexivity].
    + split; [cbn; lia | vm_compute; reflexivity].
    + cbn. lia.
Defined.

